(** * sb8200-exporter: the scrape-and-parse pipeline, embedded in Rocq

    The exporter (package [main] of the repository) logs into the modem's
    web interface, fetches two pages and reads typed channel and device
    state out of their tables.  This development embeds that pipeline as
    Rocq functions and proves what the specification says about it.

    Layout: the Go library functions the program calls ([strconv.ParseFloat],
    [strings.TrimRight], [regexp.Split] for [\D+], the goquery selection
    operations) come first, each in a module named after its Go package;
    then the program itself, function by function, under the names it has
    in the source; then the lemmas and the theorems.

    A call of [Login], [GetURL], [Scrape] or [Collect] ends by returning or
    by panicking, and its embedding says which.  Where a theorem is about
    some lines of one of these functions rather than about a call of it,
    the lines have a definition of their own ([ParseUptime],
    [connectivity_of], [product_information], [Login_answer],
    [modem_metrics]) and the function is written in terms of it. *)

From Stdlib Require Import ZArith List String Ascii Bool Lia.
From Stdlib Require Import Floats.SpecFloat.
Import ListNotations.

Local Open Scope string_scope.
Local Open Scope Z_scope.

(** ** Go values *)

(** [float64] is IEEE 754 binary64.  The Standard Library's [spec_float]
    with precision 53 and exponent bound 1024 is its executable
    specification (round to nearest, ties to even). *)
Definition float64 : Type := spec_float.

Module f64.
Definition prec : Z := 53.
Definition emax : Z := 1024.

(** conversion of an integer constant, [float64(z)] *)
Definition of_Z (z : Z) : float64 := binary_normalize prec emax z 0 false.

Definition zero : float64 := S754_zero false.
Definition one : float64 := of_Z 1.

Definition add (x y : float64) : float64 := SFadd prec emax x y.
Definition mul (x y : float64) : float64 := SFmul prec emax x y.
Definition ltb (x y : float64) : bool := SFltb x y.

(** [x < 0] *)
Definition is_negative (x : float64) : bool := ltb x zero.

(** The integer a float denotes, when it denotes one exactly. *)
Definition to_Z (x : float64) : option Z :=
  match x with
  | S754_zero _ => Some 0
  | S754_finite s m e =>
      let v := if s then Zneg m else Zpos m in
      match e with
      | Z0 => Some v
      | Zpos p => Some (v * 2 ^ e)
      | Zneg p => if (Zpos m) mod (2 ^ Zpos p) =? 0
                  then Some (v / 2 ^ Zpos p) else None
      end
  | _ => None
  end.
End f64.

(** Go's [error] interface, with the concrete errors this program can see. *)
Inductive error : Type :=
| errorString (s : string)                  (* errors.New(s) *)
| NumError (Func Num : string) (Err : error) (* *strconv.NumError *)
| externalError (what : string).            (* raised inside net/http, io *)

Module errors.
Definition New (s : string) : error := errorString s.
End errors.

(** ** Bytes *)

Module byte.
Definition code (c : ascii) : Z := Z.of_N (N_of_ascii c).

(** ['0' <= c && c <= '9'] *)
Definition is_digit (c : ascii) : bool := (48 <=? code c) && (code c <=? 57).

(** strconv's [lower(c) = c | ('x' - 'X')] *)
Definition lower (c : ascii) : ascii :=
  match c with
  | Ascii b0 b1 b2 b3 b4 _ b6 b7 => Ascii b0 b1 b2 b3 b4 true b6 b7
  end.

(** ['a' <= lower(c) && lower(c) <= 'f'] *)
Definition is_hex_letter (c : ascii) : bool :=
  (97 <=? code (lower c)) && (code (lower c) <=? 102).

Fixpoint mem (c : ascii) (set : string) : bool :=
  match set with
  | EmptyString => false
  | String d set' => Ascii.eqb c d || mem c set'
  end.

(** every byte of [s] occurs in [set] *)
Fixpoint subset (s set : string) : bool :=
  match s with
  | EmptyString => true
  | String c s' => mem c set && subset s' set
  end.

(** the last byte of a string *)
Fixpoint last (s : string) : option ascii :=
  match s with
  | EmptyString => None
  | String c EmptyString => Some c
  | String _ s' => last s'
  end.

(** every byte is a decimal digit *)
Fixpoint all_digits (s : string) : bool :=
  match s with
  | EmptyString => true
  | String c s' => is_digit c && all_digits s'
  end.

(** the number a string of decimal digits writes, continuing from [acc] *)
Fixpoint digits_value (acc : Z) (s : string) : Z :=
  match s with
  | EmptyString => acc
  | String c s' => digits_value (acc * 10 + (code c - 48)) s'
  end.
End byte.

(** ** package strings *)

Module strings.
(** [strings.TrimRight(s, cutset)]: [s] without its trailing bytes that
    occur in [cutset].  (Go removes trailing code points; for a cutset of
    ASCII bytes, which is what every call site passes, that is the same.) *)
Fixpoint TrimRight (s cutset : string) : string :=
  match s with
  | EmptyString => EmptyString
  | String c s' =>
      match TrimRight s' cutset with
      | EmptyString => if byte.mem c cutset then EmptyString
                       else String c EmptyString
      | t => String c t
      end
  end.

(** [strings.HasSuffix(s, suffix)] *)
Fixpoint HasSuffix (s suffix : string) : bool :=
  String.eqb s suffix ||
  match s with
  | EmptyString => false
  | String _ s' => HasSuffix s' suffix
  end.
End strings.

(** ** package regexp, for the one expression the program compiles *)

Module regexp.
Definition cons_head (c : ascii) (ts : list string) : list string :=
  match ts with
  | [] => [String c EmptyString]
  | t :: ts' => String c t :: ts'
  end.

(** [regexp.MustCompile(`\D+`).Split(s, -1)]: the pieces of [s] between
    the maximal runs of non-digits.  A run at either end leaves an empty
    piece there; the empty string gives one empty piece. *)
Fixpoint Split_nondigits (s : string) : list string :=
  match s with
  | EmptyString => [EmptyString]
  | String c s' =>
      if byte.is_digit c then cons_head c (Split_nondigits s')
      else match s' with
           | String d _ =>
               if byte.is_digit d then EmptyString :: Split_nondigits s'
               else Split_nondigits s'
           | EmptyString => EmptyString :: Split_nondigits s'
           end
  end.
End regexp.

(** ** package strconv *)

Module strconv.
Definition ErrSyntax : error := errors.New "invalid syntax".
Definition ErrRange : error := errors.New "value out of range".
Definition syntaxError (fn str : string) : error := NumError fn str ErrSyntax.
Definition rangeError (fn str : string) : error := NumError fn str ErrRange.

(** the case folding of [commonPrefixLenIgnoreCase]: ['A'..'Z'] only *)
Definition fold_upper (c : ascii) : ascii :=
  if (65 <=? byte.code c) && (byte.code c <=? 90) then byte.lower c else c.

Fixpoint fold_string (s : string) : string :=
  match s with
  | EmptyString => EmptyString
  | String c s' => String (fold_upper c) (fold_string s')
  end.

Definition is_inf_word (s : string) : bool :=
  String.eqb (fold_string s) "inf" || String.eqb (fold_string s) "infinity".

(** [special]: the signed words "inf" and "infinity" and the unsigned
    word "nan", in any letter case.  [special] itself reads a prefix and
    [ParseFloat] rejects a string of which only a prefix was read; this is
    the two together, on the whole string. *)
Definition special (s : string) : option float64 :=
  match s with
  | EmptyString => None
  | String c t =>
      if Ascii.eqb c "+" then
        if is_inf_word t then Some (S754_infinity false) else None
      else if Ascii.eqb c "-" then
        if is_inf_word t then Some (S754_infinity true) else None
      else if Ascii.eqb (byte.lower c) "i" then
        if is_inf_word s then Some (S754_infinity false) else None
      else if Ascii.eqb (byte.lower c) "n" then
        if String.eqb (fold_string s) "nan" then Some S754_nan else None
      else None
  end.

(** The bytes a string that [ParseFloat] accepts can end in: a digit, the
    point, an underscore (which [underscoreOK] then refuses), or the last
    letter of "inf", "infinity" or "nan". *)
Definition number_end (c : ascii) : bool :=
  byte.is_digit c || Ascii.eqb c "." || Ascii.eqb c "_"
  || byte.mem (fold_upper c) "fyn".

(** The state of [readFloat]'s digit loop.  [mant] holds every
    significant digit read (Go keeps the first 19, or 16 in base 16, and
    a flag that some were cut, from which it still rounds correctly),
    [nd] counts them, [dp] is the position of the point. *)
Record mantissa : Type := mkMantissa {
  mant : Z;
  nd : Z;
  dp : Z;
  sawdot : bool;
  sawdigits : bool
}.

Definition mantissa0 : mantissa := mkMantissa 0 0 0 false false.

Definition push_digit (base : Z) (v : Z) (st : mantissa) : mantissa :=
  mkMantissa (mant st * base + v) (nd st + 1) (dp st) (sawdot st) true.

(** the [loop:] of [readFloat]; returns the state and the unread rest *)
Fixpoint read_digits (hex : bool) (st : mantissa) (s : string)
  : mantissa * string :=
  match s with
  | EmptyString => (st, EmptyString)
  | String c s' =>
      if Ascii.eqb c "_" then read_digits hex st s'
      else if Ascii.eqb c "." then
        if sawdot st then (st, s)
        else read_digits hex
               (mkMantissa (mant st) (nd st) (nd st) true (sawdigits st)) s'
      else if byte.is_digit c then
        if Ascii.eqb c "0" && (nd st =? 0) then
          read_digits hex
            (mkMantissa (mant st) (nd st) (dp st - 1) (sawdot st) true) s'
        else
          read_digits hex
            (push_digit (if hex then 16 else 10) (byte.code c - 48) st) s'
      else if hex && byte.is_hex_letter c then
        read_digits hex
          (push_digit 16 (byte.code (byte.lower c) - 97 + 10) st) s'
      else (st, s)
  end.

(** the digits of the exponent, with Go's cap on the accumulated value *)
Fixpoint read_exp_digits (e : Z) (s : string) : Z * string :=
  match s with
  | EmptyString => (e, EmptyString)
  | String c s' =>
      if Ascii.eqb c "_" then read_exp_digits e s'
      else if byte.is_digit c then
        read_exp_digits (if e <? 10000 then e * 10 + (byte.code c - 48) else e) s'
      else (e, s)
  end.

(** what follows the exponent letter: an optional sign, then a digit *)
Definition read_exp (s : string) : option (Z * string) :=
  match s with
  | EmptyString => None
  | String c s1 =>
      let '(esign, s2) :=
        if Ascii.eqb c "+" then (1, s1)
        else if Ascii.eqb c "-" then (-1, s1)
        else (1, s) in
      match s2 with
      | EmptyString => None
      | String d _ =>
          if byte.is_digit d then
            let '(e, rest) := read_exp_digits 0 s2 in Some (e * esign, rest)
          else None
      end
  end.

Record parsed : Type := mkParsed {
  p_neg : bool;
  p_hex : bool;
  p_mant : Z;      (* the digits, as an integer *)
  p_exp : Z;       (* power of ten, or of two when [p_hex] *)
  p_rest : string  (* what [readFloat] left unread *)
}.

Definition read_sign (s : string) : bool * string :=
  match s with
  | String c s' =>
      if Ascii.eqb c "+" then (false, s')
      else if Ascii.eqb c "-" then (true, s')
      else (false, s)
  | EmptyString => (false, s)
  end.

(** [i+2 < len(s) && s[i] == '0' && lower(s[i+1]) == 'x'] *)
Definition read_base (s : string) : bool * string :=
  match s with
  | String c0 (String c1 (String c2 s')) =>
      if Ascii.eqb c0 "0" && Ascii.eqb (byte.lower c1) "x"
      then (true, String c2 s') else (false, s)
  | _ => (false, s)
  end.

Definition readFloat (s : string) : option parsed :=
  match s with
  | EmptyString => None
  | _ =>
      let '(neg, s1) := read_sign s in
      let '(hex, s2) := read_base s1 in
      let '(st, s3) := read_digits hex mantissa0 s2 in
      if negb (sawdigits st) then None
      else
        let dp0 := if sawdot st then dp st else nd st in
        let scale := if hex then 4 else 1 in
        let finish (dp1 : Z) (rest : string) :=
          Some (mkParsed neg hex (mant st)
                  (if mant st =? 0 then 0 else dp1 - nd st * scale) rest) in
        match s3 with
        | String c s4 =>
            if Ascii.eqb (byte.lower c) (if hex then "p" else "e")%char then
              match read_exp s4 with
              | None => None
              | Some (e, rest) => finish (dp0 * scale + e) rest
              end
            else if hex then None
            else finish (dp0 * scale) s3
        | EmptyString =>
            if hex then None else finish (dp0 * scale) s3
        end
  end.

(** [underscoreOK]: an underscore stands only between digits, or between
    the base prefix and a digit.  [saw] is the class of the last byte. *)
Inductive saw : Type := saw_start | saw_digit | saw_underscore | saw_other.

Fixpoint underscore_loop (hex : bool) (sw : saw) (s : string) : bool :=
  match s with
  | EmptyString => match sw with saw_underscore => false | _ => true end
  | String c s' =>
      if byte.is_digit c || (hex && byte.is_hex_letter c)
      then underscore_loop hex saw_digit s'
      else if Ascii.eqb c "_" then
        match sw with
        | saw_digit => underscore_loop hex saw_underscore s'
        | _ => false
        end
      else
        match sw with
        | saw_underscore => false
        | _ => underscore_loop hex saw_other s'
        end
  end.

Definition underscoreOK (s : string) : bool :=
  let s1 := match s with
            | String c s' =>
                if Ascii.eqb c "-" || Ascii.eqb c "+" then s' else s
            | EmptyString => s
            end in
  match s1 with
  | String c0 (String c1 s2) =>
      if Ascii.eqb c0 "0" &&
         (Ascii.eqb (byte.lower c1) "b" || Ascii.eqb (byte.lower c1) "o"
          || Ascii.eqb (byte.lower c1) "x")
      then underscore_loop (Ascii.eqb (byte.lower c1) "x") saw_digit s2
      else underscore_loop false saw_start s1
  | _ => underscore_loop false saw_start s1
  end.

(** The float64 nearest to [m * 10^k] (ties to even). *)
Definition round_decimal (neg : bool) (m : positive) (k : Z) : float64 :=
  match k with
  | Zneg p =>
      SFdiv f64.prec f64.emax
        (S754_finite neg m 0) (S754_finite false (10 ^ p)%positive 0)
  | _ =>
      binary_normalize f64.prec f64.emax
        (cond_Zopp neg (Zpos m * 10 ^ k)) 0 false
  end.

(** The float64 nearest to [m * 2^k]. *)
Definition round_binary (neg : bool) (m : positive) (k : Z) : float64 :=
  binary_normalize f64.prec f64.emax (cond_Zopp neg (Zpos m)) k false.

Definition value_of (p : parsed) : float64 :=
  match p_mant p with
  | Zpos m => if p_hex p then round_binary (p_neg p) m (p_exp p)
              else round_decimal (p_neg p) m (p_exp p)
  | _ => S754_zero (p_neg p)
  end.

(** [strconv.ParseFloat(s, 64)].  A string that is not a floating-point
    literal in full gives [(0, syntax error)]; a literal beyond the
    largest float64 gives [(+-Inf, range error)]; otherwise the nearest
    float64 and no error.  (Go tests [underscoreOK] only when it has read
    an underscore; without one the test succeeds anyway.) *)
Definition ParseFloat (s : string) : float64 * option error :=
  match special s with
  | Some v => (v, None)
  | None =>
      match readFloat s with
      | None => (f64.zero, Some (syntaxError "ParseFloat" s))
      | Some p =>
          match p_rest p with
          | String _ _ => (f64.zero, Some (syntaxError "ParseFloat" s))
          | EmptyString =>
              if negb (underscoreOK s)
              then (f64.zero, Some (syntaxError "ParseFloat" s))
              else
                match value_of p with
                | S754_infinity sg =>
                    (S754_infinity sg, Some (rangeError "ParseFloat" s))
                | v => (v, None)
                end
          end
      end
  end.
End strconv.

(** ** packages html and goquery *)

Module html.
(** A parsed document: the tree [html.Parse] builds.  Of an element's
    attributes the program's selectors read only [class]. *)
#[warnings="-register-all"]
Inductive Node : Type :=
| DocumentNode (children : list Node)
| ElementNode (Data : string) (class : list string) (children : list Node)
| TextNode (Data : string).

Definition is_element (n : Node) : bool :=
  match n with ElementNode _ _ _ => true | _ => false end.
End html.

Module goquery.
Import html.

(** What a selector can see of an element: its tag, its classes and its
    position among the element children of its parent ([None] directly
    under the document node, where [:nth-child] never matches). *)
Record place : Type := mkPlace {
  tag : string;
  classes : list string;
  index : option nat
}.

(** One node of a selection, with the places of the elements from the
    node itself (when it is an element) up to the root. *)
Record Item : Type := mkItem {
  path : list place;
  node : Node
}.

Definition Selection : Type := list Item.

(** A compound selector [tag.class:nth-child(n)], each part optional. *)
Record compound : Type := mkCompound {
  sel_tag : option string;
  sel_class : option string;
  sel_nth : option nat
}.

(** [c1 > c2 > ... > cn], in the order written. *)
Definition Selector : Type := list compound.

Definition match_compound (c : compound) (p : place) : bool :=
  match sel_tag c with
  | Some t => String.eqb t (tag p)
  | None => true
  end &&
  match sel_class c with
  | Some k => existsb (String.eqb k) (classes p)
  | None => true
  end &&
  match sel_nth c with
  | Some n => match index p with
              | Some i => Nat.eqb i n
              | None => false
              end
  | None => true
  end.

(** the selector, last compound first, against a path, node first *)
Fixpoint match_chain (rsel : list compound) (ps : list place) : bool :=
  match rsel with
  | [] => true
  | c :: rsel' =>
      match ps with
      | [] => false
      | p :: ps' => match_compound c p && match_chain rsel' ps'
      end
  end.

Definition next_index (i : nat) (n : Node) : nat :=
  if is_element n then S i else i.

(** the matches in the subtree of [n], [n] included, in document order;
    [i] is the position [n] has if it is an element *)
Fixpoint find_from (rsel : list compound) (above : list place)
    (under_doc : bool) (i : nat) (n : Node) {struct n} : Selection :=
  match n with
  | ElementNode t cls kids =>
      let here := mkPlace t cls (if under_doc then None else Some i) :: above in
      app (if match_chain rsel here then [mkItem here n] else [])
        ((fix go (j : nat) (ks : list Node) {struct ks} : Selection :=
            match ks with
            | [] => []
            | k :: ks' =>
                app (find_from rsel here false j k) (go (next_index j k) ks')
            end) 1%nat kids)
  | _ => []
  end.

Fixpoint find_children (rsel : list compound) (above : list place)
    (under_doc : bool) (j : nat) (ks : list Node) : Selection :=
  match ks with
  | [] => []
  | k :: ks' =>
      app (find_from rsel above under_doc j k)
        (find_children rsel above under_doc (next_index j k) ks')
  end.

(** [it.Find(sel)] for a selection of one node: the descendants of the
    node that match, in document order. *)
Definition Find (sel : Selector) (it : Item) : Selection :=
  match node it with
  | DocumentNode kids => find_children (rev sel) (path it) true 1%nat kids
  | ElementNode _ _ kids => find_children (rev sel) (path it) false 1%nat kids
  | TextNode _ => []
  end.

Definition First (s : Selection) : Selection := firstn 1 s.

Fixpoint node_text (n : Node) : string :=
  match n with
  | TextNode d => d
  | ElementNode _ _ kids | DocumentNode kids =>
      (fix go (ks : list Node) : string :=
         match ks with
         | [] => EmptyString
         | k :: ks' => node_text k ++ go ks'
         end) kids
  end.

(** [s.Text()]: the text of every node of the selection, concatenated;
    the empty string for the empty selection. *)
Fixpoint Text (s : Selection) : string :=
  match s with
  | [] => EmptyString
  | it :: s' => node_text (node it) ++ Text s'
  end.

(** the document as a selection of one node *)
Definition Document (root : Node) : Item := mkItem [] root.

Definition by_tag (t : string) : compound := mkCompound (Some t) None None.
Definition by_class (k : string) : compound := mkCompound None (Some k) None.
Definition nth_child (t : string) (n : nat) : compound :=
  mkCompound (Some t) None (Some n).
Definition class_nth_child (t k : string) (n : nat) : compound :=
  mkCompound (Some t) (Some k) (Some n).
End goquery.

(** ** package net/http, as far as the program looks at it *)

Inductive result (A : Type) : Type :=
| Ok (a : A)
| Err (e : error).
Arguments Ok {A} a.
Arguments Err {A} e.

(** How a call ends: it returns, or it panics.  The panic of the pipeline
    is the run-time error of Go for a [nil] dereference ("invalid memory
    address or nil pointer dereference"). *)
Inductive outcome (A : Type) : Type :=
| Returns (a : A)
| Panics.
Arguments Returns {A} a.
Arguments Panics {A}.

Module http.
Record Cookie : Type := mkCookie { Name : string; Value : string }.

Definition StatusOK : Z := 200.
Definition StatusUnauthorized : Z := 401.

(** A response.  The program consumes a body in one of two ways, and the
    record holds what each gives: [ReadAll] is the result of
    [io.ReadAll(resp.Body)], [Parsed] that of
    [goquery.NewDocumentFromReader(resp.Body)]. *)
Record Response : Type := mkResponse {
  StatusCode : Z;
  Cookies : list Cookie;
  ReadAll : result string;
  Parsed : result html.Node
}.

(** A request: its URL, its [Body] ([None] is the [nil] interface) and the
    cookies added to it. *)
Record Request : Type := mkRequest {
  URL : string;
  Body : option string;
  Jar : list Cookie
}.

(** The transport and the device behind it.  [Parse url] is the error, if
    any, that [http.NewRequest] gets from [url.Parse] for a URL that is not
    well formed; [Do req] sends a request.  One scrape sends its requests
    to different URLs, so a function of the request describes any run. *)
Record Client : Type := mkClient {
  Parse : string -> option error;
  Do : Request -> result Response
}.

(** [http.NewRequest(http.MethodGet, url, body)]: the request keeps the
    body it is given.  Every call of the program passes [nil], so the
    request it gets has a [nil] [Body]. *)
Definition NewRequest (client : Client) (url : string) (body : option string)
    : result Request :=
  match Parse client url with
  | Some err => Err err
  | None => Ok (mkRequest url body [])
  end.

(** [req.AddCookie(c)] reads [c.Name] and [c.Value]: [None] is the panic
    it ends in for a [nil] cookie. *)
Definition AddCookie (req : Request) (c : option Cookie) : option Request :=
  match c with
  | None => None
  | Some cookie => Some (mkRequest (URL req) (Body req) (Jar req ++ [cookie]))
  end.
End http.

(** ** package log: the lines a call writes, in order *)

Inductive LogEntry : Type :=
| LogError (msg : string)  (* log.Error(msg) *)
| LogDebug (e : error).    (* log.Debug(err) *)

(** * The program *)

Record DownstreamChannel : Type := mkDownstreamChannel {
  ds_ChannelID : string;
  ds_LockStatus : float64;
  ds_Modulation : string;
  ds_Frequency : string;
  ds_Power : float64;
  ds_SNR : float64;
  ds_CorrectedErrors : float64;
  ds_UncorrectableErrors : float64
}.

Record UpstreamChannel : Type := mkUpstreamChannel {
  us_Channel : string;
  us_ChannelID : string;
  us_LockStatus : float64;
  us_USChannelType : string;
  us_Frequency : string;
  us_Width : string;
  us_Power : float64
}.

Record ArrisModem : Type := mkArrisModem {
  Host : string;
  ConnectivityState : float64;
  Uptime : float64;
  HardwareVersion : string;
  SoftwareVersion : string;
  MACAddress : string;
  SerialNumber : string;
  DownstreamBondedChannels : list DownstreamChannel;
  UpstreamBondedChannels : list UpstreamChannel
}.

Record Exporter : Type := mkExporter {
  e_Host : string;
  e_AuthToken : string
}.

(** the zero values a bare [return] hands back on the error paths *)
Definition DownstreamChannel_zero : DownstreamChannel :=
  mkDownstreamChannel EmptyString f64.zero EmptyString EmptyString f64.zero f64.zero f64.zero f64.zero.

Definition UpstreamChannel_zero : UpstreamChannel :=
  mkUpstreamChannel EmptyString EmptyString f64.zero EmptyString EmptyString EmptyString f64.zero.

Definition ArrisModem_zero : ArrisModem :=
  mkArrisModem EmptyString f64.zero f64.zero EmptyString EmptyString EmptyString EmptyString [] [].

(** [td:nth-child(%d)] *)
Definition td_nth_child (child : nat) : goquery.Selector :=
  [goquery.nth_child "td" child].

Definition ScrapeColStr (element : goquery.Item) (child : nat) : string :=
  goquery.Text (goquery.First (goquery.Find (td_nth_child child) element)).

Definition ScrapeUnitValue (element : goquery.Item) (child : nat)
    (trim : string) : float64 * option error :=
  let valStr := strings.TrimRight (ScrapeColStr element child) trim in
  match strconv.ParseFloat valStr with
  | (_, Some err) => (f64.zero, Some err)
  | (valFloat, None) => (valFloat, None)
  end.

Definition ScrapeDownstreamTableRow (element : goquery.Item)
    : DownstreamChannel * option error :=
  if String.eqb (ScrapeColStr element 1) "Channel ID" then
    (DownstreamChannel_zero, Some (errors.New "skip parsing second header row"))
  else
    let lockStatus :=
      if String.eqb (ScrapeColStr element 2) "Locked" then f64.one else f64.zero in
    match ScrapeUnitValue element 5 " dBmV" with
    | (_, Some err) => (DownstreamChannel_zero, Some err)
    | (power, None) =>
    match ScrapeUnitValue element 6 " dB" with
    | (_, Some err) => (DownstreamChannel_zero, Some err)
    | (snr, None) =>
    match ScrapeUnitValue element 7 EmptyString with
    | (_, Some err) => (DownstreamChannel_zero, Some err)
    | (correctedErrors, None) =>
    match ScrapeUnitValue element 8 EmptyString with
    | (_, Some err) => (DownstreamChannel_zero, Some err)
    | (uncorrectableErrors, None) =>
        (mkDownstreamChannel
           (ScrapeColStr element 1)
           lockStatus
           (ScrapeColStr element 3)
           (ScrapeColStr element 4)
           power
           snr
           correctedErrors
           uncorrectableErrors, None)
    end end end end.

(** [element.Each]: the rows in order; a row that gives an error is logged
    and contributes nothing. *)
Fixpoint ScrapeDownstreamTable (element : goquery.Selection)
    : list DownstreamChannel * list LogEntry :=
  match element with
  | [] => ([], [])
  | row :: rows =>
      let '(downstreamChannels, logged) := ScrapeDownstreamTable rows in
      match ScrapeDownstreamTableRow row with
      | (_, Some err) => (downstreamChannels, LogDebug err :: logged)
      | (parsedRow, None) => (parsedRow :: downstreamChannels, logged)
      end
  end.

Definition ScrapeUpstreamTableRow (element : goquery.Item)
    : UpstreamChannel * option error :=
  let firstVal := ScrapeColStr element 1 in
  if String.eqb firstVal "Channel" || String.eqb firstVal EmptyString then
    (UpstreamChannel_zero, Some (errors.New "skip first two header row"))
  else
    let lockStatus :=
      if String.eqb (ScrapeColStr element 3) "Locked" then f64.one else f64.zero in
    match ScrapeUnitValue element 7 " dBmV" with
    | (_, Some err) => (UpstreamChannel_zero, Some err)
    | (power, None) =>
        (mkUpstreamChannel
           (ScrapeColStr element 1)
           (ScrapeColStr element 2)
           lockStatus
           (ScrapeColStr element 4)
           (ScrapeColStr element 5)
           (ScrapeColStr element 6)
           power, None)
    end.

Fixpoint ScrapeUpstreamTable (element : goquery.Selection)
    : list UpstreamChannel * list LogEntry :=
  match element with
  | [] => ([], [])
  | row :: rows =>
      let '(upstreamChannels, logged) := ScrapeUpstreamTable rows in
      match ScrapeUpstreamTableRow row with
      | (_, Some err) => (upstreamChannels, LogDebug err :: logged)
      | (parsedRow, None) => (parsedRow :: upstreamChannels, logged)
      end
  end.

(** The uptime loop of [Scrape]: every part is parsed, the first four are
    folded, any parse error ends the loop with that error.  [i] is the
    index of the next part.  Each multiplication and addition rounds on its
    own. *)
Fixpoint uptime_loop (i : nat) (uptime : float64) (uptimeParts : list string)
    : float64 * option error :=
  match uptimeParts with
  | [] => (uptime, None)
  | nStr :: rest =>
      match strconv.ParseFloat nStr with
      | (_, Some err) => (uptime, Some err)
      | (n, None) =>
          let uptime' :=
            match i with
            | 0%nat => n                                              (* days *)
            | 1%nat => f64.add (f64.mul uptime (f64.of_Z 24)) n       (* hours *)
            | 2%nat => f64.add (f64.mul uptime (f64.of_Z 60)) n       (* minutes *)
            | 3%nat => f64.add (f64.mul uptime (f64.of_Z 60)) n       (* seconds *)
            | _ => uptime                                 (* ignore milliseconds *)
            end in
          uptime_loop (S i) uptime' rest
      end
  end.

(** From the uptime text to seconds: lines 391 to 409 of the source. *)
Definition ParseUptime (uptimeStr : string) : float64 * option error :=
  uptime_loop 0 f64.zero (regexp.Split_nondigits uptimeStr).

(** the selectors [Scrape] uses, as it writes them *)

(** [.content > center:nth-child(2) > table:nth-child(1) > tbody:nth-child(1) > tr:nth-child(4) > td:nth-child(2)] *)
Definition connectivityStateSelector : goquery.Selector :=
  [goquery.by_class "content"; goquery.nth_child "center" 2;
   goquery.nth_child "table" 1; goquery.nth_child "tbody" 1;
   goquery.nth_child "tr" 4; goquery.nth_child "td" 2].

(** [table.simpleTable:nth-child(t) > tbody:nth-child(1) > tr:nth-child(r) > td:nth-child(2)] *)
Definition simpleTable_cell (t r : nat) : goquery.Selector :=
  [goquery.class_nth_child "table" "simpleTable" t; goquery.nth_child "tbody" 1;
   goquery.nth_child "tr" r; goquery.nth_child "td" 2].

Definition hwVerSelector : goquery.Selector := simpleTable_cell 2 3.
Definition swVerSelector : goquery.Selector := simpleTable_cell 2 4.
Definition macAddrSelector : goquery.Selector := simpleTable_cell 2 5.
Definition serialSelector : goquery.Selector := simpleTable_cell 2 6.
Definition uptimeSelector : goquery.Selector := simpleTable_cell 5 2.

Definition selText (sel : goquery.Selector) (document : goquery.Item) : string :=
  goquery.Text (goquery.First (goquery.Find sel document)).

(** the four URLs, each a [fmt.Sprintf] in the source *)
Definition logout_url (e : Exporter) : string :=
  "https://" ++ e_Host e ++ "/logout.html".
Definition login_url (e : Exporter) : string :=
  "https://" ++ e_Host e ++ "/cmconnectionstatus.html?login_" ++ e_AuthToken e.
Definition status_url (e : Exporter) (csrfToken : string) : string :=
  "https://" ++ e_Host e ++ "/cmconnectionstatus.html?ct_" ++ csrfToken.
Definition info_url (e : Exporter) (csrfToken : string) : string :=
  "https://" ++ e_Host e ++ "/cmswinfo.html?ct_" ++ csrfToken.

(** [cookie.Name == "sessionId" && cookie.Value != EmptyString] *)
Definition is_session_cookie (cookie : http.Cookie) : bool :=
  String.eqb (http.Name cookie) "sessionId"
  && negb (String.eqb (http.Value cookie) EmptyString).

(** The loop over the tables of the status page, [case 1] and [case 2] of
    its switch: the second table of the document is read as the downstream
    table, the third as the upstream table; a table that is not there
    leaves its slice [nil]. *)
Definition downstream_of (document : goquery.Item)
    : list DownstreamChannel * list LogEntry :=
  match nth_error (goquery.Find [goquery.by_tag "table"] document) 1 with
  | Some element =>
      ScrapeDownstreamTable (goquery.Find [goquery.by_tag "tr"] element)
  | None => ([], [])
  end.

Definition upstream_of (document : goquery.Item)
    : list UpstreamChannel * list LogEntry :=
  match nth_error (goquery.Find [goquery.by_tag "table"] document) 2 with
  | Some element =>
      ScrapeUpstreamTable (goquery.Find [goquery.by_tag "tr"] element)
  | None => ([], [])
  end.

(** What [Login] makes of the answer to the login request: lines 172 to
    199.  Named results [(sessionID, csrfToken, err)]; [sessionID] is a
    pointer, [None] while it is [nil]. *)
Definition Login_answer (resp : http.Response)
    : option http.Cookie * string * option error :=
  if http.StatusCode resp =? http.StatusOK then
    match http.ReadAll resp with
    | Err err => (None, EmptyString, Some err)
    | Ok body =>
        let csrfToken := body in
        match find is_session_cookie (http.Cookies resp) with
        | Some cookie => (Some cookie, csrfToken, None)
        | None => (None, csrfToken, Some (errors.New "missing sessionID"))
        end
    end
  else if http.StatusCode resp =? http.StatusUnauthorized then
    (None, EmptyString, Some (errors.New "invalid credentials"))
  else
    (None, EmptyString, Some (errors.New "unknown error/response code")).

(** The connectivity state [Scrape] reads off the status page: lines 350
    to 354. *)
Definition connectivity_of (document : goquery.Item) : float64 :=
  if String.eqb (selText connectivityStateSelector document) "OK"
  then f64.one else f64.zero.

(** What [Scrape] does with the product information page, from the
    selectors to its last line: lines 375 to 422.  Named results
    [(modem, err)]: [modem] is set in the last statement only, so the
    return on an uptime error hands back its zero value. *)
Definition product_information (e : Exporter) (connectivityState : float64)
    (downstreamChannels : list DownstreamChannel)
    (upstreamChannels : list UpstreamChannel) (document : goquery.Item)
    : ArrisModem * option error :=
  let hwVersion := selText hwVerSelector document in
  let swVersion := selText swVerSelector document in
  let macAddress := selText macAddrSelector document in
  let serial := selText serialSelector document in
  let uptimeStr := selText uptimeSelector document in
  match ParseUptime uptimeStr with
  | (_, Some err) => (ArrisModem_zero, Some err)
  | (uptime, None) =>
      (mkArrisModem (e_Host e) connectivityState uptime hwVersion swVersion
         macAddress serial downstreamChannels upstreamChannels, None)
  end.

Section Pipeline.

Variable client : http.Client.

(** [Login].  The statement [defer req.Body.Close()] takes the method
    value [req.Body.Close] when it runs, and of a [nil] interface that is a
    run-time panic: the request comes from [http.NewRequest] with a [nil]
    body, so its [Body] is [nil]. *)
Definition Login (e : Exporter)
    : outcome (option http.Cookie * string * option error) :=
  match http.NewRequest client (logout_url e) None with
  | Err err => Returns (None, EmptyString, Some err)
  | Ok req =>
  match http.Body req with     (* defer req.Body.Close() *)
  | None => Panics
  | Some _ =>
  (* client.Do(req): the outcome of the logout request is not looked at *)
  let url := login_url e in
  match http.NewRequest client url None with
  | Err err => Returns (None, EmptyString, Some err)
  | Ok req =>
  match http.Do client req with
  | Err err => Returns (None, EmptyString, Some err)
  | Ok resp => Returns (Login_answer resp)
  end end end end.

(** [GetURL]; named results [(document, err)].  It has the same deferred
    close of a [nil] request body as [Login], after [req.AddCookie]. *)
Definition GetURL (url : string) (sessionID : option http.Cookie)
    : outcome (result goquery.Item) :=
  match http.NewRequest client url None with
  | Err err => Returns (Err err)
  | Ok req =>
  match http.AddCookie req sessionID with
  | None => Panics
  | Some req =>
  match http.Body req with     (* defer req.Body.Close() *)
  | None => Panics
  | Some _ =>
  match http.Do client req with
  | Err err => Returns (Err err)
  | Ok resp =>
      match http.Parsed resp with
      | Err err => Returns (Err err)
      | Ok root => Returns (Ok (goquery.Document root))
      end
  end end end end.

(** [Scrape]: how the call ends, with the named results [(modem, err)] when
    it returns, and the lines it has logged by then. *)
Definition Scrape (e : Exporter)
    : outcome (ArrisModem * option error) * list LogEntry :=
  match Login e with
  | Panics => (Panics, [])
  | Returns (_, _, Some err) =>
      (Returns (ArrisModem_zero, Some err),
       [LogError "Failed to fetch login tokens"])
  | Returns (sessionID, csrfToken, None) =>
  match GetURL (status_url e csrfToken) sessionID with
  | Panics => (Panics, [])
  | Returns (Err err) =>
      (Returns (ArrisModem_zero, Some err),
       [LogError "Failed to fetch connection status url"])
  | Returns (Ok document) =>
  let connectivityState := connectivity_of document in
  let '(downstreamChannels, log1) := downstream_of document in
  let '(upstreamChannels, log2) := upstream_of document in
  let logged := (log1 ++ log2)%list in
  match GetURL (info_url e csrfToken) sessionID with
  | Panics => (Panics, logged)
  | Returns (Err err) =>
      (Returns (ArrisModem_zero, Some err),
       (logged ++ [LogError "Failed to fetch product information page"])%list)
  | Returns (Ok document) =>
      (Returns (product_information e connectivityState downstreamChannels
                  upstreamChannels document),
       logged)
  end end end.

End Pipeline.

(** ** Rows that parse

    A data row of a table: its first cell is no header label and every
    number the row scraper reads from it parses. *)
Definition parses (element : goquery.Item) (child : nat) (trim : string) : bool :=
  match snd (ScrapeUnitValue element child trim) with
  | None => true
  | Some _ => false
  end.

Definition downstream_data_row (element : goquery.Item) : bool :=
  negb (String.eqb (ScrapeColStr element 1) "Channel ID")
  && parses element 5 " dBmV" && parses element 6 " dB"
  && parses element 7 EmptyString && parses element 8 EmptyString.

Definition upstream_data_row (element : goquery.Item) : bool :=
  negb (String.eqb (ScrapeColStr element 1) "Channel"
        || String.eqb (ScrapeColStr element 1) EmptyString)
  && parses element 7 " dBmV".

(** the record a row gives *)
Definition downstream_record (element : goquery.Item) : DownstreamChannel :=
  fst (ScrapeDownstreamTableRow element).

Definition upstream_record (element : goquery.Item) : UpstreamChannel :=
  fst (ScrapeUpstreamTableRow element).

(** ** Plain markup

    The markup of the modem's tables: a row is a [tr] of [td] cells, each
    holding one text. *)

Module Page.
Import html.

Definition td (s : string) : Node := ElementNode "td" [] [TextNode s].
Definition th (s : string) : Node := ElementNode "th" [] [TextNode s].
Definition tr (cells : list string) : Node := ElementNode "tr" [] (map td cells).
Definition table (cls : list string) (rows : list Node) : Node :=
  ElementNode "table" cls [ElementNode "tbody" [] rows].

(** a row of plain cells, as the selection of one node that a table
    scraper hands to its row scraper *)
Definition row (cells : list string) : goquery.Item :=
  goquery.mkItem [goquery.mkPlace "tr" [] (Some 1%nat)] (tr cells).

End Page.

(** ** Pages to run the pipeline on

    Small documents with the shape of the modem's two pages: what the
    selectors of [Scrape] need, and nothing else. *)

Module Fixture.
Import html.
Import Page.

Definition downstream_header : list string :=
  ["Channel ID"; "Lock Status"; "Modulation"; "Frequency"; "Power"; "SNR/MER";
   "Corrected"; "Uncorrectables"].

Definition upstream_header : list string :=
  ["Channel"; "Channel ID"; "Lock Status"; "US Channel Type"; "Frequency";
   "Width"; "Power"].

Definition ds1 : list string :=
  ["20"; "Locked"; "QAM256"; "495000000 Hz"; "8.3 dBmV"; "40.9 dB"; "12"; "0"].
Definition ds2 : list string :=
  ["1"; "Not Locked"; "QAM256"; "381000000 Hz"; "-1.5 dBmV"; "39 dB"; "0"; "7"].
Definition ds_bad_power : list string :=
  ["3"; "Locked"; "QAM256"; "393000000 Hz"; "n/a"; "40.2 dB"; "0"; "0"].
Definition ds_negative : list string :=
  ["4"; "Locked"; "QAM256"; "399000000 Hz"; "8.0 dBmV"; "40.0 dB"; "-5"; "0"].

Definition us1 : list string :=
  ["1"; "3"; "Locked"; "SC-QAM Upstream"; "22800000 Hz"; "6400000 Hz"; "41.0 dBmV"].
Definition us2 : list string :=
  ["2"; "4"; "Not Locked"; "SC-QAM Upstream"; "29200000 Hz"; "6400000 Hz"; "42.5 dBmV"].
Definition us_bad_power : list string :=
  ["5"; "6"; "Locked"; "SC-QAM Upstream"; "35600000 Hz"; "6400000 Hz"; "dBmV"].

(** the connection status page: the startup table, whose fourth row holds
    the connectivity state, then the downstream and the upstream table *)
Definition status_page (connectivity : list Node)
    (downstream upstream : list (list string)) : Node :=
  DocumentNode
    [ElementNode "html" []
       [ElementNode "head" [] [];
        ElementNode "body" []
          [ElementNode "div" ["content"]
             [ElementNode "h1" [] [TextNode "Status"];
              ElementNode "center" []
                [table ["simpleTable"]
                   ([ElementNode "tr" [] [th "Startup Procedure"];
                     tr ["Procedure"; "Status"; "Comment"];
                     tr ["Acquire Downstream Channel"; "495000000 Hz"; "Locked"]]
                    ++ connectivity)%list;
                 table ["simpleTable"]
                   (ElementNode "tr" [] [th "Downstream Bonded Channels"]
                    :: tr downstream_header :: map tr downstream);
                 table ["simpleTable"]
                   (ElementNode "tr" [] [th "Upstream Bonded Channels"]
                    :: tr upstream_header :: map tr upstream)]]]]].

Definition connectivity_row (state : string) : list Node :=
  [tr ["Connectivity State"; state; "Operational"]].

(** the product information page *)
Definition info_page (uptime : string) : Node :=
  DocumentNode
    [ElementNode "html" []
       [ElementNode "head" [] [];
        ElementNode "body" []
          [ElementNode "div" ["content"]
             [ElementNode "h1" [] [TextNode "Product Information"];
              table ["simpleTable"]
                [ElementNode "tr" [] [th "Information"];
                 tr ["Standard Specification Compliant"; "Docsis 3.1"];
                 tr ["Hardware Version"; "6"];
                 tr ["Software Version"; "AB01.02.053"];
                 tr ["Cable Modem MAC Address"; "00:11:22:33:44:55"];
                 tr ["Serial Number"; "0123456789"]];
              ElementNode "br" [] [];
              ElementNode "br" [] [];
              table ["simpleTable"]
                [ElementNode "tr" [] [th "Status"];
                 tr ["Up Time"; uptime]]]]]].

(** what [html.Parse] makes of a body that is plain text *)
Definition text_page (body : string) : Node :=
  DocumentNode
    [ElementNode "html" []
       [ElementNode "head" [] [];
        ElementNode "body" [] [TextNode body]]].

Definition response (status : Z) (cookies : list http.Cookie) (body : string)
    (page : Node) : http.Response :=
  http.mkResponse status cookies (Ok body) (Ok page).

(** an answer to the login request *)
Definition answer (status : Z) (cookies : list http.Cookie) : http.Response :=
  response status cookies "token" (text_page "token").

(** the host of an [https] URL: what stands between the scheme and the
    first slash after it *)
Fixpoint upto_slash (s : string) : string :=
  match s with
  | EmptyString => EmptyString
  | String c s' =>
      if Ascii.eqb c "/" then EmptyString else String c (upto_slash s')
  end.

Definition host_of (url : string) : string :=
  upto_slash (String.substring 8 (String.length url) url).

(** a URL whose host holds a blank is not well formed *)
Definition malformed : error :=
  externalError "net/url: invalid character in host name".

(** a device that answers the login with [login] and serves the two pages *)
Definition device (login : http.Response) (status info : Node) : http.Client :=
  http.mkClient
    (fun url => if byte.mem " "%char (host_of url) then Some malformed else None)
    (fun req =>
       if String.eqb (http.URL req)
            "https://192.168.100.1/cmconnectionstatus.html?ct_token"
       then Ok (response 200 [] EmptyString status)
       else if String.eqb (http.URL req) "https://192.168.100.1/cmswinfo.html?ct_token"
       then Ok (response 200 [] EmptyString info)
       else Ok login).

Definition exporter : Exporter := mkExporter "192.168.100.1" "YWRtaW46cGFzc3dvcmQ=".

(** an exporter started with a host name that is no host name *)
Definition misconfigured : Exporter := mkExporter "my modem" "YWRtaW46cGFzc3dvcmQ=".

Definition session : http.Cookie := http.mkCookie "sessionId" "abc123".

Definition login_ok : http.Response := answer 200 [session].

Definition modem (connectivity : list Node) (downstream upstream : list (list string))
    (uptime : string) : http.Client :=
  device login_ok (status_page connectivity downstream upstream) (info_page uptime).

End Fixture.

(** ** package unicode/utf8 *)

Module utf8.
Definition between (lo hi : Z) (c : ascii) : bool :=
  (lo <=? byte.code c) && (byte.code c <=? hi).

(** a continuation byte, [10xxxxxx] *)
Definition cont (c : ascii) : bool := between 128 191 c.

(** [utf8.ValidString(s)]: [s] is a sequence of well-formed UTF-8
    encodings: shortest form, no surrogate halves, nothing above
    U+10FFFF. *)
Fixpoint ValidString (s : string) : bool :=
  match s with
  | EmptyString => true
  | String a r1 =>
      if between 0 127 a then ValidString r1
      else
        match r1 with
        | EmptyString => false
        | String b r2 =>
            if between 194 223 a then cont b && ValidString r2
            else
              match r2 with
              | EmptyString => false
              | String c r3 =>
                  if between 224 239 a then
                    (if between 224 224 a then between 160 191 b
                     else if between 237 237 a then between 128 159 b
                     else cont b)
                    && cont c && ValidString r3
                  else
                    match r3 with
                    | EmptyString => false
                    | String d r4 =>
                        between 240 244 a
                        && (if between 240 240 a then between 144 191 b
                            else if between 244 244 a then between 128 143 b
                            else cont b)
                        && cont c && cont d && ValidString r4
                    end
              end
        end
  end.
End utf8.

(** ** package encoding/base64 *)

Module base64.
(** the alphabet of [StdEncoding] *)
Definition encodeStd : string :=
  "ABCDEFGHIJKLMNOPQRSTUVWXYZabcdefghijklmnopqrstuvwxyz0123456789+/".

Definition StdPadding : ascii := "="%char.

(** the character of a six-bit value *)
Definition enc (n : Z) : ascii :=
  match String.get (Z.to_nat n) encodeStd with
  | Some c => c
  | None => StdPadding
  end.

(** [StdEncoding.EncodeToString(src)]: three bytes give four characters;
    one or two bytes left at the end give two or three characters and
    padding up to four. *)
Fixpoint EncodeToString (src : string) : string :=
  match src with
  | EmptyString => EmptyString
  | String a EmptyString =>
      let a := byte.code a in
      String (enc (a / 4)) (String (enc (a mod 4 * 16))
        (String StdPadding (String StdPadding EmptyString)))
  | String a (String b EmptyString) =>
      let a := byte.code a in
      let b := byte.code b in
      String (enc (a / 4)) (String (enc (a mod 4 * 16 + b / 16))
        (String (enc (b mod 16 * 4)) (String StdPadding EmptyString)))
  | String a (String b (String c rest)) =>
      let a := byte.code a in
      let b := byte.code b in
      let c := byte.code c in
      String (enc (a / 4)) (String (enc (a mod 4 * 16 + b / 16))
        (String (enc (b mod 16 * 4 + c / 64)) (String (enc (c mod 64))
           (EncodeToString rest))))
  end.

(** Reading an encoding back.  [index_of c alphabet 0] is the six-bit value
    of a character; [decode] takes the characters four at a time. *)
Fixpoint index_of (c : ascii) (alphabet : string) (i : Z) : option Z :=
  match alphabet with
  | EmptyString => None
  | String d alphabet' =>
      if Ascii.eqb c d then Some i else index_of c alphabet' (i + 1)
  end.

Definition dec (c : ascii) : option Z := index_of c encodeStd 0.

Definition byte_of (n : Z) : ascii := ascii_of_N (Z.to_N n).

Fixpoint decode (s : string) : option string :=
  match s with
  | EmptyString => Some EmptyString
  | String c0 (String c1 (String c2 (String c3 rest))) =>
      match dec c0, dec c1 with
      | Some v0, Some v1 =>
          let b0 := byte_of (v0 * 4 + v1 / 16) in
          if Ascii.eqb c2 StdPadding then
            if Ascii.eqb c3 StdPadding then
              match rest with
              | EmptyString => Some (String b0 EmptyString)
              | _ => None
              end
            else None
          else
            match dec c2 with
            | Some v2 =>
                let b1 := byte_of (v1 mod 16 * 16 + v2 / 4) in
                if Ascii.eqb c3 StdPadding then
                  match rest with
                  | EmptyString => Some (String b0 (String b1 EmptyString))
                  | _ => None
                  end
                else
                  match dec c3, decode rest with
                  | Some v3, Some tail =>
                      Some (String b0 (String b1
                              (String (byte_of (v2 mod 4 * 64 + v3)) tail)))
                  | _, _ => None
                  end
            | None => None
            end
      | _, _ => None
      end
  | _ => None
  end.
End base64.

(** [NewExporter]: the token is the base64 of [user:pass]. *)
Definition NewExporter (host user pass : string) : Exporter :=
  mkExporter host (base64.EncodeToString (user ++ ":" ++ pass)).

(** ** package prometheus, as far as [Describe] and [Collect] use it *)

Module prometheus.
Inductive ValueType : Type := CounterValue | GaugeValue.

(** [BuildFQName]: the non-empty parts joined by underscores; empty when
    the name is. *)
Definition BuildFQName (namespace subsystem name : string) : string :=
  if String.eqb name EmptyString then EmptyString
  else if negb (String.eqb namespace EmptyString)
          && negb (String.eqb subsystem EmptyString)
  then namespace ++ "_" ++ subsystem ++ "_" ++ name
  else if negb (String.eqb namespace EmptyString) then namespace ++ "_" ++ name
  else if negb (String.eqb subsystem EmptyString) then subsystem ++ "_" ++ name
  else name.

Definition is_letter (c : ascii) : bool :=
  utf8.between 97 122 c || utf8.between 65 90 c || Ascii.eqb c "_".

Fixpoint name_rest (colon : bool) (s : string) : bool :=
  match s with
  | EmptyString => true
  | String c s' =>
      (is_letter c || byte.is_digit c || (colon && Ascii.eqb c ":"))
      && name_rest colon s'
  end.

(** a metric name: [[a-zA-Z_:][a-zA-Z0-9_:]*] *)
Definition IsValidMetricName (s : string) : bool :=
  match s with
  | EmptyString => false
  | String c s' => (is_letter c || Ascii.eqb c ":") && name_rest true s'
  end.

(** a label name: [[a-zA-Z_][a-zA-Z0-9_]*], not beginning with [__] *)
Definition checkLabelName (s : string) : bool :=
  match s with
  | EmptyString => false
  | String c s' =>
      is_letter c && name_rest false s'
      && negb (String.prefix "__" s)
  end.

Fixpoint no_duplicates (names : list string) : bool :=
  match names with
  | [] => true
  | n :: names' => negb (existsb (String.eqb n) names') && no_duplicates names'
  end.

(** A descriptor; [invalid] stands for its [err] field being set. *)
Record Desc : Type := mkDesc {
  fqName : string;
  help : string;
  variableLabels : list string;
  invalid : bool
}.

(** [NewDesc(fqName, help, variableLabels, nil)] *)
Definition NewDesc (fqName help : string) (variableLabels : list string) : Desc :=
  mkDesc fqName help variableLabels
    (negb (IsValidMetricName fqName
           && forallb checkLabelName variableLabels
           && no_duplicates variableLabels)).

Record Metric : Type := mkMetric {
  desc : Desc;
  valueType : ValueType;
  value : float64;
  labelValues : list string
}.

(** [MustNewConstMetric]: [None] is the panic, which an invalid
    descriptor, a number of label values other than the number of the
    descriptor's labels, or a label value that is not valid UTF-8 gives. *)
Definition MustNewConstMetric (d : Desc) (vt : ValueType) (v : float64)
    (labels : list string) : option Metric :=
  if invalid d then None
  else if negb (Nat.eqb (List.length labels) (List.length (variableLabels d)))
  then None
  else if negb (forallb utf8.ValidString labels) then None
  else Some (mkMetric d vt v labels).
End prometheus.

(** ** The collector *)

Definition namespace : string := "sb8200".
Definition DOWNSTREAM : string := "downstream".
Definition UPSTREAM : string := "upstream".

Definition upMetric : prometheus.Desc :=
  prometheus.NewDesc (prometheus.BuildFQName namespace EmptyString "up")
    "Was the last data scrape successful?" [].
Definition connectedMetric : prometheus.Desc :=
  prometheus.NewDesc (prometheus.BuildFQName namespace EmptyString "connected")
    "Is the modem's connection up (connectivity state)?" [].
Definition uptimeMetric : prometheus.Desc :=
  prometheus.NewDesc (prometheus.BuildFQName namespace EmptyString "uptime_seconds")
    "Uptime" [].
Definition metaMetric : prometheus.Desc :=
  prometheus.NewDesc (prometheus.BuildFQName namespace EmptyString "info")
    "Metadata about this modem."
    ["host"; "hwversion"; "swversion"; "mac"; "serial"].
Definition channelLockMetric : prometheus.Desc :=
  prometheus.NewDesc (prometheus.BuildFQName namespace "channel" "lock")
    "Is the downstream channel locked?" ["channel_id"; "type"].
Definition channelPowerMetric : prometheus.Desc :=
  prometheus.NewDesc (prometheus.BuildFQName namespace "channel" "power")
    "Power level (dBmV)" ["channel_id"; "type"].
Definition channelSNRMetric : prometheus.Desc :=
  prometheus.NewDesc (prometheus.BuildFQName namespace "channel" "snr")
    "SNR/MER rate (dB)" ["channel_id"; "type"].
Definition channelCorrectedMetric : prometheus.Desc :=
  prometheus.NewDesc (prometheus.BuildFQName namespace "channel" "corrected_total")
    "Corrected errors, counter resets to 0 on modem reboot" ["channel_id"; "type"].
Definition channelUncorrectableMetric : prometheus.Desc :=
  prometheus.NewDesc (prometheus.BuildFQName namespace "channel" "uncorrectable_total")
    "Uncorrectable errors, counter resets to 0 on modem reboot" ["channel_id"; "type"].
Definition channelMetaMetric : prometheus.Desc :=
  prometheus.NewDesc (prometheus.BuildFQName namespace "channel" "info")
    "Channel metadata" ["channel_id"; "modulation"; "frequency"; "width"; "type"].

(** [Describe]: the descriptors it sends, in order *)
Definition Describe (e : Exporter) : list prometheus.Desc :=
  [upMetric; connectedMetric; uptimeMetric; metaMetric; channelLockMetric;
   channelPowerMetric; channelSNRMetric; channelCorrectedMetric;
   channelUncorrectableMetric; channelMetaMetric].

(** What [Collect] writes to the log: the lines of [Scrape], and the error
    it logs itself when the scrape failed. *)
Inductive CollectLog : Type :=
| Scraped (entry : LogEntry)
| ScrapeFailed (err : error).  (* log.Error(err) *)

(** What a call of [Collect] has done when it ends: the metrics it sent on
    the channel, in order, whether it ended in a panic, and its log. *)
Record Collected : Type := mkCollected {
  sent : list prometheus.Metric;
  panicked : bool;
  collect_log : list CollectLog
}.

(** [ch <- prometheus.MustNewConstMetric(...)], one after the other: each
    metric is built and then sent; the first that cannot be built panics,
    and what was sent before it stays sent. *)
Fixpoint send_all (metrics : list (option prometheus.Metric))
    : list prometheus.Metric * bool :=
  match metrics with
  | [] => ([], false)
  | None :: _ => ([], true)
  | Some m :: rest =>
      let '(ms, p) := send_all rest in (m :: ms, p)
  end.

(** a metric that could not be built *)
Definition is_panic (o : option prometheus.Metric) : bool :=
  match o with None => true | Some _ => false end.

(** the body of the loop over the downstream channels *)
Definition downstream_metrics (channel : DownstreamChannel)
    : list (option prometheus.Metric) :=
  [prometheus.MustNewConstMetric channelLockMetric prometheus.GaugeValue
     (ds_LockStatus channel) [ds_ChannelID channel; DOWNSTREAM];
   prometheus.MustNewConstMetric channelPowerMetric prometheus.GaugeValue
     (ds_Power channel) [ds_ChannelID channel; DOWNSTREAM];
   prometheus.MustNewConstMetric channelSNRMetric prometheus.GaugeValue
     (ds_SNR channel) [ds_ChannelID channel; DOWNSTREAM];
   prometheus.MustNewConstMetric channelCorrectedMetric prometheus.CounterValue
     (ds_CorrectedErrors channel) [ds_ChannelID channel; DOWNSTREAM];
   prometheus.MustNewConstMetric channelUncorrectableMetric prometheus.CounterValue
     (ds_UncorrectableErrors channel) [ds_ChannelID channel; DOWNSTREAM];
   prometheus.MustNewConstMetric channelMetaMetric prometheus.GaugeValue f64.one
     [ds_ChannelID channel; ds_Modulation channel; ds_Frequency channel;
      EmptyString; DOWNSTREAM]].

(** the body of the loop over the upstream channels *)
Definition upstream_metrics (channel : UpstreamChannel)
    : list (option prometheus.Metric) :=
  [prometheus.MustNewConstMetric channelLockMetric prometheus.GaugeValue
     (us_LockStatus channel) [us_ChannelID channel; UPSTREAM];
   prometheus.MustNewConstMetric channelPowerMetric prometheus.GaugeValue
     (us_Power channel) [us_ChannelID channel; UPSTREAM];
   prometheus.MustNewConstMetric channelMetaMetric prometheus.GaugeValue f64.one
     [us_ChannelID channel; us_USChannelType channel; us_Frequency channel;
      us_Width channel; UPSTREAM]].

(** the metrics of a scraped modem, in the order [Collect] builds them *)
Definition modem_metrics (e : Exporter) (modem : ArrisModem)
    : list (option prometheus.Metric) :=
  ([prometheus.MustNewConstMetric upMetric prometheus.GaugeValue f64.one [];
    prometheus.MustNewConstMetric connectedMetric prometheus.GaugeValue
      (ConnectivityState modem) [];
    prometheus.MustNewConstMetric uptimeMetric prometheus.GaugeValue
      (Uptime modem) [];
    prometheus.MustNewConstMetric metaMetric prometheus.GaugeValue f64.one
      [e_Host e; HardwareVersion modem; SoftwareVersion modem;
       MACAddress modem; SerialNumber modem]]
   ++ flat_map downstream_metrics (DownstreamBondedChannels modem)
   ++ flat_map upstream_metrics (UpstreamBondedChannels modem))%list.

(** [Collect].  A panic inside [Scrape] ends it before anything is sent. *)
Definition Collect (client : http.Client) (e : Exporter) : Collected :=
  match Scrape client e with
  | (Panics, scraped) => mkCollected [] true (map Scraped scraped)
  | (Returns (_, Some err), scraped) =>
      let '(ms, p) :=
        send_all [prometheus.MustNewConstMetric upMetric prometheus.GaugeValue
                    f64.zero []] in
      mkCollected ms p (map Scraped scraped ++ [ScrapeFailed err])%list
  | (Returns (modem, None), scraped) =>
      let '(ms, p) := send_all (modem_metrics e modem) in
      mkCollected ms p (map Scraped scraped)
  end.

(** the name and the label values of a metric, by which a registry tells
    two metrics apart *)
Definition metric_key (m : prometheus.Metric) : string * list string :=
  (prometheus.fqName (prometheus.desc m), prometheus.labelValues m).

(** every label value [Collect] passes for a modem is valid UTF-8 *)
Definition labels_valid (e : Exporter) (modem : ArrisModem) : bool :=
  forallb utf8.ValidString
    [e_Host e; HardwareVersion modem; SoftwareVersion modem;
     MACAddress modem; SerialNumber modem]
  && forallb (fun c => forallb utf8.ValidString
                         [ds_ChannelID c; ds_Modulation c; ds_Frequency c])
       (DownstreamBondedChannels modem)
  && forallb (fun c => forallb utf8.ValidString
                         [us_ChannelID c; us_USChannelType c; us_Frequency c;
                          us_Width c])
       (UpstreamBondedChannels modem).

(** The series of a modem: the keys of the metrics [Collect] builds for
    it, in the order it builds them. *)
Definition downstream_series (channel : DownstreamChannel)
    : list (string * list string) :=
  [("sb8200_channel_lock", [ds_ChannelID channel; DOWNSTREAM]);
   ("sb8200_channel_power", [ds_ChannelID channel; DOWNSTREAM]);
   ("sb8200_channel_snr", [ds_ChannelID channel; DOWNSTREAM]);
   ("sb8200_channel_corrected_total", [ds_ChannelID channel; DOWNSTREAM]);
   ("sb8200_channel_uncorrectable_total", [ds_ChannelID channel; DOWNSTREAM]);
   ("sb8200_channel_info",
    [ds_ChannelID channel; ds_Modulation channel; ds_Frequency channel;
     EmptyString; DOWNSTREAM])].

Definition upstream_series (channel : UpstreamChannel)
    : list (string * list string) :=
  [("sb8200_channel_lock", [us_ChannelID channel; UPSTREAM]);
   ("sb8200_channel_power", [us_ChannelID channel; UPSTREAM]);
   ("sb8200_channel_info",
    [us_ChannelID channel; us_USChannelType channel; us_Frequency channel;
     us_Width channel; UPSTREAM])].

Definition modem_series (e : Exporter) (modem : ArrisModem)
    : list (string * list string) :=
  ([("sb8200_up", []); ("sb8200_connected", []); ("sb8200_uptime_seconds", []);
    ("sb8200_info",
     [e_Host e; HardwareVersion modem; SoftwareVersion modem;
      MACAddress modem; SerialNumber modem])]
   ++ flat_map downstream_series (DownstreamBondedChannels modem)
   ++ flat_map upstream_series (UpstreamBondedChannels modem))%list.

(** the channel ID of a lock series of the given direction *)
Definition lock_id (direction : string) (key : string * list string)
    : list string :=
  match key with
  | (name, [id; d]) =>
      if String.eqb name "sb8200_channel_lock" && String.eqb d direction
      then [id] else []
  | _ => []
  end.

(** * Facts about the library functions *)

Section TrimRightFacts.

Lemma append_empty_r (s : string) : s ++ EmptyString = s.
Proof. induction s as [|c s IH]; simpl; [reflexivity|rewrite IH; reflexivity]. Qed.

Lemma TrimRight_subset (s cutset : string) :
  byte.subset s cutset = true -> strings.TrimRight s cutset = EmptyString.
Proof.
  induction s as [|c s IH]; simpl; [reflexivity|].
  intros H. apply andb_prop in H. destruct H as [Hc Hs].
  rewrite (IH Hs), Hc. reflexivity.
Qed.

Lemma TrimRight_empty_cutset (s : string) : strings.TrimRight s EmptyString = s.
Proof.
  induction s as [|c s IH]; simpl; [reflexivity|].
  rewrite IH. destruct s; reflexivity.
Qed.

Lemma TrimRight_keeps (n cutset : string) (c : ascii) :
  byte.last n = Some c -> byte.mem c cutset = false ->
  strings.TrimRight n cutset = n.
Proof.
  induction n as [|a n IH]; simpl; [discriminate|].
  destruct n as [|b n].
  - intros [= ->] Hc. simpl. rewrite Hc. reflexivity.
  - intros Hl Hc. rewrite (IH Hl Hc). reflexivity.
Qed.

(** A number followed by bytes of the cutset: the trim gives the number
    back, provided the number does not itself end in a byte of the cutset. *)
Lemma TrimRight_app (n suffix cutset : string) (c : ascii) :
  byte.last n = Some c -> byte.mem c cutset = false ->
  byte.subset suffix cutset = true ->
  strings.TrimRight (n ++ suffix) cutset = n.
Proof.
  intros Hl Hc Hs.
  induction n as [|a n IH]; [discriminate|].
  destruct n as [|b n].
  - injection Hl as ->. simpl. rewrite (TrimRight_subset _ _ Hs), Hc. reflexivity.
  - change ((String a (String b n)) ++ suffix) with (String a (String b n ++ suffix)).
    cbn [strings.TrimRight]. rewrite (IH Hl). reflexivity.
Qed.

End TrimRightFacts.

Section ByteFacts.

Lemma is_digit_cases (c : ascii) :
  byte.is_digit c = true ->
  In c ["0"; "1"; "2"; "3"; "4"; "5"; "6"; "7"; "8"; "9"]%char.
Proof.
  destruct c as [[] [] [] [] [] [] [] []]; vm_compute; intros H;
    try discriminate H; tauto.
Qed.

Lemma digit_code_range (c : ascii) :
  byte.is_digit c = true -> 0 <= byte.code c - 48 <= 9.
Proof.
  unfold byte.is_digit. intros H. apply andb_prop in H. destruct H as [H1 H2].
  apply Z.leb_le in H1. apply Z.leb_le in H2. lia.
Qed.

End ByteFacts.

(** case analysis on a byte known to be a digit *)
Ltac digit_cases H :=
  apply is_digit_cases in H; simpl in H;
  repeat (destruct H as [H|H]; [subst|]); [..|contradiction].

Section SplitFacts.

(** Every piece [Split] returns is a (possibly empty) string of digits. *)
Lemma Split_nondigits_digits (s : string) :
  Forall (fun t => byte.all_digits t = true) (regexp.Split_nondigits s).
Proof.
  induction s as [|c s IH]; simpl.
  - constructor; [reflexivity|constructor].
  - destruct (byte.is_digit c) eqn:Hc.
    + destruct (regexp.Split_nondigits s) as [|t ts]; simpl.
      * constructor; [simpl; rewrite Hc; reflexivity|constructor].
      * inversion IH; subst. constructor; [simpl; rewrite Hc; assumption|assumption].
    + destruct s as [|d s'].
      * constructor; [reflexivity|exact IH].
      * destruct (byte.is_digit d); [constructor; [reflexivity|exact IH]|exact IH].
Qed.

Lemma Split_nondigits_nonempty (s : string) : regexp.Split_nondigits s <> [].
Proof.
  induction s as [|c s IH]; simpl; [discriminate|].
  destruct (byte.is_digit c).
  - destruct (regexp.Split_nondigits s); discriminate.
  - destruct s as [|d s']; [discriminate|].
    destruct (byte.is_digit d); [discriminate|exact IH].
Qed.

End SplitFacts.

Section ParseFloatDigits.

Lemma digits_value_nonneg (s : string) :
  forall acc, 0 <= acc -> byte.all_digits s = true -> 0 <= byte.digits_value acc s.
Proof.
  induction s as [|c s IH]; simpl; intros acc Hacc H; [assumption|].
  apply andb_prop in H. destruct H as [Hc Hs].
  apply IH; [|assumption]. pose proof (digit_code_range c Hc). lia.
Qed.

Lemma special_digit (c : ascii) (s : string) :
  byte.is_digit c = true -> strconv.special (String c s) = None.
Proof.
  intros H. digit_cases H; reflexivity.
Qed.

Lemma read_sign_digit (c : ascii) (s : string) :
  byte.is_digit c = true -> strconv.read_sign (String c s) = (false, String c s).
Proof.
  intros H. digit_cases H; reflexivity.
Qed.

Lemma read_base_digits (s : string) :
  byte.all_digits s = true -> strconv.read_base s = (false, s).
Proof.
  destruct s as [|c0 [|c1 [|c2 s]]]; try reflexivity.
  simpl. intros H. apply andb_prop in H. destruct H as [_ H].
  apply andb_prop in H. destruct H as [H1 _].
  unfold strconv.read_base.
  replace (Ascii.eqb (byte.lower c1) "x") with false;
    [rewrite andb_false_r; reflexivity|].
  digit_cases H1; reflexivity.
Qed.

Lemma read_digits_digits (s : string) :
  forall st,
    byte.all_digits s = true ->
    (strconv.nd st = 0 -> strconv.mant st = 0) -> 0 <= strconv.nd st ->
    exists st',
      strconv.read_digits false st s = (st', EmptyString)
      /\ strconv.mant st' = byte.digits_value (strconv.mant st) s
      /\ strconv.sawdot st' = strconv.sawdot st
      /\ (strconv.sawdigits st' = true <-> strconv.sawdigits st = true \/ s <> EmptyString).
Proof.
  induction s as [|c s IH]; intros st Hd Hinv Hnd.
  - exists st. simpl. repeat split; try tauto.
  - simpl in Hd. apply andb_prop in Hd. destruct Hd as [Hc Hs].
    cbn [strconv.read_digits byte.digits_value].
    assert (Hu : Ascii.eqb c "_" = false) by (clear -Hc; digit_cases Hc; reflexivity).
    assert (Hp : Ascii.eqb c "." = false) by (clear -Hc; digit_cases Hc; reflexivity).
    rewrite Hu, Hp, Hc.
    destruct (Ascii.eqb c "0" && (strconv.nd st =? 0)) eqn:Hz.
    + apply andb_prop in Hz. destruct Hz as [Hz0 Hz1].
      apply Ascii.eqb_eq in Hz0. subst c. apply Z.eqb_eq in Hz1.
      edestruct (IH (strconv.mkMantissa (strconv.mant st) (strconv.nd st)
                       (strconv.dp st - 1) (strconv.sawdot st) true))
        as (st' & E & Hm & Hdot & Hsd); [assumption|exact Hinv|exact Hnd|].
      exists st'. cbn in Hm, Hdot, Hsd.
      replace (strconv.mant st * 10 + (byte.code "0" - 48)) with (strconv.mant st)
        by (rewrite (Hinv Hz1); reflexivity).
      repeat split; try assumption.
      all: try (intros _; right; discriminate).
      all: try (intros _; apply Hsd; left; reflexivity).
      all: idtac.
    + edestruct (IH (strconv.push_digit 10 (byte.code c - 48) st))
        as (st' & E & Hm & Hdot & Hsd); [assumption| | |].
      * cbn. lia.
      * cbn. lia.
      * exists st'. cbn in Hm, Hdot, Hsd.
        repeat split; try assumption.
        all: try (intros _; right; discriminate).
        all: try (intros _; apply Hsd; left; reflexivity).
Qed.

Lemma underscore_loop_digits (s : string) :
  forall sw, sw <> strconv.saw_underscore -> byte.all_digits s = true ->
             strconv.underscore_loop false sw s = true.
Proof.
  induction s as [|c s IH]; intros sw Hsw Hd.
  - destruct sw; try reflexivity. congruence.
  - simpl in Hd. apply andb_prop in Hd. destruct Hd as [Hc Hs].
    simpl. rewrite Hc. simpl. apply IH; [discriminate|assumption].
Qed.

Lemma underscoreOK_digits (s : string) :
  byte.all_digits s = true -> strconv.underscoreOK s = true.
Proof.
  intros Hd. unfold strconv.underscoreOK.
  destruct s as [|c s]; [reflexivity|].
  pose proof Hd as Hd'. simpl in Hd'. apply andb_prop in Hd'. destruct Hd' as [Hc Hs].
  replace (Ascii.eqb c "-" || Ascii.eqb c "+") with false
    by (clear -Hc; digit_cases Hc; reflexivity).
  destruct s as [|c1 s2].
  - apply underscore_loop_digits; [discriminate|assumption].
  - simpl in Hs. apply andb_prop in Hs. destruct Hs as [Hc1 Hs2].
    replace (Ascii.eqb (byte.lower c1) "b" || Ascii.eqb (byte.lower c1) "o"
             || Ascii.eqb (byte.lower c1) "x") with false
      by (clear -Hc1; digit_cases Hc1; reflexivity).
    rewrite andb_false_r.
    apply underscore_loop_digits; [discriminate|assumption].
Qed.

(** What [ParseFloat] does on a non-empty string of decimal digits: it
    rounds the integer the digits write, and fails only by range. *)
Lemma ParseFloat_digits (s : string) :
  s <> EmptyString -> byte.all_digits s = true ->
  strconv.ParseFloat s =
    match f64.of_Z (byte.digits_value 0 s) with
    | S754_infinity sg =>
        (S754_infinity sg, Some (strconv.rangeError "ParseFloat" s))
    | v => (v, None)
    end.
Proof.
  intros Hne Hd.
  destruct s as [|c s]; [congruence|].
  pose proof Hd as Hd'. simpl in Hd'. apply andb_prop in Hd'. destruct Hd' as [Hc Hs].
  unfold strconv.ParseFloat. rewrite (special_digit c s Hc).
  unfold strconv.readFloat. rewrite (read_sign_digit c s Hc).
  rewrite (read_base_digits _ Hd).
  destruct (read_digits_digits (String c s) strconv.mantissa0 Hd)
    as (st' & E & Hm & Hdot & Hsd); [reflexivity|cbn; lia|].
  rewrite E. change (strconv.mant strconv.mantissa0) with 0 in Hm.
  change (strconv.sawdot strconv.mantissa0) with false in Hdot.
  assert (Hsaw : strconv.sawdigits st' = true) by (apply Hsd; right; discriminate).
  rewrite Hsaw, Hdot. cbn [negb strconv.p_rest].
  rewrite (underscoreOK_digits _ Hd). cbn [negb].
  unfold strconv.value_of. cbn [strconv.p_mant strconv.p_hex strconv.p_neg strconv.p_exp].
  rewrite Hm.
  pose proof (digits_value_nonneg (String c s) 0 ltac:(lia) Hd) as Hnn.
  destruct (byte.digits_value 0 (String c s)) as [|m|m] eqn:Ev.
  - reflexivity.
  - replace (Z.pos m =? 0) with false by reflexivity.
    replace (strconv.nd st' * 1 - strconv.nd st' * 1) with 0 by lia.
    unfold strconv.round_decimal, f64.of_Z.
    replace (cond_Zopp false (Z.pos m * 10 ^ 0)) with (Z.pos m)
      by (cbn [cond_Zopp]; lia).
    reflexivity.
  - lia.
Qed.

End ParseFloatDigits.

Section FloatSign.

Lemma binary_round_aux_not_negative (m e : Z) (l : location) :
  f64.is_negative (binary_round_aux f64.prec f64.emax false m e l) = false.
Proof.
  unfold binary_round_aux.
  destruct (shr_fexp f64.prec f64.emax m e l) as [mrs' e'].
  destruct (shr_fexp f64.prec f64.emax _ e' loc_Exact) as [mrs'' e''].
  destruct (shr_m mrs''); [reflexivity| |reflexivity].
  destruct (e'' <=? f64.emax - f64.prec); reflexivity.
Qed.

Lemma of_Z_not_negative (n : Z) :
  0 <= n -> f64.is_negative (f64.of_Z n) = false.
Proof.
  intros Hn. destruct n as [|m|m]; [reflexivity| |lia].
  unfold f64.of_Z, binary_normalize, binary_round.
  destruct (shl_align m 0 _) as [mz ez].
  apply binary_round_aux_not_negative.
Qed.

(** A string of digits never parses to a negative number. *)
Lemma ParseFloat_digits_not_negative (s : string) (v : float64) :
  byte.all_digits s = true -> strconv.ParseFloat s = (v, None) ->
  f64.is_negative v = false.
Proof.
  intros Hd Hp. destruct s as [|c s]; [discriminate Hp|].
  rewrite ParseFloat_digits in Hp by (discriminate || assumption).
  pose proof (of_Z_not_negative (byte.digits_value 0 (String c s))
                (digits_value_nonneg _ 0 ltac:(lia) Hd)) as Hn.
  destruct (f64.of_Z (byte.digits_value 0 (String c s)));
    inversion Hp; subst; exact Hn.
Qed.

End FloatSign.

Section NumberEnd.

Lemma last_cons (c : ascii) (s : string) :
  s <> EmptyString -> byte.last (String c s) = byte.last s.
Proof. destruct s; [congruence|reflexivity]. Qed.

Lemma last_fold_string (s : string) :
  byte.last (strconv.fold_string s) = option_map strconv.fold_upper (byte.last s).
Proof.
  induction s as [|c s IH]; [reflexivity|].
  destruct s as [|d s]; [reflexivity|].
  change (strconv.fold_string (String c (String d s)))
    with (String (strconv.fold_upper c) (strconv.fold_string (String d s))).
  rewrite last_cons by discriminate. rewrite IH. reflexivity.
Qed.

Lemma folded_word_end (s w : string) (c : ascii) :
  strconv.fold_string s = w -> byte.last w = Some c -> byte.mem c "fyn" = true ->
  exists d, byte.last s = Some d /\ strconv.number_end d = true.
Proof.
  intros Hw Hl Hc. subst w. rewrite last_fold_string in Hl.
  destruct (byte.last s) as [d|]; [|discriminate].
  injection Hl as Hd. exists d. split; [reflexivity|].
  unfold strconv.number_end. rewrite Hd, Hc. apply orb_true_r.
Qed.

Lemma is_inf_word_end (s : string) :
  strconv.is_inf_word s = true ->
  exists d, byte.last s = Some d /\ strconv.number_end d = true.
Proof.
  unfold strconv.is_inf_word. intros H. apply orb_prop in H.
  destruct H as [H|H]; apply String.eqb_eq in H.
  - apply (folded_word_end s "inf" "f"); [assumption|reflexivity|reflexivity].
  - apply (folded_word_end s "infinity" "y"); [assumption|reflexivity|reflexivity].
Qed.

Lemma special_end (s : string) (v : float64) :
  strconv.special s = Some v ->
  exists d, byte.last s = Some d /\ strconv.number_end d = true.
Proof.
  destruct s as [|c t]; [discriminate|]. unfold strconv.special.
  assert (Hsign : strconv.is_inf_word t = true ->
                  exists d, byte.last (String c t) = Some d
                            /\ strconv.number_end d = true).
  { intros Ht. destruct t as [|c' t']; [discriminate Ht|].
    rewrite last_cons by discriminate. apply is_inf_word_end, Ht. }
  destruct (Ascii.eqb c "+").
  { destruct (strconv.is_inf_word t) eqn:Ht; [auto|discriminate]. }
  destruct (Ascii.eqb c "-").
  { destruct (strconv.is_inf_word t) eqn:Ht; [auto|discriminate]. }
  destruct (Ascii.eqb (byte.lower c) "i").
  { destruct (strconv.is_inf_word (String c t)) eqn:Ht; [|discriminate].
    intros _. apply is_inf_word_end, Ht. }
  destruct (Ascii.eqb (byte.lower c) "n"); [|discriminate].
  destruct (String.eqb (strconv.fold_string (String c t)) "nan") eqn:Ht; [|discriminate].
  intros _. apply String.eqb_eq in Ht.
  apply (folded_word_end _ "nan" "n"); [assumption|reflexivity|reflexivity].
Qed.

Lemma read_sign_last (s s1 : string) (neg : bool) :
  strconv.read_sign s = (neg, s1) -> s1 <> EmptyString -> byte.last s = byte.last s1.
Proof.
  destruct s as [|c s']; simpl.
  - intros [= _ <-]. reflexivity.
  - destruct (Ascii.eqb c "+"); [intros [= _ <-] H; apply last_cons, H|].
    destruct (Ascii.eqb c "-"); [intros [= _ <-] H; apply last_cons, H|].
    intros [= _ <-] _. reflexivity.
Qed.

Lemma read_base_last (s s2 : string) (hex : bool) :
  strconv.read_base s = (hex, s2) -> s2 <> EmptyString -> byte.last s = byte.last s2.
Proof.
  unfold strconv.read_base.
  destruct s as [|c0 [|c1 [|c2 s']]]; try (intros [= _ <-]; reflexivity).
  destruct (Ascii.eqb c0 "0" && Ascii.eqb (byte.lower c1) "x").
  - intros [= _ <-] _. rewrite last_cons by discriminate.
    rewrite last_cons by discriminate. reflexivity.
  - intros [= _ <-] _. reflexivity.
Qed.

Lemma read_digits_last (hex : bool) (s : string) :
  forall st st' r,
    strconv.read_digits hex st s = (st', r) ->
    (r <> EmptyString -> byte.last s = byte.last r)
    /\ (r = EmptyString -> s <> EmptyString -> hex = false ->
        exists d, byte.last s = Some d /\ strconv.number_end d = true).
Proof.
  induction s as [|c s IH]; intros st st' r E.
  - simpl in E. injection E as _ <-. split; [reflexivity|congruence].
  - assert (Hstep : forall st1,
               strconv.read_digits hex st1 s = (st', r) ->
               strconv.number_end c = true \/ hex = true ->
               (r <> EmptyString -> byte.last (String c s) = byte.last r)
               /\ (r = EmptyString -> String c s <> EmptyString -> hex = false ->
                   exists d, byte.last (String c s) = Some d
                             /\ strconv.number_end d = true)).
    { intros st1 E1 Hc. destruct (IH _ _ _ E1) as [IH1 IH2]. split.
      - intros Hr. rewrite <- (IH1 Hr). apply last_cons.
        intros ->. simpl in E1. injection E1 as _ <-. congruence.
      - intros Hr _ Hh. destruct s as [|d s'].
        + exists c. split; [reflexivity|]. destruct Hc; congruence.
        + rewrite last_cons by discriminate. apply IH2; [assumption|discriminate|assumption]. }
    assert (Hstop : (st, String c s) = (st', r) ->
               (r <> EmptyString -> byte.last (String c s) = byte.last r)
               /\ (r = EmptyString -> String c s <> EmptyString -> hex = false ->
                   exists d, byte.last (String c s) = Some d
                             /\ strconv.number_end d = true)).
    { intros [= _ <-]. split; [reflexivity|discriminate]. }
    cbn [strconv.read_digits] in E.
    destruct (Ascii.eqb c "_") eqn:Hu.
    { apply (Hstep _ E). left. unfold strconv.number_end. rewrite Hu.
      rewrite !orb_true_r. reflexivity. }
    destruct (Ascii.eqb c ".") eqn:Hp.
    { destruct (strconv.sawdot st); [exact (Hstop E)|].
      apply (Hstep _ E). left. unfold strconv.number_end. rewrite Hp.
      rewrite !orb_true_r. reflexivity. }
    destruct (byte.is_digit c) eqn:Hd.
    { assert (Hn : strconv.number_end c = true)
        by (unfold strconv.number_end; rewrite Hd; reflexivity).
      destruct (Ascii.eqb c "0" && (strconv.nd st =? 0));
        apply (Hstep _ E); left; exact Hn. }
    destruct (hex && byte.is_hex_letter c) eqn:Hx.
    { apply andb_prop in Hx. destruct Hx as [Hh _].
      apply (Hstep _ E). right. exact Hh. }
    exact (Hstop E).
Qed.

Lemma read_exp_digits_last (s : string) :
  forall e e' r,
    strconv.read_exp_digits e s = (e', r) ->
    (r <> EmptyString -> byte.last s = byte.last r)
    /\ (r = EmptyString -> s <> EmptyString ->
        exists d, byte.last s = Some d /\ strconv.number_end d = true).
Proof.
  induction s as [|c s IH]; intros e e' r E.
  - simpl in E. injection E as _ <-. split; [reflexivity|congruence].
  - assert (Hstep : forall e1,
               strconv.read_exp_digits e1 s = (e', r) ->
               strconv.number_end c = true ->
               (r <> EmptyString -> byte.last (String c s) = byte.last r)
               /\ (r = EmptyString -> String c s <> EmptyString ->
                   exists d, byte.last (String c s) = Some d
                             /\ strconv.number_end d = true)).
    { intros e1 E1 Hc. destruct (IH _ _ _ E1) as [IH1 IH2]. split.
      - intros Hr. rewrite <- (IH1 Hr). apply last_cons.
        intros ->. simpl in E1. injection E1 as _ <-. congruence.
      - intros Hr _. destruct s as [|d s'].
        + exists c. split; [reflexivity|assumption].
        + rewrite last_cons by discriminate. apply IH2; [assumption|discriminate]. }
    cbn [strconv.read_exp_digits] in E.
    destruct (Ascii.eqb c "_") eqn:Hu.
    { apply (Hstep _ E). unfold strconv.number_end. rewrite Hu.
      rewrite !orb_true_r. reflexivity. }
    destruct (byte.is_digit c) eqn:Hd.
    { apply (Hstep _ E). unfold strconv.number_end. rewrite Hd. reflexivity. }
    injection E as _ <-. split; [reflexivity|discriminate].
Qed.

Lemma read_exp_end (s : string) (e : Z) :
  strconv.read_exp s = Some (e, EmptyString) ->
  exists d, byte.last s = Some d /\ strconv.number_end d = true.
Proof.
  destruct s as [|c s1]; [discriminate|]. unfold strconv.read_exp.
  assert (Hrun : forall s2 : string,
             match s2 with
             | EmptyString => None
             | String d _ =>
                 if byte.is_digit d
                 then let '(e0, rest) := strconv.read_exp_digits 0 s2 in
                      Some (e0 * 1, rest)
                 else None
             end = Some (e, EmptyString) \/
             match s2 with
             | EmptyString => None
             | String d _ =>
                 if byte.is_digit d
                 then let '(e0, rest) := strconv.read_exp_digits 0 s2 in
                      Some (e0 * -1, rest)
                 else None
             end = Some (e, EmptyString) ->
             s2 <> EmptyString /\ exists d, byte.last s2 = Some d /\ strconv.number_end d = true).
  { intros s2 H. destruct s2 as [|d s2']; [destruct H; discriminate|].
    split; [discriminate|].
    destruct (byte.is_digit d); [|destruct H; discriminate].
    destruct (strconv.read_exp_digits 0 (String d s2')) as [e0 rest] eqn:E.
    assert (rest = EmptyString) as -> by (destruct H as [H|H]; congruence).
    apply (read_exp_digits_last _ _ _ _ E); [reflexivity|discriminate]. }
  destruct (Ascii.eqb c "+").
  { intros H. destruct (Hrun s1 (or_introl H)) as [Hne Hd].
    rewrite last_cons by assumption. exact Hd. }
  destruct (Ascii.eqb c "-").
  { intros H. destruct (Hrun s1 (or_intror H)) as [Hne Hd].
    rewrite last_cons by assumption. exact Hd. }
  intros H. destruct (Hrun (String c s1) (or_introl H)) as [_ Hd]. exact Hd.
Qed.

Lemma readFloat_end (s : string) (p : strconv.parsed) :
  strconv.readFloat s = Some p -> strconv.p_rest p = EmptyString ->
  exists d, byte.last s = Some d /\ strconv.number_end d = true.
Proof.
  unfold strconv.readFloat. destruct s as [|c0 s0]; [discriminate|].
  set (s := String c0 s0).
  destruct (strconv.read_sign s) as [neg s1] eqn:E1.
  destruct (strconv.read_base s1) as [hex s2] eqn:E2.
  destruct (strconv.read_digits hex strconv.mantissa0 s2) as [st s3] eqn:E3.
  destruct (strconv.sawdigits st) eqn:Hsaw; [|discriminate]. cbn [negb].
  assert (Hs2 : s2 <> EmptyString).
  { intros ->. simpl in E3. injection E3 as <- _. discriminate Hsaw. }
  assert (Hup : byte.last s = byte.last s2).
  { rewrite (read_sign_last _ _ _ E1).
    - apply (read_base_last _ _ _ E2 Hs2).
    - intros ->. simpl in E2. injection E2 as _ <-. congruence. }
  destruct (read_digits_last _ _ _ _ _ E3) as [Hrest Hall].
  rewrite Hup. clear Hup E1 E2.
  destruct s3 as [|c s4].
  - destruct hex; [discriminate|]. intros _ _. apply Hall; auto.
  - rewrite (Hrest ltac:(discriminate)).
    destruct (Ascii.eqb (byte.lower c) (if hex then "p"%char else "e"%char)).
    + destruct (strconv.read_exp s4) as [[e rest]|] eqn:E4; [|discriminate].
      intros [= <-]. cbn [strconv.p_rest]. intros ->.
      destruct s4 as [|c4 s5]; [discriminate E4|].
      rewrite last_cons by discriminate. apply (read_exp_end _ _ E4).
    + destruct hex; [discriminate|].
      intros [= <-]. cbn [strconv.p_rest]. discriminate.
Qed.

(** Whatever [ParseFloat] accepts ends in a byte of a number. *)
Lemma ParseFloat_end (s : string) (v : float64) :
  strconv.ParseFloat s = (v, None) ->
  exists d, byte.last s = Some d /\ strconv.number_end d = true.
Proof.
  unfold strconv.ParseFloat.
  destruct (strconv.special s) as [w|] eqn:Es; [intros _; apply (special_end _ _ Es)|].
  destruct (strconv.readFloat s) as [p|] eqn:Er; [|discriminate].
  destruct (strconv.p_rest p) eqn:Ep; [|discriminate].
  intros _. apply (readFloat_end _ _ Er Ep).
Qed.

(** No byte a number can end in is a byte of a unit suffix. *)
Lemma number_end_not_unit (c : ascii) :
  strconv.number_end c = true -> byte.mem c " dBmV" = false.
Proof.
  destruct c as [[] [] [] [] [] [] [] []]; vm_compute; intros H;
    (reflexivity || discriminate H).
Qed.

End NumberEnd.

(** * Facts about the program *)

Section RowFacts.

Lemma number_end_not_unit_dB (c : ascii) :
  strconv.number_end c = true -> byte.mem c " dB" = false.
Proof.
  destruct c as [[] [] [] [] [] [] [] []]; vm_compute; intros H;
    (reflexivity || discriminate H).
Qed.

(** every error of [ParseFloat] is a [NumError] of [ParseFloat] *)
Lemma ParseFloat_error (s : string) (v : float64) (err : error) :
  strconv.ParseFloat s = (v, Some err) ->
  err = strconv.syntaxError "ParseFloat" s \/ err = strconv.rangeError "ParseFloat" s.
Proof.
  unfold strconv.ParseFloat.
  destruct (strconv.special s); [discriminate|].
  destruct (strconv.readFloat s) as [p|]; [|intros [= _ <-]; left; reflexivity].
  destruct (strconv.p_rest p); [|intros [= _ <-]; left; reflexivity].
  destruct (negb (strconv.underscoreOK s)); [intros [= _ <-]; left; reflexivity|].
  destruct (strconv.value_of p); try discriminate.
  intros [= _ <-]. right. reflexivity.
Qed.

Lemma ScrapeUnitValue_eq (element : goquery.Item) (child : nat) (trim : string) :
  ScrapeUnitValue element child trim =
    match strconv.ParseFloat (strings.TrimRight (ScrapeColStr element child) trim) with
    | (_, Some err) => (f64.zero, Some err)
    | (valFloat, None) => (valFloat, None)
    end.
Proof. reflexivity. Qed.

Lemma ScrapeUnitValue_error (element : goquery.Item) (child : nat) (trim : string)
    (v : float64) (err : error) :
  ScrapeUnitValue element child trim = (v, Some err) ->
  v = f64.zero /\ exists s, err = strconv.syntaxError "ParseFloat" s
                            \/ err = strconv.rangeError "ParseFloat" s.
Proof.
  rewrite ScrapeUnitValue_eq.
  destruct (strconv.ParseFloat _) as [w [e'|]] eqn:E; [|discriminate].
  intros [= <- <-]. split; [reflexivity|]. eexists. apply (ParseFloat_error _ _ _ E).
Qed.

Lemma parses_true (element : goquery.Item) (child : nat) (trim : string) :
  parses element child trim = true ->
  exists v, ScrapeUnitValue element child trim = (v, None).
Proof.
  unfold parses. destruct (ScrapeUnitValue element child trim) as [v [e|]]; simpl.
  - discriminate.
  - intros _. exists v. reflexivity.
Qed.

Lemma parses_false (element : goquery.Item) (child : nat) (trim : string) :
  parses element child trim = false ->
  exists err, ScrapeUnitValue element child trim = (f64.zero, Some err).
Proof.
  unfold parses. destruct (ScrapeUnitValue element child trim) as [v [e|]] eqn:E; simpl.
  - intros _. exists e. destruct (ScrapeUnitValue_error _ _ _ _ _ E) as [-> _]. reflexivity.
  - discriminate.
Qed.

(** a downstream data row gives a record and no error *)
Lemma downstream_data_row_ok (element : goquery.Item) :
  downstream_data_row element = true ->
  ScrapeDownstreamTableRow element = (downstream_record element, None).
Proof.
  unfold downstream_data_row, downstream_record. intros H.
  repeat (apply andb_prop in H; destruct H as [H ?]).
  apply negb_true_iff in H.
  destruct (parses_true _ _ _ H0) as [v8 E8].
  destruct (parses_true _ _ _ H1) as [v7 E7].
  destruct (parses_true _ _ _ H2) as [v6 E6].
  destruct (parses_true _ _ _ H3) as [v5 E5].
  unfold ScrapeDownstreamTableRow. rewrite H, E5, E6, E7, E8. reflexivity.
Qed.

Lemma downstream_data_row_iff (element : goquery.Item) :
  downstream_data_row element = true <-> snd (ScrapeDownstreamTableRow element) = None.
Proof.
  split.
  - intros H. rewrite (downstream_data_row_ok _ H). reflexivity.
  - unfold ScrapeDownstreamTableRow, downstream_data_row, parses.
    destruct (String.eqb (ScrapeColStr element 1) "Channel ID"); [discriminate|].
    destruct (ScrapeUnitValue element 5 " dBmV") as [v5 [e|]]; [discriminate|].
    destruct (ScrapeUnitValue element 6 " dB") as [v6 [e|]]; [discriminate|].
    destruct (ScrapeUnitValue element 7 EmptyString) as [v7 [e|]]; [discriminate|].
    destruct (ScrapeUnitValue element 8 EmptyString) as [v8 [e|]]; [discriminate|].
    reflexivity.
Qed.

Lemma upstream_data_row_ok (element : goquery.Item) :
  upstream_data_row element = true ->
  ScrapeUpstreamTableRow element = (upstream_record element, None).
Proof.
  unfold upstream_data_row, upstream_record. intros H.
  apply andb_prop in H. destruct H as [H H7]. apply negb_true_iff in H.
  destruct (parses_true _ _ _ H7) as [v7 E7].
  unfold ScrapeUpstreamTableRow. rewrite H, E7. reflexivity.
Qed.

Lemma upstream_data_row_iff (element : goquery.Item) :
  upstream_data_row element = true <-> snd (ScrapeUpstreamTableRow element) = None.
Proof.
  split.
  - intros H. rewrite (upstream_data_row_ok _ H). reflexivity.
  - unfold ScrapeUpstreamTableRow, upstream_data_row, parses.
    destruct (String.eqb (ScrapeColStr element 1) "Channel"
              || String.eqb (ScrapeColStr element 1) EmptyString); [discriminate|].
    destruct (ScrapeUnitValue element 7 " dBmV") as [v7 [e|]]; [discriminate|].
    reflexivity.
Qed.

End RowFacts.

Section TableFacts.

Lemma ScrapeDownstreamTable_cons (row : goquery.Item) (rows : goquery.Selection) :
  ScrapeDownstreamTable (row :: rows) =
    match ScrapeDownstreamTableRow row with
    | (_, Some err) =>
        (fst (ScrapeDownstreamTable rows), LogDebug err :: snd (ScrapeDownstreamTable rows))
    | (parsedRow, None) =>
        (parsedRow :: fst (ScrapeDownstreamTable rows), snd (ScrapeDownstreamTable rows))
    end.
Proof.
  simpl. destruct (ScrapeDownstreamTable rows) as [cs lg].
  destruct (ScrapeDownstreamTableRow row) as [c [e|]]; reflexivity.
Qed.

Lemma ScrapeDownstreamTable_app (xs ys : goquery.Selection) :
  ScrapeDownstreamTable (xs ++ ys)%list =
    ((fst (ScrapeDownstreamTable xs) ++ fst (ScrapeDownstreamTable ys))%list,
     (snd (ScrapeDownstreamTable xs) ++ snd (ScrapeDownstreamTable ys))%list).
Proof.
  induction xs as [|x xs IH].
  - simpl. destruct (ScrapeDownstreamTable ys); reflexivity.
  - rewrite <- app_comm_cons, !ScrapeDownstreamTable_cons, IH.
    destruct (ScrapeDownstreamTableRow x) as [c [e|]]; reflexivity.
Qed.

Lemma ScrapeDownstreamTable_data (rows : goquery.Selection) :
  Forall (fun r => downstream_data_row r = true) rows ->
  ScrapeDownstreamTable rows = (map downstream_record rows, []).
Proof.
  induction 1 as [|r rows Hr _ IH]; [reflexivity|].
  rewrite ScrapeDownstreamTable_cons, (downstream_data_row_ok _ Hr), IH. reflexivity.
Qed.

(** A record of the output comes from a row of the input that parsed. *)
Lemma ScrapeDownstreamTable_In (rows : goquery.Selection) (c : DownstreamChannel) :
  In c (fst (ScrapeDownstreamTable rows)) ->
  exists row, In row rows /\ ScrapeDownstreamTableRow row = (c, None).
Proof.
  induction rows as [|r rows IH]; [intros []|].
  rewrite ScrapeDownstreamTable_cons.
  destruct (ScrapeDownstreamTableRow r) as [c' [e|]] eqn:E; simpl.
  - intros H. destruct (IH H) as (row & Hin & Hrow). exists row. auto.
  - intros [<-|H].
    + exists r. auto.
    + destruct (IH H) as (row & Hin & Hrow). exists row. auto.
Qed.

Lemma ScrapeUpstreamTable_cons (row : goquery.Item) (rows : goquery.Selection) :
  ScrapeUpstreamTable (row :: rows) =
    match ScrapeUpstreamTableRow row with
    | (_, Some err) =>
        (fst (ScrapeUpstreamTable rows), LogDebug err :: snd (ScrapeUpstreamTable rows))
    | (parsedRow, None) =>
        (parsedRow :: fst (ScrapeUpstreamTable rows), snd (ScrapeUpstreamTable rows))
    end.
Proof.
  simpl. destruct (ScrapeUpstreamTable rows) as [cs lg].
  destruct (ScrapeUpstreamTableRow row) as [c [e|]]; reflexivity.
Qed.

Lemma ScrapeUpstreamTable_app (xs ys : goquery.Selection) :
  ScrapeUpstreamTable (xs ++ ys)%list =
    ((fst (ScrapeUpstreamTable xs) ++ fst (ScrapeUpstreamTable ys))%list,
     (snd (ScrapeUpstreamTable xs) ++ snd (ScrapeUpstreamTable ys))%list).
Proof.
  induction xs as [|x xs IH].
  - simpl. destruct (ScrapeUpstreamTable ys); reflexivity.
  - rewrite <- app_comm_cons, !ScrapeUpstreamTable_cons, IH.
    destruct (ScrapeUpstreamTableRow x) as [c [e|]]; reflexivity.
Qed.

Lemma ScrapeUpstreamTable_data (rows : goquery.Selection) :
  Forall (fun r => upstream_data_row r = true) rows ->
  ScrapeUpstreamTable rows = (map upstream_record rows, []).
Proof.
  induction 1 as [|r rows Hr _ IH]; [reflexivity|].
  rewrite ScrapeUpstreamTable_cons, (upstream_data_row_ok _ Hr), IH. reflexivity.
Qed.

Lemma ScrapeUpstreamTable_In (rows : goquery.Selection) (c : UpstreamChannel) :
  In c (fst (ScrapeUpstreamTable rows)) ->
  exists row, In row rows /\ ScrapeUpstreamTableRow row = (c, None).
Proof.
  induction rows as [|r rows IH]; [intros []|].
  rewrite ScrapeUpstreamTable_cons.
  destruct (ScrapeUpstreamTableRow r) as [c' [e|]] eqn:E; simpl.
  - intros H. destruct (IH H) as (row & Hin & Hrow). exists row. auto.
  - intros [<-|H].
    + exists r. auto.
    + destruct (IH H) as (row & Hin & Hrow). exists row. auto.
Qed.

End TableFacts.

Section RowInversion.

(** What a downstream row that gives a record gave it. *)
Lemma ScrapeDownstreamTableRow_inv (element : goquery.Item) (c : DownstreamChannel) :
  ScrapeDownstreamTableRow element = (c, None) ->
  ScrapeColStr element 1 <> "Channel ID"
  /\ exists power snr correctedErrors uncorrectableErrors,
      ScrapeUnitValue element 5 " dBmV" = (power, None)
      /\ ScrapeUnitValue element 6 " dB" = (snr, None)
      /\ ScrapeUnitValue element 7 EmptyString = (correctedErrors, None)
      /\ ScrapeUnitValue element 8 EmptyString = (uncorrectableErrors, None)
      /\ c = mkDownstreamChannel
               (ScrapeColStr element 1)
               (if String.eqb (ScrapeColStr element 2) "Locked"
                then f64.one else f64.zero)
               (ScrapeColStr element 3)
               (ScrapeColStr element 4)
               power snr correctedErrors uncorrectableErrors.
Proof.
  unfold ScrapeDownstreamTableRow.
  destruct (String.eqb (ScrapeColStr element 1) "Channel ID") eqn:Hh; [discriminate|].
  apply String.eqb_neq in Hh.
  destruct (ScrapeUnitValue element 5 " dBmV") as [v5 [e|]]; [discriminate|].
  destruct (ScrapeUnitValue element 6 " dB") as [v6 [e|]]; [discriminate|].
  destruct (ScrapeUnitValue element 7 EmptyString) as [v7 [e|]]; [discriminate|].
  destruct (ScrapeUnitValue element 8 EmptyString) as [v8 [e|]]; [discriminate|].
  intros [= <-]. split; [assumption|].
  exists v5, v6, v7, v8. repeat split.
Qed.

Lemma ScrapeUpstreamTableRow_inv (element : goquery.Item) (c : UpstreamChannel) :
  ScrapeUpstreamTableRow element = (c, None) ->
  ScrapeColStr element 1 <> "Channel" /\ ScrapeColStr element 1 <> EmptyString
  /\ exists power,
      ScrapeUnitValue element 7 " dBmV" = (power, None)
      /\ c = mkUpstreamChannel
               (ScrapeColStr element 1)
               (ScrapeColStr element 2)
               (if String.eqb (ScrapeColStr element 3) "Locked"
                then f64.one else f64.zero)
               (ScrapeColStr element 4)
               (ScrapeColStr element 5)
               (ScrapeColStr element 6)
               power.
Proof.
  unfold ScrapeUpstreamTableRow.
  destruct (String.eqb (ScrapeColStr element 1) "Channel") eqn:H1; [discriminate|].
  destruct (String.eqb (ScrapeColStr element 1) EmptyString) eqn:H2; [discriminate|].
  apply String.eqb_neq in H1. apply String.eqb_neq in H2. cbn [orb].
  destruct (ScrapeUnitValue element 7 " dBmV") as [v7 [e|]]; [discriminate|].
  intros [= <-]. repeat split; try assumption.
  exists v7. split; reflexivity.
Qed.

(** the errors of the number cells are never the header errors *)
Lemma downstream_header_error (element : goquery.Item) :
  snd (ScrapeDownstreamTableRow element)
    = Some (errors.New "skip parsing second header row")
  <-> ScrapeColStr element 1 = "Channel ID".
Proof.
  unfold ScrapeDownstreamTableRow.
  destruct (String.eqb (ScrapeColStr element 1) "Channel ID") eqn:Hh.
  - apply String.eqb_eq in Hh. simpl. tauto.
  - apply String.eqb_neq in Hh.
    assert (Hno : forall child trim v e,
               ScrapeUnitValue element child trim = (v, Some e) ->
               e <> errors.New "skip parsing second header row").
    { intros child trim v e E. destruct (ScrapeUnitValue_error _ _ _ _ _ E) as [_ [s [->| ->]]];
        discriminate. }
    split; [|contradiction].
    destruct (ScrapeUnitValue element 5 " dBmV") as [v5 [e|]] eqn:E5;
      [simpl; intros [= H]; destruct (Hno _ _ _ _ E5 H)|].
    destruct (ScrapeUnitValue element 6 " dB") as [v6 [e|]] eqn:E6;
      [simpl; intros [= H]; destruct (Hno _ _ _ _ E6 H)|].
    destruct (ScrapeUnitValue element 7 EmptyString) as [v7 [e|]] eqn:E7;
      [simpl; intros [= H]; destruct (Hno _ _ _ _ E7 H)|].
    destruct (ScrapeUnitValue element 8 EmptyString) as [v8 [e|]] eqn:E8;
      [simpl; intros [= H]; destruct (Hno _ _ _ _ E8 H)|].
    discriminate.
Qed.

Lemma upstream_header_error (element : goquery.Item) :
  snd (ScrapeUpstreamTableRow element)
    = Some (errors.New "skip first two header row")
  <-> ScrapeColStr element 1 = "Channel" \/ ScrapeColStr element 1 = EmptyString.
Proof.
  unfold ScrapeUpstreamTableRow.
  destruct (String.eqb (ScrapeColStr element 1) "Channel") eqn:H1.
  { apply String.eqb_eq in H1. simpl. tauto. }
  destruct (String.eqb (ScrapeColStr element 1) EmptyString) eqn:H2.
  { apply String.eqb_eq in H2. simpl. tauto. }
  apply String.eqb_neq in H1. apply String.eqb_neq in H2. cbn [orb].
  split; [|tauto].
  destruct (ScrapeUnitValue element 7 " dBmV") as [v7 [e|]] eqn:E7; [|discriminate].
  simpl. intros [= H]. exfalso.
  destruct (ScrapeUnitValue_error _ _ _ _ _ E7) as [_ [s [->| ->]]]; discriminate.
Qed.

End RowInversion.

Section UptimeFacts.

Lemma uptime_loop_error (parts : list string) :
  forall i uptime t,
    In t parts -> snd (strconv.ParseFloat t) <> None ->
    exists t' uptime',
      In t' parts
      /\ (uptime_loop i uptime parts = (uptime', Some (strconv.syntaxError "ParseFloat" t'))
          \/ uptime_loop i uptime parts = (uptime', Some (strconv.rangeError "ParseFloat" t'))).
Proof.
  induction parts as [|p parts IH]; intros i uptime t Hin Hbad; [destruct Hin|].
  cbn [uptime_loop].
  destruct (strconv.ParseFloat p) as [n [e|]] eqn:Ep.
  - exists p, uptime. split; [left; reflexivity|].
    destruct (ParseFloat_error _ _ _ Ep) as [-> | ->]; auto.
  - destruct Hin as [<-|Hin]; [rewrite Ep in Hbad; contradiction|].
    edestruct (IH (S i)) as (t' & u' & Hin' & H); [exact Hin|exact Hbad|].
    exists t', u'. split; [right; assumption|exact H].
Qed.

Lemma uptime_loop_ok (parts : list string) :
  forall i uptime,
    Forall (fun t => snd (strconv.ParseFloat t) = None) parts ->
    snd (uptime_loop i uptime parts) = None.
Proof.
  induction parts as [|p parts IH]; intros i uptime H; [reflexivity|].
  inversion H as [|? ? Hp Hrest]; subst. cbn [uptime_loop].
  destruct (strconv.ParseFloat p) as [n [e|]]; [discriminate Hp|].
  apply IH, Hrest.
Qed.

(** which pieces of an uptime text [ParseFloat] refuses: the empty ones, and
    digit strings beyond the range of a float64 *)
Lemma uptime_part_refused (uptimeStr t : string) :
  In t (regexp.Split_nondigits uptimeStr) ->
  (snd (strconv.ParseFloat t) <> None
   <-> t = EmptyString \/ exists sg, f64.of_Z (byte.digits_value 0 t) = S754_infinity sg).
Proof.
  intros Hin.
  pose proof (Split_nondigits_digits uptimeStr) as Hall.
  rewrite Forall_forall in Hall. specialize (Hall t Hin).
  destruct t as [|c t'].
  - split; [auto|]. intros _. vm_compute. discriminate.
  - rewrite ParseFloat_digits by (discriminate || assumption).
    destruct (f64.of_Z (byte.digits_value 0 (String c t'))) eqn:E; simpl; split;
      try (intros H; contradiction H; reflexivity);
      try (intros [H|[sg H]]; discriminate);
      try discriminate.
    intros _. right. eexists. reflexivity.
Qed.

End UptimeFacts.

Section PipelineFacts.

Variable client : http.Client.
Variable e : Exporter.

(** a request made without a body has none to close *)
Lemma NewRequest_nil_body (url : string) (req : http.Request) :
  http.NewRequest client url None = Ok req -> http.Body req = None.
Proof.
  unfold http.NewRequest. destruct (http.Parse client url); [discriminate|].
  intros [= <-]. reflexivity.
Qed.

(** [Login] gets as far as its deferred close, and no further *)
Lemma Login_outcome :
  Login client e
  = match http.Parse client (logout_url e) with
    | Some err => Returns (None, EmptyString, Some err)
    | None => Panics
    end.
Proof.
  unfold Login.
  destruct (http.NewRequest client (logout_url e) None) as [req|err] eqn:E.
  - rewrite (NewRequest_nil_body _ _ E). unfold http.NewRequest in E.
    destruct (http.Parse client (logout_url e)); [discriminate E|reflexivity].
  - unfold http.NewRequest in E.
    destruct (http.Parse client (logout_url e)); [|discriminate E].
    injection E as <-. reflexivity.
Qed.

(** and so does [GetURL], whatever the session *)
Lemma GetURL_outcome (url : string) (sessionID : option http.Cookie) :
  GetURL client url sessionID
  = match http.Parse client url with
    | Some err => Returns (Err err)
    | None => Panics
    end.
Proof.
  unfold GetURL.
  destruct (http.NewRequest client url None) as [req|err] eqn:E.
  - pose proof (NewRequest_nil_body _ _ E) as Hbody.
    unfold http.NewRequest in E.
    destruct (http.Parse client url); [discriminate E|].
    unfold http.AddCookie. destruct sessionID as [cookie|]; [|reflexivity].
    cbn [http.Body]. rewrite Hbody. reflexivity.
  - unfold http.NewRequest in E.
    destruct (http.Parse client url); [|discriminate E].
    injection E as <-. reflexivity.
Qed.

Lemma Scrape_outcome :
  Scrape client e
  = match http.Parse client (logout_url e) with
    | Some err =>
        (Returns (ArrisModem_zero, Some err),
         [LogError "Failed to fetch login tokens"])
    | None => (Panics, [])
    end.
Proof.
  unfold Scrape. rewrite Login_outcome.
  destruct (http.Parse client (logout_url e)); reflexivity.
Qed.

Lemma Collect_outcome :
  Collect client e
  = match http.Parse client (logout_url e) with
    | Some err =>
        mkCollected
          [prometheus.mkMetric upMetric prometheus.GaugeValue f64.zero []]
          false
          [Scraped (LogError "Failed to fetch login tokens"); ScrapeFailed err]
    | None => mkCollected [] true []
    end.
Proof.
  unfold Collect. rewrite Scrape_outcome.
  destruct (http.Parse client (logout_url e)); reflexivity.
Qed.

(** the channels of whatever [Scrape] returns were read off some page *)
Lemma Scrape_channels (modem : ArrisModem) (err : option error) :
  fst (Scrape client e) = Returns (modem, err) ->
  (DownstreamBondedChannels modem = [] /\ UpstreamBondedChannels modem = [])
  \/ exists doc1,
      DownstreamBondedChannels modem = fst (downstream_of doc1)
      /\ UpstreamBondedChannels modem = fst (upstream_of doc1).
Proof.
  unfold Scrape.
  destruct (Login client e) as [[[sid tok] [err'|]]|];
    [intros [= <- <-]; left; split; reflexivity| |discriminate].
  destruct (GetURL client (status_url e tok) sid) as [[doc1|err']|];
    [|intros [= <- <-]; left; split; reflexivity|discriminate].
  destruct (downstream_of doc1) as [ds l1] eqn:Ed.
  destruct (upstream_of doc1) as [us l2] eqn:Eu.
  destruct (GetURL client (info_url e tok) sid) as [[doc2|err']|];
    [|intros [= <- <-]; left; split; reflexivity|discriminate].
  cbn [fst]. unfold product_information.
  destruct (ParseUptime _) as [u [err'|]]; intros [= <- <-];
    [left; split; reflexivity|].
  right. exists doc1. rewrite Ed, Eu. split; reflexivity.
Qed.

End PipelineFacts.

Section ChannelFacts.

Lemma downstream_of_In (document : goquery.Item) (c : DownstreamChannel) :
  In c (fst (downstream_of document)) ->
  exists row, ScrapeDownstreamTableRow row = (c, None).
Proof.
  unfold downstream_of.
  destruct (nth_error _ 1) as [element|]; [|intros []].
  intros H. destruct (ScrapeDownstreamTable_In _ _ H) as (row & _ & Hrow).
  exists row. exact Hrow.
Qed.

Lemma upstream_of_In (document : goquery.Item) (c : UpstreamChannel) :
  In c (fst (upstream_of document)) ->
  exists row, ScrapeUpstreamTableRow row = (c, None).
Proof.
  unfold upstream_of.
  destruct (nth_error _ 2) as [element|]; [|intros []].
  intros H. destruct (ScrapeUpstreamTable_In _ _ H) as (row & _ & Hrow).
  exists row. exact Hrow.
Qed.

Lemma one_not_zero : f64.one <> f64.zero.
Proof. vm_compute. discriminate. Qed.

End ChannelFacts.

(** * What the specification says *)

Section Uptime.

(** five parts that parse fold to [((d*24 + h)*60 + m)*60 + s]; the fifth
    is parsed and dropped *)
Lemma uptime_loop_five (d h m s c : string) (vd vh vm vs vc : float64) :
  strconv.ParseFloat d = (vd, None) -> strconv.ParseFloat h = (vh, None) ->
  strconv.ParseFloat m = (vm, None) -> strconv.ParseFloat s = (vs, None) ->
  strconv.ParseFloat c = (vc, None) ->
  uptime_loop 0 f64.zero [d; h; m; s; c] =
    (f64.add (f64.mul (f64.add (f64.mul (f64.add (f64.mul vd (f64.of_Z 24)) vh)
                                  (f64.of_Z 60)) vm) (f64.of_Z 60)) vs, None).
Proof.
  intros Hd Hh Hm Hs Hc. cbn [uptime_loop]. rewrite Hd, Hh, Hm, Hs, Hc. reflexivity.
Qed.

(** C1, as the specification states it, fails: the parser does not return
    3479572 for "40 days 05h:32m:52s.00", and 3479572 is not
    ((40*24+5)*60+32)*60+52 either. *)
Lemma uptime_example_is_not_3479572 :
  ParseUptime "40 days 05h:32m:52s.00" <> (f64.of_Z 3479572, None)
  /\ f64.to_Z (fst (ParseUptime "40 days 05h:32m:52s.00")) <> Some 3479572
  /\ ((40 * 24 + 5) * 60 + 32) * 60 + 52 <> 3479572.
Proof.
  repeat split; vm_compute; discriminate.
Qed.

(** C1 (amended): on "40 days 05h:32m:52s.00" the uptime parser splits on
    the runs of non-digits into 40, 05, 32, 52 and 00, drops the last, folds
    the rest left to right as acc*unit + next with units 24, 60 and 60, and
    returns 3475972.0 seconds, which is ((40*24+5)*60+32)*60+52. *)
Theorem uptime_example :
  regexp.Split_nondigits "40 days 05h:32m:52s.00" = ["40"; "05"; "32"; "52"; "00"]
  /\ ParseUptime "40 days 05h:32m:52s.00" =
       (f64.add (f64.mul (f64.add (f64.mul (f64.add (f64.mul (f64.of_Z 40)
                   (f64.of_Z 24)) (f64.of_Z 5)) (f64.of_Z 60)) (f64.of_Z 32))
                   (f64.of_Z 60)) (f64.of_Z 52), None)
  /\ ParseUptime "40 days 05h:32m:52s.00" = (f64.of_Z 3475972, None)
  /\ f64.to_Z (fst (ParseUptime "40 days 05h:32m:52s.00"))
       = Some (((40 * 24 + 5) * 60 + 32) * 60 + 52).
Proof.
  repeat split; vm_compute; reflexivity.
Qed.

End Uptime.

Section UnitValues.

(** C2, as stated, fails: a cell that does not end in the expected suffix is
    not refused.  Against " dBmV" the cells "8.3 dB" and "8.3" both give 8.3
    and no error. *)
Lemma unit_suffix_mismatch_accepted :
  strings.HasSuffix "8.3 dB" " dBmV" = false
  /\ ScrapeUnitValue (Page.row ["8.3 dB"]) 1 " dBmV"
       = (fst (strconv.ParseFloat "8.3"), None)
  /\ strings.HasSuffix "8.3" " dBmV" = false
  /\ ScrapeUnitValue (Page.row ["8.3"]) 1 " dBmV"
       = (fst (strconv.ParseFloat "8.3"), None).
Proof.
  repeat split; vm_compute; reflexivity.
Qed.

(** C2 (amended): for every cell "<number><suffix>", where <suffix> is the
    unit suffix the caller expects (" dBmV", " dB" or none) and <number> is
    anything [ParseFloat] accepts, [ScrapeUnitValue] returns that number;
    and whenever what is left of a cell, after every trailing byte that
    occurs in the suffix is removed, is not a number, it returns the parse
    error and not a zero default. *)
Theorem unit_value_parsed :
  (forall (element : goquery.Item) (child : nat) (number suffix : string)
          (v : float64),
      In suffix [" dBmV"; " dB"; EmptyString] ->
      ScrapeColStr element child = number ++ suffix ->
      strconv.ParseFloat number = (v, None) ->
      ScrapeUnitValue element child suffix = (v, None))
  /\ (forall (element : goquery.Item) (child : nat) (trim : string)
             (v : float64) (err : error),
         strconv.ParseFloat (strings.TrimRight (ScrapeColStr element child) trim)
           = (v, Some err) ->
         ScrapeUnitValue element child trim = (f64.zero, Some err)).
Proof.
  split.
  - intros element child number suffix v Hs Hcell Hnum.
    rewrite ScrapeUnitValue_eq, Hcell.
    destruct (ParseFloat_end _ _ Hnum) as (d & Hlast & Hend).
    assert (Htrim : strings.TrimRight (number ++ suffix) suffix = number).
    { simpl in Hs. destruct Hs as [<-|[<-|[<-|[]]]].
      - apply (TrimRight_app _ _ _ d Hlast); [|reflexivity].
        apply number_end_not_unit, Hend.
      - apply (TrimRight_app _ _ _ d Hlast); [|reflexivity].
        apply number_end_not_unit_dB, Hend.
      - rewrite append_empty_r. apply TrimRight_empty_cutset. }
    rewrite Htrim, Hnum. reflexivity.
  - intros element child trim v err H. rewrite ScrapeUnitValue_eq, H. reflexivity.
Qed.

Lemma unit_value_parsed_witness :
  (In " dBmV" [" dBmV"; " dB"; EmptyString]
   /\ ScrapeColStr (Page.row Fixture.ds2) 5 = "-1.5" ++ " dBmV"
   /\ strconv.ParseFloat "-1.5" = (S754_finite true 6755399441055744 (-52), None)
   /\ ScrapeUnitValue (Page.row Fixture.ds2) 5 " dBmV"
        = (S754_finite true 6755399441055744 (-52), None))
  /\ (strconv.ParseFloat
        (strings.TrimRight (ScrapeColStr (Page.row Fixture.ds_bad_power) 5) " dBmV")
        = (f64.zero, Some (strconv.syntaxError "ParseFloat" "n/a"))
      /\ ScrapeUnitValue (Page.row Fixture.ds_bad_power) 5 " dBmV"
           = (f64.zero, Some (strconv.syntaxError "ParseFloat" "n/a"))).
Proof.
  split.
  - assert (H1 : In " dBmV" [" dBmV"; " dB"; EmptyString]) by (left; reflexivity).
    assert (H2 : ScrapeColStr (Page.row Fixture.ds2) 5 = "-1.5" ++ " dBmV")
      by reflexivity.
    assert (H3 : strconv.ParseFloat "-1.5"
                 = (S754_finite true 6755399441055744 (-52), None))
      by (vm_compute; reflexivity).
    split; [exact H1|]. split; [exact H2|]. split; [exact H3|].
    exact (proj1 unit_value_parsed _ _ _ _ _ H1 H2 H3).
  - assert (H : strconv.ParseFloat
                  (strings.TrimRight
                     (ScrapeColStr (Page.row Fixture.ds_bad_power) 5) " dBmV")
                = (f64.zero, Some (strconv.syntaxError "ParseFloat" "n/a")))
      by (vm_compute; reflexivity).
    split; [exact H|].
    exact (proj2 unit_value_parsed _ _ _ _ _ H).
Defined.

End UnitValues.

Section PlainRows.

(** In a row of plain cells, column [k] is the [k]-th cell. *)
Lemma find_td_cells (k : nat) (above : list goquery.place) (cells : list string) :
  forall j : nat,
    goquery.Text (goquery.First
      (goquery.find_children [goquery.nth_child "td" k] above false j
         (map Page.td cells)))
    = if (j <=? k)%nat then nth (k - j) cells EmptyString else EmptyString.
Proof.
  induction cells as [|c cells IH]; intros j.
  - simpl. destruct (j <=? k)%nat; [destruct (k - j)%nat|]; reflexivity.
  - cbn [map goquery.find_children goquery.find_from Page.td goquery.match_chain
         goquery.next_index html.is_element].
    unfold goquery.match_compound, goquery.nth_child.
    cbn [goquery.sel_tag goquery.sel_class goquery.sel_nth goquery.tag goquery.index
         andb app String.eqb Ascii.eqb Bool.eqb].
    rewrite andb_true_r.
    destruct (Nat.eqb j k) eqn:E.
    + apply Nat.eqb_eq in E. subst j. cbn [app goquery.First firstn goquery.Text
                                           goquery.node goquery.node_text].
      rewrite Nat.leb_refl, Nat.sub_diag. cbn [nth].
      rewrite !append_empty_r. reflexivity.
    + apply Nat.eqb_neq in E. cbn [app]. rewrite IH.
      destruct (j <=? k)%nat eqn:Hjk.
      * apply Nat.leb_le in Hjk.
        replace (S j <=? k)%nat with true by (symmetry; apply Nat.leb_le; lia).
        replace (k - j)%nat with (S (k - S j)) by lia. reflexivity.
      * apply Nat.leb_gt in Hjk.
        replace (S j <=? k)%nat with false by (symmetry; apply Nat.leb_gt; lia).
        reflexivity.
Qed.

Lemma ScrapeColStr_row (cells : list string) (k : nat) :
  ScrapeColStr (Page.row cells) (S k) = nth k cells EmptyString.
Proof.
  unfold ScrapeColStr, Page.row, Page.tr, goquery.Find, td_nth_child.
  cbn [goquery.node goquery.path rev app].
  rewrite find_td_cells. cbn [Nat.leb].
  replace (S k - 1)%nat with k by lia. reflexivity.
Qed.

End PlainRows.

Section UptimeErrors.

(** C3, as stated, fails for the number of parts: an uptime text with three
    parts, or with six, is parsed without error, and the code that reads
    the product information page builds a modem from it. *)
Lemma uptime_part_count_not_checked :
  (List.length (regexp.Split_nondigits "40:05:32") = 3%nat
   /\ exists uptime,
        ParseUptime "40:05:32" = (uptime, None)
        /\ f64.to_Z uptime = Some 57932)
  /\ (List.length (regexp.Split_nondigits "1 d 2h:3m:4s.5.6") = 6%nat
      /\ exists uptime,
           ParseUptime "1 d 2h:3m:4s.5.6" = (uptime, None)
           /\ f64.to_Z uptime = Some 93784)
  /\ exists modem,
       product_information Fixture.exporter f64.one [] []
         (goquery.Document (Fixture.info_page "40:05:32")) = (modem, None)
       /\ f64.to_Z (Uptime modem) = Some 57932.
Proof.
  split; [|split].
  - split; [reflexivity|]. eexists. split; vm_compute; reflexivity.
  - split; [reflexivity|]. eexists. split; vm_compute; reflexivity.
  - eexists. split; vm_compute; reflexivity.
Qed.

(** C3 (amended): for every uptime text one of whose parts is not a number
    (an empty part, which the text has when it is empty or begins or ends
    with a non-digit, or a digit string out of range), the uptime parse
    returns the error of such a part, and the code of [Scrape] that reads
    the product information page ends on it at once, with that error and
    the zero [ArrisModem], whatever was read before.  The number of parts
    is not checked. *)
Theorem uptime_error_aborts_scrape (uptimeStr t : string) :
  In t (regexp.Split_nondigits uptimeStr) ->
  snd (strconv.ParseFloat t) <> None ->
  exists t' err,
    In t' (regexp.Split_nondigits uptimeStr)
    /\ (err = strconv.syntaxError "ParseFloat" t'
        \/ err = strconv.rangeError "ParseFloat" t')
    /\ snd (ParseUptime uptimeStr) = Some err
    /\ forall (e : Exporter) (connectivityState : float64)
              (downstreamChannels : list DownstreamChannel)
              (upstreamChannels : list UpstreamChannel) (document : goquery.Item),
         selText uptimeSelector document = uptimeStr ->
         product_information e connectivityState downstreamChannels
           upstreamChannels document
         = (ArrisModem_zero, Some err).
Proof.
  intros Hin Hbad.
  destruct (uptime_loop_error _ 0%nat f64.zero t Hin Hbad)
    as (t' & u' & Hin' & E).
  assert (Herr : exists err,
             (err = strconv.syntaxError "ParseFloat" t'
              \/ err = strconv.rangeError "ParseFloat" t')
             /\ ParseUptime uptimeStr = (u', Some err)).
  { destruct E as [E|E]; eexists; (split; [|exact E]); [left|right]; reflexivity. }
  destruct Herr as (err & Hform & Eerr).
  exists t', err. split; [exact Hin'|]. split; [exact Hform|].
  split; [rewrite Eerr; reflexivity|].
  intros e cs ds us document Htext.
  unfold product_information. rewrite Htext, Eerr. reflexivity.
Qed.

Lemma uptime_error_aborts_scrape_witness :
  let document := goquery.Document (Fixture.info_page "40 days 05h:32m:52s") in
  selText uptimeSelector document = "40 days 05h:32m:52s"
  /\ In EmptyString (regexp.Split_nondigits "40 days 05h:32m:52s")
  /\ snd (ParseUptime "40 days 05h:32m:52s")
     = Some (strconv.syntaxError "ParseFloat" EmptyString)
  /\ product_information Fixture.exporter f64.one [] [] document
     = (ArrisModem_zero, Some (strconv.syntaxError "ParseFloat" EmptyString)).
Proof.
  intros document.
  assert (Htext : selText uptimeSelector document = "40 days 05h:32m:52s")
    by (vm_compute; reflexivity).
  assert (Hin : In EmptyString (regexp.Split_nondigits "40 days 05h:32m:52s"))
    by (vm_compute; tauto).
  assert (Hbad : snd (strconv.ParseFloat EmptyString) <> None)
    by (vm_compute; discriminate).
  destruct (uptime_error_aborts_scrape "40 days 05h:32m:52s" EmptyString Hin Hbad)
    as (t' & err & _ & _ & Herr & Hpage).
  assert (E : err = strconv.syntaxError "ParseFloat" EmptyString).
  { vm_compute in Herr. injection Herr as <-. reflexivity. }
  split; [exact Htext|]. split; [exact Hin|].
  rewrite <- E. split; [exact Herr|].
  exact (Hpage Fixture.exporter f64.one [] [] document Htext).
Defined.

End UptimeErrors.

Section LoginFacts.

Lemma find_session_cookie_none (cookies : list http.Cookie) :
  (forall cookie, In cookie cookies ->
                  http.Name cookie = "sessionId" -> http.Value cookie = EmptyString) ->
  find is_session_cookie cookies = None.
Proof.
  intros H. induction cookies as [|c cookies IH]; [reflexivity|].
  simpl. unfold is_session_cookie at 1.
  destruct (String.eqb (http.Name c) "sessionId") eqn:En.
  - apply String.eqb_eq in En. rewrite (H c (or_introl eq_refl) En). simpl.
    apply IH. intros c' Hc'. apply H. right. exact Hc'.
  - simpl. apply IH. intros c' Hc'. apply H. right. exact Hc'.
Qed.

(** C4 does not hold of [Login] as it is written.  Whenever
    [http.NewRequest] accepts the logout URL, [Login] panics at its
    [defer req.Body.Close()], before any request is sent: whatever the
    device would answer, it returns neither a session nor one of the three
    errors of the claim.  It returns only when the logout URL is refused,
    and then the error of [http.NewRequest], with no session and an empty
    token. *)
Theorem login_panics (client : http.Client) (e : Exporter) :
  (http.Parse client (logout_url e) = None -> Login client e = Panics)
  /\ (forall refused,
         http.Parse client (logout_url e) = Some refused ->
         Login client e = Returns (None, EmptyString, Some refused))
  /\ (forall sid tok err,
         Login client e = Returns (sid, tok, err) ->
         sid = None /\ tok = EmptyString
         /\ exists refused,
              err = Some refused
              /\ http.Parse client (logout_url e) = Some refused).
Proof.
  rewrite Login_outcome. split; [|split].
  - intros ->. reflexivity.
  - intros refused ->. reflexivity.
  - intros sid tok err.
    destruct (http.Parse client (logout_url e)) as [refused|]; [|discriminate].
    intros [= <- <- <-]. split; [reflexivity|]. split; [reflexivity|].
    exists refused. split; reflexivity.
Qed.

Lemma login_panics_witness :
  let device resp :=
    Fixture.device resp (Fixture.text_page EmptyString)
      (Fixture.text_page EmptyString) in
  Login (device (Fixture.answer 401 [])) Fixture.exporter = Panics
  /\ Login (device (Fixture.answer 200 [http.mkCookie "sessionId" EmptyString]))
       Fixture.exporter = Panics
  /\ Login (device (Fixture.answer 503 [])) Fixture.exporter = Panics
  /\ Login (device (Fixture.answer 200 [Fixture.session])) Fixture.exporter = Panics
  /\ Login (device (Fixture.answer 200 [Fixture.session])) Fixture.misconfigured
     = Returns (None, EmptyString, Some Fixture.malformed).
Proof.
  intros device.
  pose (panics := fun resp =>
          proj1 (login_panics (device resp) Fixture.exporter) eq_refl).
  split; [exact (panics _)|]. split; [exact (panics _)|].
  split; [exact (panics _)|]. split; [exact (panics _)|].
  exact (proj1 (proj2 (login_panics (device (Fixture.answer 200 [Fixture.session]))
                         Fixture.misconfigured))
           Fixture.malformed eq_refl).
Defined.

End LoginFacts.

Section Tables.

(** C5: a table of one header row and [N] data rows that parse gives [N]
    records, in the order of the rows; when one more data row, whose power
    cell is not a number, stands among them, it is dropped and logged, the
    other rows give their records as before, and the scan goes on to the
    end; both for the downstream and for the upstream table.  The scrapers
    return the records and log the errors of the rows: they have no error
    of their own to return, so there is nothing in a row for their caller
    to abort on. *)
Theorem table_rows_in_order :
  (forall (header : goquery.Item) (rows : goquery.Selection),
      ScrapeColStr header 1 = "Channel ID" ->
      Forall (fun r => downstream_data_row r = true) rows ->
      fst (ScrapeDownstreamTable (header :: rows)) = map downstream_record rows
      /\ List.length (fst (ScrapeDownstreamTable (header :: rows))) = List.length rows)
  /\ (forall (header bad : goquery.Item) (before after : goquery.Selection),
         ScrapeColStr header 1 = "Channel ID" ->
         Forall (fun r => downstream_data_row r = true) before ->
         Forall (fun r => downstream_data_row r = true) after ->
         ScrapeColStr bad 1 <> "Channel ID" ->
         parses bad 5 " dBmV" = false ->
         exists err,
           ScrapeUnitValue bad 5 " dBmV" = (f64.zero, Some err)
           /\ ScrapeDownstreamTable (header :: before ++ bad :: after)%list
              = ((map downstream_record before ++ map downstream_record after)%list,
                 [LogDebug (errors.New "skip parsing second header row");
                  LogDebug err])
           /\ S (List.length (fst (ScrapeDownstreamTable
                                    (header :: before ++ bad :: after)%list)))
              = List.length (before ++ bad :: after)%list)
  /\ (forall (header : goquery.Item) (rows : goquery.Selection),
         ScrapeColStr header 1 = "Channel" \/ ScrapeColStr header 1 = EmptyString ->
         Forall (fun r => upstream_data_row r = true) rows ->
         fst (ScrapeUpstreamTable (header :: rows)) = map upstream_record rows
         /\ List.length (fst (ScrapeUpstreamTable (header :: rows))) = List.length rows)
  /\ (forall (header bad : goquery.Item) (before after : goquery.Selection),
         ScrapeColStr header 1 = "Channel" \/ ScrapeColStr header 1 = EmptyString ->
         Forall (fun r => upstream_data_row r = true) before ->
         Forall (fun r => upstream_data_row r = true) after ->
         ScrapeColStr bad 1 <> "Channel" -> ScrapeColStr bad 1 <> EmptyString ->
         parses bad 7 " dBmV" = false ->
         exists err,
           ScrapeUnitValue bad 7 " dBmV" = (f64.zero, Some err)
           /\ ScrapeUpstreamTable (header :: before ++ bad :: after)%list
              = ((map upstream_record before ++ map upstream_record after)%list,
                 [LogDebug (errors.New "skip first two header row");
                  LogDebug err])
           /\ S (List.length (fst (ScrapeUpstreamTable
                                    (header :: before ++ bad :: after)%list)))
              = List.length (before ++ bad :: after)%list).
Proof.
  assert (Hdh : forall header,
             ScrapeColStr header 1 = "Channel ID" ->
             ScrapeDownstreamTableRow header
             = (DownstreamChannel_zero,
                Some (errors.New "skip parsing second header row"))).
  { intros header H. unfold ScrapeDownstreamTableRow. rewrite H. reflexivity. }
  assert (Huh : forall header,
             ScrapeColStr header 1 = "Channel" \/ ScrapeColStr header 1 = EmptyString ->
             ScrapeUpstreamTableRow header
             = (UpstreamChannel_zero, Some (errors.New "skip first two header row"))).
  { intros header H. unfold ScrapeUpstreamTableRow.
    destruct H as [H|H]; rewrite H; reflexivity. }
  split; [|split; [|split]].
  - intros header rows Hh Hrows.
    rewrite ScrapeDownstreamTable_cons, (Hdh _ Hh),
      (ScrapeDownstreamTable_data _ Hrows).
    cbn [fst]. split; [reflexivity|apply length_map].
  - intros header bad before after Hh Hb Ha Hbad1 Hbad5.
    destruct (parses_false _ _ _ Hbad5) as [err E]. exists err.
    split; [exact E|].
    assert (Hrow : ScrapeDownstreamTableRow bad = (DownstreamChannel_zero, Some err)).
    { unfold ScrapeDownstreamTableRow.
      apply String.eqb_neq in Hbad1. rewrite Hbad1, E. reflexivity. }
    assert (Heq : ScrapeDownstreamTable (header :: before ++ bad :: after)%list
                  = ((map downstream_record before ++ map downstream_record after)%list,
                     [LogDebug (errors.New "skip parsing second header row");
                      LogDebug err])).
    { rewrite ScrapeDownstreamTable_cons, (Hdh _ Hh), ScrapeDownstreamTable_app,
        ScrapeDownstreamTable_cons, Hrow,
        (ScrapeDownstreamTable_data _ Hb), (ScrapeDownstreamTable_data _ Ha).
      reflexivity. }
    split; [exact Heq|]. rewrite Heq. cbn [fst].
    rewrite !length_app, !length_map. cbn [List.length]. lia.
  - intros header rows Hh Hrows.
    rewrite ScrapeUpstreamTable_cons, (Huh _ Hh), (ScrapeUpstreamTable_data _ Hrows).
    cbn [fst]. split; [reflexivity|apply length_map].
  - intros header bad before after Hh Hb Ha Hbad1 Hbad1' Hbad7.
    destruct (parses_false _ _ _ Hbad7) as [err E]. exists err.
    split; [exact E|].
    assert (Hrow : ScrapeUpstreamTableRow bad = (UpstreamChannel_zero, Some err)).
    { unfold ScrapeUpstreamTableRow.
      apply String.eqb_neq in Hbad1. apply String.eqb_neq in Hbad1'.
      rewrite Hbad1, Hbad1', E. reflexivity. }
    assert (Heq : ScrapeUpstreamTable (header :: before ++ bad :: after)%list
                  = ((map upstream_record before ++ map upstream_record after)%list,
                     [LogDebug (errors.New "skip first two header row");
                      LogDebug err])).
    { rewrite ScrapeUpstreamTable_cons, (Huh _ Hh), ScrapeUpstreamTable_app,
        ScrapeUpstreamTable_cons, Hrow,
        (ScrapeUpstreamTable_data _ Hb), (ScrapeUpstreamTable_data _ Ha).
      reflexivity. }
    split; [exact Heq|]. rewrite Heq. cbn [fst].
    rewrite !length_app, !length_map. cbn [List.length]. lia.
Qed.

Lemma table_rows_in_order_witness :
  let d := Page.row in
  (fst (ScrapeDownstreamTable
          [d Fixture.downstream_header; d Fixture.ds1; d Fixture.ds2])
     = [downstream_record (d Fixture.ds1); downstream_record (d Fixture.ds2)])
  /\ (exists err,
         ScrapeDownstreamTable
           [d Fixture.downstream_header; d Fixture.ds1; d Fixture.ds_bad_power;
            d Fixture.ds2]
         = ([downstream_record (d Fixture.ds1); downstream_record (d Fixture.ds2)],
            [LogDebug (errors.New "skip parsing second header row"); LogDebug err]))
  /\ (fst (ScrapeUpstreamTable
             [d Fixture.upstream_header; d Fixture.us1; d Fixture.us2])
        = [upstream_record (d Fixture.us1); upstream_record (d Fixture.us2)])
  /\ (exists err,
         ScrapeUpstreamTable
           [d Fixture.upstream_header; d Fixture.us1; d Fixture.us_bad_power;
            d Fixture.us2]
         = ([upstream_record (d Fixture.us1); upstream_record (d Fixture.us2)],
            [LogDebug (errors.New "skip first two header row"); LogDebug err])).
Proof.
  intros d.
  destruct table_rows_in_order as (Hd & Hdbad & Hu & Hubad).
  split; [|split; [|split]].
  - refine (proj1 (Hd (d Fixture.downstream_header)
                      [d Fixture.ds1; d Fixture.ds2] eq_refl _)).
    repeat constructor.
  - destruct (Hdbad (d Fixture.downstream_header) (d Fixture.ds_bad_power)
                [d Fixture.ds1] [d Fixture.ds2] eq_refl)
      as (err & _ & H & _);
      [repeat constructor|repeat constructor|vm_compute; discriminate|reflexivity|].
    exists err. exact H.
  - refine (proj1 (Hu (d Fixture.upstream_header)
                      [d Fixture.us1; d Fixture.us2] (or_introl eq_refl) _)).
    repeat constructor.
  - destruct (Hubad (d Fixture.upstream_header) (d Fixture.us_bad_power)
                [d Fixture.us1] [d Fixture.us2] (or_introl eq_refl))
      as (err & _ & H & _);
      [repeat constructor|repeat constructor|vm_compute; discriminate
      |vm_compute; discriminate|reflexivity|].
    exists err. exact H.
Defined.

(** C6: the first cell alone decides whether a row is a header, by
    equality with the labels of the table: a downstream row is skipped as a
    header exactly when its first cell is "Channel ID", an upstream row
    exactly when its first cell is "Channel" or empty.  So a row with any
    other first cell, a channel number for one, is never taken for a header,
    and a row with a label in its first cell never gives a record.  The
    first cell is what [td:nth-child(1)] selects; in a row of plain cells
    that is the first of them. *)
Theorem header_rows_allow_list :
  (forall element : goquery.Item,
      (snd (ScrapeDownstreamTableRow element)
         = Some (errors.New "skip parsing second header row")
       <-> ScrapeColStr element 1 = "Channel ID")
      /\ (snd (ScrapeUpstreamTableRow element)
            = Some (errors.New "skip first two header row")
          <-> ScrapeColStr element 1 = "Channel"
              \/ ScrapeColStr element 1 = EmptyString)
      /\ (ScrapeColStr element 1 = "Channel ID" ->
          downstream_data_row element = false)
      /\ (ScrapeColStr element 1 = "Channel"
          \/ ScrapeColStr element 1 = EmptyString ->
          upstream_data_row element = false)
      /\ (ScrapeColStr element 1 <> EmptyString ->
          byte.all_digits (ScrapeColStr element 1) = true ->
          snd (ScrapeDownstreamTableRow element)
            <> Some (errors.New "skip parsing second header row")
          /\ snd (ScrapeUpstreamTableRow element)
               <> Some (errors.New "skip first two header row")))
  /\ (forall (first : string) (others : list string),
         (snd (ScrapeDownstreamTableRow (Page.row (first :: others)))
            = Some (errors.New "skip parsing second header row")
          <-> first = "Channel ID")
         /\ (snd (ScrapeUpstreamTableRow (Page.row (first :: others)))
               = Some (errors.New "skip first two header row")
             <-> first = "Channel" \/ first = EmptyString)).
Proof.
  split.
  - intros element.
    split; [apply downstream_header_error|].
    split; [apply upstream_header_error|].
    split; [|split].
    + intros H. unfold downstream_data_row. rewrite H. reflexivity.
    + intros H. unfold upstream_data_row. destruct H as [H|H]; rewrite H; reflexivity.
    + intros Hne Hd. split.
      * rewrite downstream_header_error. intros H. rewrite H in Hd. discriminate Hd.
      * rewrite upstream_header_error. intros [H|H]; [|contradiction].
        rewrite H in Hd. discriminate Hd.
  - intros first others.
    rewrite downstream_header_error, upstream_header_error, ScrapeColStr_row.
    cbn [nth]. tauto.
Qed.

Lemma header_rows_allow_list_witness :
  snd (ScrapeDownstreamTableRow (Page.row Fixture.downstream_header))
    = Some (errors.New "skip parsing second header row")
  /\ snd (ScrapeUpstreamTableRow (Page.row Fixture.upstream_header))
       = Some (errors.New "skip first two header row")
  /\ snd (ScrapeDownstreamTableRow (Page.row Fixture.ds1))
       <> Some (errors.New "skip parsing second header row")
  /\ snd (ScrapeUpstreamTableRow (Page.row Fixture.us1))
       <> Some (errors.New "skip first two header row").
Proof.
  destruct header_rows_allow_list as [Hany Hplain].
  split; [|split; [|split]].
  - apply (proj1 (Hplain "Channel ID" (tl Fixture.downstream_header))). reflexivity.
  - apply (proj2 (Hplain "Channel" (tl Fixture.upstream_header))). left. reflexivity.
  - apply (proj2 (proj2 (proj2 (proj2 (Hany (Page.row Fixture.ds1)))))).
    + vm_compute. discriminate.
    + reflexivity.
  - apply (proj2 (proj2 (proj2 (proj2 (Hany (Page.row Fixture.us1)))))).
    + vm_compute. discriminate.
    + reflexivity.
Defined.

End Tables.

Section Connectivity.

Lemma selText_no_match (sel : goquery.Selector) (document : goquery.Item) :
  goquery.Find sel document = [] -> selText sel document = EmptyString.
Proof. unfold selText. intros ->. reflexivity. Qed.



End Connectivity.

Section Channels.

(** C8: the record of a downstream data row is read off fixed columns:
    the channel ID is column 1, the lock status is 1 when column 2 reads
    "Locked" and 0 for any other text, the modulation is column 3, the
    frequency column 4, the power column 5 trimmed of " dBmV", the SNR
    column 6 trimmed of " dB", the corrected and the uncorrectable errors
    columns 7 and 8 with nothing trimmed.  Column [k] is what
    [td:nth-child(k)] selects; in a row of plain cells, the [k]-th cell. *)
Theorem downstream_columns :
  (forall (element : goquery.Item) (c : DownstreamChannel),
      ScrapeDownstreamTableRow element = (c, None) ->
      ds_ChannelID c = ScrapeColStr element 1
      /\ (ds_LockStatus c = f64.one <-> ScrapeColStr element 2 = "Locked")
      /\ (ds_LockStatus c = f64.zero <-> ScrapeColStr element 2 <> "Locked")
      /\ ds_Modulation c = ScrapeColStr element 3
      /\ ds_Frequency c = ScrapeColStr element 4
      /\ strconv.ParseFloat (strings.TrimRight (ScrapeColStr element 5) " dBmV")
           = (ds_Power c, None)
      /\ strconv.ParseFloat (strings.TrimRight (ScrapeColStr element 6) " dB")
           = (ds_SNR c, None)
      /\ strconv.ParseFloat (ScrapeColStr element 7) = (ds_CorrectedErrors c, None)
      /\ strconv.ParseFloat (ScrapeColStr element 8)
           = (ds_UncorrectableErrors c, None))
  /\ (forall (c1 c2 c3 c4 c5 c6 c7 c8 : string) (more : list string)
             (c : DownstreamChannel),
         ScrapeDownstreamTableRow
           (Page.row (c1 :: c2 :: c3 :: c4 :: c5 :: c6 :: c7 :: c8 :: more))
           = (c, None) ->
         ds_ChannelID c = c1
         /\ (ds_LockStatus c = f64.one <-> c2 = "Locked")
         /\ (ds_LockStatus c = f64.zero <-> c2 <> "Locked")
         /\ ds_Modulation c = c3
         /\ ds_Frequency c = c4
         /\ strconv.ParseFloat (strings.TrimRight c5 " dBmV") = (ds_Power c, None)
         /\ strconv.ParseFloat (strings.TrimRight c6 " dB") = (ds_SNR c, None)
         /\ strconv.ParseFloat c7 = (ds_CorrectedErrors c, None)
         /\ strconv.ParseFloat c8 = (ds_UncorrectableErrors c, None)).
Proof.
  assert (Hany : forall (element : goquery.Item) (c : DownstreamChannel),
      ScrapeDownstreamTableRow element = (c, None) ->
      ds_ChannelID c = ScrapeColStr element 1
      /\ (ds_LockStatus c = f64.one <-> ScrapeColStr element 2 = "Locked")
      /\ (ds_LockStatus c = f64.zero <-> ScrapeColStr element 2 <> "Locked")
      /\ ds_Modulation c = ScrapeColStr element 3
      /\ ds_Frequency c = ScrapeColStr element 4
      /\ strconv.ParseFloat (strings.TrimRight (ScrapeColStr element 5) " dBmV")
           = (ds_Power c, None)
      /\ strconv.ParseFloat (strings.TrimRight (ScrapeColStr element 6) " dB")
           = (ds_SNR c, None)
      /\ strconv.ParseFloat (ScrapeColStr element 7) = (ds_CorrectedErrors c, None)
      /\ strconv.ParseFloat (ScrapeColStr element 8)
           = (ds_UncorrectableErrors c, None)).
  { intros element c H.
    destruct (ScrapeDownstreamTableRow_inv _ _ H)
      as (_ & v5 & v6 & v7 & v8 & E5 & E6 & E7 & E8 & ->).
    assert (Hparse : forall child trim v,
               ScrapeUnitValue element child trim = (v, None) ->
               strconv.ParseFloat (strings.TrimRight (ScrapeColStr element child) trim)
               = (v, None)).
    { intros child trim v. rewrite ScrapeUnitValue_eq.
      destruct (strconv.ParseFloat _) as [w [err|]]; [discriminate|].
      intros [= ->]. reflexivity. }
    apply Hparse in E5, E6, E7, E8. rewrite TrimRight_empty_cutset in E7, E8.
    cbn [ds_ChannelID ds_LockStatus ds_Modulation ds_Frequency ds_Power ds_SNR
         ds_CorrectedErrors ds_UncorrectableErrors].
    split; [reflexivity|].
    split; [|split; [|repeat split; assumption]];
      destruct (String.eqb (ScrapeColStr element 2) "Locked") eqn:E;
      [apply String.eqb_eq in E|apply String.eqb_neq in E
      |apply String.eqb_eq in E|apply String.eqb_neq in E]; split; try tauto.
    - intros H'. symmetry in H'. destruct (one_not_zero H').
    - intros H'. destruct (one_not_zero H'). }
  split; [exact Hany|].
  intros c1 c2 c3 c4 c5 c6 c7 c8 more c H.
  pose proof (Hany _ _ H) as Hcols.
  rewrite !ScrapeColStr_row in Hcols. exact Hcols.
Qed.

Lemma downstream_columns_witness :
  let c := downstream_record (Page.row Fixture.ds1) in
  ScrapeDownstreamTableRow (Page.row Fixture.ds1) = (c, None)
  /\ ds_ChannelID c = "20"
  /\ ds_LockStatus c = f64.one
  /\ ds_Modulation c = "QAM256"
  /\ ds_Frequency c = "495000000 Hz"
  /\ strconv.ParseFloat "8.3" = (ds_Power c, None)
  /\ strconv.ParseFloat "40.9" = (ds_SNR c, None)
  /\ strconv.ParseFloat "12" = (ds_CorrectedErrors c, None)
  /\ strconv.ParseFloat "0" = (ds_UncorrectableErrors c, None).
Proof.
  intros c.
  assert (H : ScrapeDownstreamTableRow (Page.row Fixture.ds1) = (c, None))
    by reflexivity.
  destruct (proj2 downstream_columns
              "20" "Locked" "QAM256" "495000000 Hz" "8.3 dBmV" "40.9 dB" "12" "0"
              [] c H)
    as (H1 & H2 & _ & H3 & H4 & H5 & H6 & H7 & H8).
  split; [exact H|]. split; [exact H1|].
  split; [apply H2; reflexivity|].
  split; [exact H3|]. split; [exact H4|].
  split; [exact H5|]. split; [exact H6|]. split; [exact H7|exact H8].
Defined.

(** C9, as stated, fails: the counters are whatever the cells parse to, and
    a row with the cell "-5" gives a record with a negative counter, which
    the table scraper keeps. *)
Lemma negative_counter_scraped :
  exists c,
    ScrapeDownstreamTableRow (Page.row Fixture.ds_negative) = (c, None)
    /\ In c (fst (ScrapeDownstreamTable
                    [Page.row Fixture.downstream_header;
                     Page.row Fixture.ds_negative]))
    /\ f64.is_negative (ds_CorrectedErrors c) = true.
Proof.
  eexists. split; [vm_compute; reflexivity|].
  split; [vm_compute; left; reflexivity|reflexivity].
Qed.

(** C9 (amended): for every DownstreamChannel record scraped from a table
    whose data rows have strings of decimal digits in their corrected and
    uncorrectable cells, as the modem writes its counters, neither counter
    is negative.  (The scraper does not refuse a signed cell.) *)
Theorem counters_not_negative (rows : goquery.Selection) (c : DownstreamChannel) :
  Forall (fun r => downstream_data_row r = true ->
                   byte.all_digits (ScrapeColStr r 7) = true
                   /\ byte.all_digits (ScrapeColStr r 8) = true) rows ->
  In c (fst (ScrapeDownstreamTable rows)) ->
  f64.is_negative (ds_CorrectedErrors c) = false
  /\ f64.is_negative (ds_UncorrectableErrors c) = false.
Proof.
  intros Hrows Hin.
  destruct (ScrapeDownstreamTable_In _ _ Hin) as (row & Hrow & E).
  rewrite Forall_forall in Hrows.
  destruct (Hrows row Hrow) as [H7 H8];
    [apply downstream_data_row_iff; rewrite E; reflexivity|].
  destruct (ScrapeDownstreamTableRow_inv _ _ E)
    as (_ & v5 & v6 & v7 & v8 & _ & _ & E7 & E8 & ->).
  cbn [ds_CorrectedErrors ds_UncorrectableErrors].
  rewrite ScrapeUnitValue_eq, TrimRight_empty_cutset in E7, E8.
  destruct (strconv.ParseFloat (ScrapeColStr row 7)) as [w7 [err|]] eqn:P7;
    [discriminate|].
  destruct (strconv.ParseFloat (ScrapeColStr row 8)) as [w8 [err|]] eqn:P8;
    [discriminate|].
  injection E7 as <-. injection E8 as <-.
  split; [apply (ParseFloat_digits_not_negative _ _ H7 P7)
         |apply (ParseFloat_digits_not_negative _ _ H8 P8)].
Qed.

Lemma counters_not_negative_witness :
  let rows := [Page.row Fixture.downstream_header; Page.row Fixture.ds1;
               Page.row Fixture.ds2] in
  let c := downstream_record (Page.row Fixture.ds2) in
  In c (fst (ScrapeDownstreamTable rows))
  /\ f64.is_negative (ds_CorrectedErrors c) = false
  /\ f64.is_negative (ds_UncorrectableErrors c) = false.
Proof.
  intros rows c.
  assert (Hin : In c (fst (ScrapeDownstreamTable rows)))
    by (vm_compute; right; left; reflexivity).
  split; [exact Hin|].
  apply (counters_not_negative rows c); [|exact Hin].
  repeat constructor; discriminate.
Defined.

(** C10: in every channel record a scrape returns, downstream or upstream,
    the lock status is 0.0 or 1.0, whatever the lock cell of the row says;
    and so for every record [Scrape] reads off a status page, and for every
    record either table scraper gives. *)
Theorem lock_status_zero_or_one (client : http.Client) (e : Exporter) :
  (forall modem err,
      fst (Scrape client e) = Returns (modem, err) ->
      Forall (fun c => ds_LockStatus c = f64.zero \/ ds_LockStatus c = f64.one)
        (DownstreamBondedChannels modem)
      /\ Forall (fun c => us_LockStatus c = f64.zero \/ us_LockStatus c = f64.one)
           (UpstreamBondedChannels modem))
  /\ (forall document : goquery.Item,
         Forall (fun c => ds_LockStatus c = f64.zero \/ ds_LockStatus c = f64.one)
           (fst (downstream_of document))
         /\ Forall (fun c => us_LockStatus c = f64.zero \/ us_LockStatus c = f64.one)
              (fst (upstream_of document)))
  /\ (forall rows : goquery.Selection,
         Forall (fun c => ds_LockStatus c = f64.zero \/ ds_LockStatus c = f64.one)
           (fst (ScrapeDownstreamTable rows))
         /\ Forall (fun c => us_LockStatus c = f64.zero \/ us_LockStatus c = f64.one)
              (fst (ScrapeUpstreamTable rows))).
Proof.
  assert (Hd : forall row c, ScrapeDownstreamTableRow row = (c, None) ->
                             ds_LockStatus c = f64.zero \/ ds_LockStatus c = f64.one).
  { intros row c E.
    destruct (ScrapeDownstreamTableRow_inv _ _ E)
      as (_ & v5 & v6 & v7 & v8 & _ & _ & _ & _ & ->).
    cbn [ds_LockStatus]. destruct (String.eqb _ _); auto. }
  assert (Hu : forall row c, ScrapeUpstreamTableRow row = (c, None) ->
                             us_LockStatus c = f64.zero \/ us_LockStatus c = f64.one).
  { intros row c E.
    destruct (ScrapeUpstreamTableRow_inv _ _ E) as (_ & _ & v7 & _ & ->).
    cbn [us_LockStatus]. destruct (String.eqb _ _); auto. }
  assert (Hdoc : forall document : goquery.Item,
             Forall (fun c => ds_LockStatus c = f64.zero \/ ds_LockStatus c = f64.one)
               (fst (downstream_of document))
             /\ Forall (fun c => us_LockStatus c = f64.zero
                                 \/ us_LockStatus c = f64.one)
                  (fst (upstream_of document))).
  { intros document. split; apply Forall_forall; intros c Hin.
    - destruct (downstream_of_In _ _ Hin) as [row Hrow]. exact (Hd _ _ Hrow).
    - destruct (upstream_of_In _ _ Hin) as [row Hrow]. exact (Hu _ _ Hrow). }
  split; [|split].
  - intros modem err H.
    destruct (Scrape_channels client e modem err H) as [[Ed Eu]|(doc1 & Ed & Eu)];
      rewrite Ed, Eu; [split; constructor|apply Hdoc].
  - exact Hdoc.
  - intros rows. split; apply Forall_forall; intros c Hin.
    + destruct (ScrapeDownstreamTable_In _ _ Hin) as (row & _ & Hrow).
      exact (Hd _ _ Hrow).
    + destruct (ScrapeUpstreamTable_In _ _ Hin) as (row & _ & Hrow).
      exact (Hu _ _ Hrow).
Qed.

End Channels.

(** * Further properties of the scrapers *)

Section UpstreamRows.

(** The record of an upstream data row is read off fixed columns: the
    channel is column 1, the channel ID column 2, the lock status is 1 when
    column 3 reads "Locked" and 0 for any other text, the channel type is
    column 4, the frequency column 5, the width column 6 and the power
    column 7 trimmed of " dBmV"; in a row of plain cells column [k] is the
    [k]-th cell. *)
Theorem upstream_columns :
  (forall (element : goquery.Item) (c : UpstreamChannel),
      ScrapeUpstreamTableRow element = (c, None) ->
      us_Channel c = ScrapeColStr element 1
      /\ us_ChannelID c = ScrapeColStr element 2
      /\ (us_LockStatus c = f64.one <-> ScrapeColStr element 3 = "Locked")
      /\ (us_LockStatus c = f64.zero <-> ScrapeColStr element 3 <> "Locked")
      /\ us_USChannelType c = ScrapeColStr element 4
      /\ us_Frequency c = ScrapeColStr element 5
      /\ us_Width c = ScrapeColStr element 6
      /\ strconv.ParseFloat (strings.TrimRight (ScrapeColStr element 7) " dBmV")
           = (us_Power c, None))
  /\ (forall (c1 c2 c3 c4 c5 c6 c7 : string) (more : list string)
             (c : UpstreamChannel),
         ScrapeUpstreamTableRow
           (Page.row (c1 :: c2 :: c3 :: c4 :: c5 :: c6 :: c7 :: more)) = (c, None) ->
         us_Channel c = c1
         /\ us_ChannelID c = c2
         /\ (us_LockStatus c = f64.one <-> c3 = "Locked")
         /\ (us_LockStatus c = f64.zero <-> c3 <> "Locked")
         /\ us_USChannelType c = c4
         /\ us_Frequency c = c5
         /\ us_Width c = c6
         /\ strconv.ParseFloat (strings.TrimRight c7 " dBmV") = (us_Power c, None)).
Proof.
  assert (Hany : forall (element : goquery.Item) (c : UpstreamChannel),
      ScrapeUpstreamTableRow element = (c, None) ->
      us_Channel c = ScrapeColStr element 1
      /\ us_ChannelID c = ScrapeColStr element 2
      /\ (us_LockStatus c = f64.one <-> ScrapeColStr element 3 = "Locked")
      /\ (us_LockStatus c = f64.zero <-> ScrapeColStr element 3 <> "Locked")
      /\ us_USChannelType c = ScrapeColStr element 4
      /\ us_Frequency c = ScrapeColStr element 5
      /\ us_Width c = ScrapeColStr element 6
      /\ strconv.ParseFloat (strings.TrimRight (ScrapeColStr element 7) " dBmV")
           = (us_Power c, None)).
  { intros element c H.
    destruct (ScrapeUpstreamTableRow_inv _ _ H) as (_ & _ & v7 & E7 & ->).
    rewrite ScrapeUnitValue_eq in E7.
    destruct (strconv.ParseFloat _) as [w [err|]] eqn:P7; [discriminate|].
    injection E7 as ->.
    cbn [us_Channel us_ChannelID us_LockStatus us_USChannelType us_Frequency
         us_Width us_Power].
    split; [reflexivity|]. split; [reflexivity|].
    assert (Hlock :
              ((if String.eqb (ScrapeColStr element 3) "Locked"
                then f64.one else f64.zero) = f64.one
               <-> ScrapeColStr element 3 = "Locked")
              /\ ((if String.eqb (ScrapeColStr element 3) "Locked"
                   then f64.one else f64.zero) = f64.zero
                  <-> ScrapeColStr element 3 <> "Locked")).
    { destruct (String.eqb (ScrapeColStr element 3) "Locked") eqn:E;
        [apply String.eqb_eq in E|apply String.eqb_neq in E]; split; split;
        try tauto.
      - intros H'. destruct (one_not_zero H').
      - intros H'. symmetry in H'. destruct (one_not_zero H'). }
    destruct Hlock as [H1 H0].
    split; [exact H1|]. split; [exact H0|].
    repeat split. }
  split; [exact Hany|].
  intros c1 c2 c3 c4 c5 c6 c7 more c H.
  pose proof (Hany _ _ H) as Hcols.
  rewrite !ScrapeColStr_row in Hcols. exact Hcols.
Qed.

Lemma upstream_columns_witness :
  let c := upstream_record (Page.row Fixture.us2) in
  ScrapeUpstreamTableRow (Page.row Fixture.us2) = (c, None)
  /\ us_Channel c = "2"
  /\ us_ChannelID c = "4"
  /\ us_LockStatus c = f64.zero
  /\ us_USChannelType c = "SC-QAM Upstream"
  /\ us_Frequency c = "29200000 Hz"
  /\ us_Width c = "6400000 Hz"
  /\ strconv.ParseFloat "42.5" = (us_Power c, None).
Proof.
  intros c.
  assert (H : ScrapeUpstreamTableRow (Page.row Fixture.us2) = (c, None))
    by reflexivity.
  destruct (proj2 upstream_columns
              "2" "4" "Not Locked" "SC-QAM Upstream" "29200000 Hz" "6400000 Hz"
              "42.5 dBmV" [] c H)
    as (H1 & H2 & _ & H3 & H4 & H5 & H6 & H7).
  split; [exact H|]. split; [exact H1|]. split; [exact H2|].
  split; [apply H3; discriminate|].
  split; [exact H4|]. split; [exact H5|]. split; [exact H6|exact H7].
Defined.

End UpstreamRows.

Section TablePartition.

(** the error a row gives, as the line the table scraper logs for it *)
Lemma ScrapeDownstreamTable_flat (rows : goquery.Selection) :
  fst (ScrapeDownstreamTable rows)
    = map downstream_record (filter downstream_data_row rows)
  /\ snd (ScrapeDownstreamTable rows)
     = flat_map (fun r => match snd (ScrapeDownstreamTableRow r) with
                          | Some err => [LogDebug err]
                          | None => []
                          end) rows.
Proof.
  induction rows as [|r rows [IH1 IH2]]; [split; reflexivity|].
  rewrite ScrapeDownstreamTable_cons. cbn [filter flat_map].
  destruct (downstream_data_row r) eqn:Hr.
  - rewrite (downstream_data_row_ok _ Hr). cbn [fst snd map app].
    rewrite IH1, IH2. split; reflexivity.
  - destruct (ScrapeDownstreamTableRow r) as [c [err|]] eqn:E.
    + cbn [fst snd app]. rewrite IH1, IH2. split; reflexivity.
    + assert (Hok : downstream_data_row r = true)
        by (apply downstream_data_row_iff; rewrite E; reflexivity).
      rewrite Hok in Hr. discriminate Hr.
Qed.

Lemma ScrapeUpstreamTable_flat (rows : goquery.Selection) :
  fst (ScrapeUpstreamTable rows)
    = map upstream_record (filter upstream_data_row rows)
  /\ snd (ScrapeUpstreamTable rows)
     = flat_map (fun r => match snd (ScrapeUpstreamTableRow r) with
                          | Some err => [LogDebug err]
                          | None => []
                          end) rows.
Proof.
  induction rows as [|r rows [IH1 IH2]]; [split; reflexivity|].
  rewrite ScrapeUpstreamTable_cons. cbn [filter flat_map].
  destruct (upstream_data_row r) eqn:Hr.
  - rewrite (upstream_data_row_ok _ Hr). cbn [fst snd map app].
    rewrite IH1, IH2. split; reflexivity.
  - destruct (ScrapeUpstreamTableRow r) as [c [err|]] eqn:E.
    + cbn [fst snd app]. rewrite IH1, IH2. split; reflexivity.
    + assert (Hok : upstream_data_row r = true)
        by (apply upstream_data_row_iff; rewrite E; reflexivity).
      rewrite Hok in Hr. discriminate Hr.
Qed.

Lemma ScrapeDownstreamTable_lengths (rows : goquery.Selection) :
  (List.length (fst (ScrapeDownstreamTable rows))
   + List.length (snd (ScrapeDownstreamTable rows)))%nat = List.length rows.
Proof.
  induction rows as [|r rows IH]; [reflexivity|].
  rewrite ScrapeDownstreamTable_cons.
  destruct (ScrapeDownstreamTableRow r) as [c [err|]]; cbn [fst snd List.length]; lia.
Qed.

Lemma ScrapeUpstreamTable_lengths (rows : goquery.Selection) :
  (List.length (fst (ScrapeUpstreamTable rows))
   + List.length (snd (ScrapeUpstreamTable rows)))%nat = List.length rows.
Proof.
  induction rows as [|r rows IH]; [reflexivity|].
  rewrite ScrapeUpstreamTable_cons.
  destruct (ScrapeUpstreamTableRow r) as [c [err|]]; cbn [fst snd List.length]; lia.
Qed.

(** Whatever the rows of a table are, each one gives either a record or a
    line in the log, never both and never neither: the records are those of
    the data rows, in the order of the rows, the log holds the errors of the
    other rows, in the order of the rows, and together they are as many as
    the rows.  For both tables. *)
Theorem table_records_and_log (rows : goquery.Selection) :
  (fst (ScrapeDownstreamTable rows)
     = map downstream_record (filter downstream_data_row rows)
   /\ snd (ScrapeDownstreamTable rows)
      = flat_map (fun r => match snd (ScrapeDownstreamTableRow r) with
                           | Some err => [LogDebug err]
                           | None => []
                           end) rows
   /\ (List.length (fst (ScrapeDownstreamTable rows))
       + List.length (snd (ScrapeDownstreamTable rows)))%nat = List.length rows)
  /\ (fst (ScrapeUpstreamTable rows)
        = map upstream_record (filter upstream_data_row rows)
      /\ snd (ScrapeUpstreamTable rows)
         = flat_map (fun r => match snd (ScrapeUpstreamTableRow r) with
                              | Some err => [LogDebug err]
                              | None => []
                              end) rows
      /\ (List.length (fst (ScrapeUpstreamTable rows))
          + List.length (snd (ScrapeUpstreamTable rows)))%nat = List.length rows).
Proof.
  split; (split; [|split]).
  - apply ScrapeDownstreamTable_flat.
  - apply ScrapeDownstreamTable_flat.
  - apply ScrapeDownstreamTable_lengths.
  - apply ScrapeUpstreamTable_flat.
  - apply ScrapeUpstreamTable_flat.
  - apply ScrapeUpstreamTable_lengths.
Qed.

End TablePartition.

Section CellEdges.


Lemma ParseFloat_empty :
  strconv.ParseFloat EmptyString
  = (f64.zero, Some (strconv.syntaxError "ParseFloat" EmptyString)).
Proof. reflexivity. Qed.



(** A row with fewer cells than the scraper reads never gives a record:
    the missing last column reads as the empty string, which is not a
    number.  Eight cells for a downstream row, seven for an upstream row. *)
Theorem short_rows_give_no_record (cells : list string) :
  ((List.length cells < 8)%nat ->
   downstream_data_row (Page.row cells) = false
   /\ snd (ScrapeDownstreamTableRow (Page.row cells)) <> None)
  /\ ((List.length cells < 7)%nat ->
      upstream_data_row (Page.row cells) = false
      /\ snd (ScrapeUpstreamTableRow (Page.row cells)) <> None).
Proof.
  assert (Hmiss : forall k trim,
             (List.length cells <= k)%nat ->
             parses (Page.row cells) (S k) trim = false).
  { intros k trim Hk. unfold parses.
    rewrite ScrapeUnitValue_eq, ScrapeColStr_row, (nth_overflow _ _ Hk).
    reflexivity. }
  split; intros Hlen.
  - assert (Hd : downstream_data_row (Page.row cells) = false).
    { unfold downstream_data_row. rewrite (Hmiss 7%nat EmptyString) by lia.
      apply andb_false_r. }
    split; [exact Hd|].
    intros Hnone. apply downstream_data_row_iff in Hnone.
    rewrite Hnone in Hd. discriminate Hd.
  - assert (Hu : upstream_data_row (Page.row cells) = false).
    { unfold upstream_data_row. rewrite (Hmiss 6%nat " dBmV") by lia.
      apply andb_false_r. }
    split; [exact Hu|].
    intros Hnone. apply upstream_data_row_iff in Hnone.
    rewrite Hnone in Hu. discriminate Hu.
Qed.

Lemma short_rows_give_no_record_witness :
  let seven := ["20"; "Locked"; "QAM256"; "495000000 Hz"; "8.3 dBmV"; "40.9 dB"; "12"] in
  let six := ["1"; "3"; "Locked"; "SC-QAM Upstream"; "22800000 Hz"; "6400000 Hz"] in
  (List.length seven < 8)%nat
  /\ snd (ScrapeDownstreamTableRow (Page.row seven)) <> None
  /\ (List.length six < 7)%nat
  /\ snd (ScrapeUpstreamTableRow (Page.row six)) <> None.
Proof.
  intros seven six.
  assert (H7 : (List.length seven < 8)%nat) by (simpl; lia).
  assert (H6 : (List.length six < 7)%nat) by (simpl; lia).
  split; [exact H7|].
  split; [exact (proj2 (proj1 (short_rows_give_no_record seven) H7))|].
  split; [exact H6|].
  exact (proj2 (proj2 (short_rows_give_no_record six) H6)).
Defined.

End CellEdges.

Section ScrapeOutcomes.

(** However the device answers, [Scrape] never returns a modem it has
    read.  When [http.NewRequest] accepts the logout URL it panics, in
    [Login], with nothing logged; when the URL is refused it returns that
    error with the zero modem and logs one line.  So whatever it returns is
    the zero modem together with an error. *)
Theorem scrape_returns_or_panics (client : http.Client) (e : Exporter) :
  (http.Parse client (logout_url e) = None -> Scrape client e = (Panics, []))
  /\ (forall refused,
         http.Parse client (logout_url e) = Some refused ->
         Scrape client e
         = (Returns (ArrisModem_zero, Some refused),
            [LogError "Failed to fetch login tokens"]))
  /\ (forall modem err,
         fst (Scrape client e) = Returns (modem, err) ->
         modem = ArrisModem_zero /\ err <> None).
Proof.
  rewrite Scrape_outcome. split; [|split].
  - intros ->. reflexivity.
  - intros refused ->. reflexivity.
  - intros modem err.
    destruct (http.Parse client (logout_url e)) as [refused|]; [|discriminate].
    intros [= <- <-]. split; [reflexivity|discriminate].
Qed.

Lemma scrape_returns_or_panics_witness :
  let device := Fixture.modem (Fixture.connectivity_row "OK")
                  [Fixture.ds1] [Fixture.us1] "40 days 05h:32m:52s.00" in
  Scrape device Fixture.exporter = (Panics, [])
  /\ Scrape device Fixture.misconfigured
     = (Returns (ArrisModem_zero, Some Fixture.malformed),
        [LogError "Failed to fetch login tokens"]).
Proof.
  intros device. split.
  - exact (proj1 (scrape_returns_or_panics device Fixture.exporter) eq_refl).
  - exact (proj1 (proj2 (scrape_returns_or_panics device Fixture.misconfigured))
             Fixture.malformed eq_refl).
Defined.

(** [GetURL] never returns a document: it returns the error of
    [http.NewRequest] for a URL that is refused, and panics for every other
    URL before the request is sent, with or without a session. *)
Theorem get_url_returns_or_panics (client : http.Client) (url : string)
    (sessionID : option http.Cookie) :
  (http.Parse client url = None -> GetURL client url sessionID = Panics)
  /\ (forall refused,
         http.Parse client url = Some refused ->
         GetURL client url sessionID = Returns (Err refused))
  /\ (forall document, GetURL client url sessionID <> Returns (Ok document)).
Proof.
  rewrite GetURL_outcome. split; [|split].
  - intros ->. reflexivity.
  - intros refused ->. reflexivity.
  - intros document. destruct (http.Parse client url); discriminate.
Qed.

Lemma get_url_returns_or_panics_witness :
  let device := Fixture.modem (Fixture.connectivity_row "OK")
                  [Fixture.ds1] [Fixture.us1] "40 days 05h:32m:52s.00" in
  GetURL device (status_url Fixture.exporter "token") (Some Fixture.session) = Panics
  /\ GetURL device (status_url Fixture.exporter "token") None = Panics
  /\ GetURL device (status_url Fixture.misconfigured "token") (Some Fixture.session)
     = Returns (Err Fixture.malformed).
Proof.
  intros device. split; [|split].
  - exact (proj1 (get_url_returns_or_panics device
                    (status_url Fixture.exporter "token") (Some Fixture.session))
             eq_refl).
  - exact (proj1 (get_url_returns_or_panics device
                    (status_url Fixture.exporter "token") None) eq_refl).
  - exact (proj1 (proj2 (get_url_returns_or_panics device
                           (status_url Fixture.misconfigured "token")
                           (Some Fixture.session)))
             Fixture.malformed eq_refl).
Defined.

(** What the code of [Scrape] after the second fetch puts into the modem:
    the host of the exporter, the connectivity state and the channels read
    before, the parsed uptime, and the texts at four fixed paths of the
    product information page.  Nothing at one of these paths gives the
    empty string; nothing at the uptime path is the parse error of the
    empty string.  Of a status page with fewer than two tables the code
    before it reads no downstream channels, of one with fewer than three no
    upstream channels, and logs nothing. *)
Theorem information_fields :
  (forall (e : Exporter) (connectivityState : float64)
          (downstreamChannels : list DownstreamChannel)
          (upstreamChannels : list UpstreamChannel)
          (document : goquery.Item) (uptime : float64),
      ParseUptime (selText uptimeSelector document) = (uptime, None) ->
      exists modem,
        product_information e connectivityState downstreamChannels
          upstreamChannels document = (modem, None)
        /\ Host modem = e_Host e
        /\ ConnectivityState modem = connectivityState
        /\ Uptime modem = uptime
        /\ HardwareVersion modem = selText hwVerSelector document
        /\ SoftwareVersion modem = selText swVerSelector document
        /\ MACAddress modem = selText macAddrSelector document
        /\ SerialNumber modem = selText serialSelector document
        /\ DownstreamBondedChannels modem = downstreamChannels
        /\ UpstreamBondedChannels modem = upstreamChannels
        /\ (goquery.Find hwVerSelector document = [] ->
            HardwareVersion modem = EmptyString)
        /\ (goquery.Find swVerSelector document = [] ->
            SoftwareVersion modem = EmptyString)
        /\ (goquery.Find macAddrSelector document = [] ->
            MACAddress modem = EmptyString)
        /\ (goquery.Find serialSelector document = [] ->
            SerialNumber modem = EmptyString)
        /\ goquery.Find uptimeSelector document <> [])
  /\ (forall (e : Exporter) (connectivityState : float64)
             (downstreamChannels : list DownstreamChannel)
             (upstreamChannels : list UpstreamChannel) (document : goquery.Item),
         goquery.Find uptimeSelector document = [] ->
         product_information e connectivityState downstreamChannels
           upstreamChannels document
         = (ArrisModem_zero, Some (strconv.syntaxError "ParseFloat" EmptyString)))
  /\ (forall document : goquery.Item,
         ((List.length (goquery.Find [goquery.by_tag "table"] document) < 2)%nat ->
          downstream_of document = ([], []))
         /\ ((List.length (goquery.Find [goquery.by_tag "table"] document) < 3)%nat ->
             upstream_of document = ([], []))).
Proof.
  split; [|split].
  - intros e cs ds us document uptime Hup.
    assert (Hfound : goquery.Find uptimeSelector document <> []).
    { intros Hnone. rewrite (selText_no_match _ _ Hnone) in Hup. discriminate Hup. }
    unfold product_information. rewrite Hup.
    eexists. split; [reflexivity|].
    cbn [Host ConnectivityState Uptime HardwareVersion SoftwareVersion MACAddress
         SerialNumber DownstreamBondedChannels UpstreamBondedChannels].
    repeat (split; [reflexivity|]).
    repeat (split; [intros Hnone; apply selText_no_match; exact Hnone|]).
    exact Hfound.
  - intros e cs ds us document Hnone.
    unfold product_information. rewrite (selText_no_match _ _ Hnone). reflexivity.
  - intros document. split; intros Hlen.
    + unfold downstream_of.
      rewrite (proj2 (nth_error_None _ 1%nat)) by lia. reflexivity.
    + unfold upstream_of.
      rewrite (proj2 (nth_error_None _ 2%nat)) by lia. reflexivity.
Qed.

End ScrapeOutcomes.

Section ScrapeFieldsWitness.

Lemma information_fields_witness :
  let document := goquery.Document (Fixture.info_page "1 days 00h:00m:00s.00") in
  let login := goquery.Document (Fixture.text_page "token") in
  (exists modem,
      product_information Fixture.exporter f64.one [] [] document = (modem, None)
      /\ Host modem = "192.168.100.1"
      /\ f64.to_Z (Uptime modem) = Some 86400
      /\ HardwareVersion modem = "6"
      /\ SerialNumber modem = "0123456789")
  /\ product_information Fixture.exporter f64.one [] [] login
     = (ArrisModem_zero, Some (strconv.syntaxError "ParseFloat" EmptyString))
  /\ downstream_of login = ([], [])
  /\ upstream_of login = ([], []).
Proof.
  intros document login.
  destruct information_fields as (Hfields & Hnone & Htables).
  split; [|split; [|split]].
  - destruct (Hfields Fixture.exporter f64.one [] [] document (f64.of_Z 86400))
      as (modem & E & Hhost & _ & Hup & Hhw & _ & _ & Hser & _);
      [vm_compute; reflexivity|].
    exists modem. split; [exact E|]. split; [exact Hhost|].
    split; [rewrite Hup; vm_compute; reflexivity|].
    split; [rewrite Hhw; vm_compute; reflexivity
           |rewrite Hser; vm_compute; reflexivity].
  - apply Hnone. vm_compute. reflexivity.
  - apply (proj1 (Htables login)). vm_compute. lia.
  - apply (proj2 (Htables login)). vm_compute. lia.
Defined.

End ScrapeFieldsWitness.

Section UptimeEdges.

Lemma Split_nondigits_leading (c : ascii) (s : string) :
  byte.is_digit c = false ->
  exists rest, regexp.Split_nondigits (String c s) = EmptyString :: rest.
Proof.
  revert c. induction s as [|d s IH]; intros c Hc.
  - simpl. rewrite Hc. eexists. reflexivity.
  - cbn [regexp.Split_nondigits] in *. rewrite Hc.
    destruct (byte.is_digit d) eqn:Hd.
    + eexists. reflexivity.
    + specialize (IH d Hd). cbn [regexp.Split_nondigits] in IH.
      rewrite Hd in IH. exact IH.
Qed.

Lemma Split_nondigits_trailing (s : string) (c : ascii) :
  byte.last s = Some c -> byte.is_digit c = false ->
  exists init, init <> []
               /\ regexp.Split_nondigits s = (init ++ [EmptyString])%list.
Proof.
  intros Hl Hc. induction s as [|a s IH]; [discriminate Hl|].
  destruct s as [|b s].
  - injection Hl as ->. exists [EmptyString]. split; [discriminate|].
    simpl. rewrite Hc. reflexivity.
  - rewrite last_cons in Hl by discriminate.
    destruct (IH Hl) as (init & Hne & E).
    change (regexp.Split_nondigits (String a (String b s)))
      with (if byte.is_digit a
            then regexp.cons_head a (regexp.Split_nondigits (String b s))
            else if byte.is_digit b
                 then EmptyString :: regexp.Split_nondigits (String b s)
                 else regexp.Split_nondigits (String b s)).
    rewrite E. destruct (byte.is_digit a).
    + destruct init as [|t init]; [congruence|].
      exists (String a t :: init). split; [discriminate|reflexivity].
    + destruct (byte.is_digit b).
      * exists (EmptyString :: init). split; [discriminate|reflexivity].
      * exists init. split; [assumption|reflexivity].
Qed.

(** The uptime text has to begin and to end with a digit.  An empty text
    (nothing at the uptime path) or one that begins with a non-digit, a
    leading blank for one, fails at once on its first, empty, part with
    the syntax error of the empty string; one that ends with a non-digit,
    as "40 days 05h:32m:52s" does, fails too. *)
Theorem uptime_text_edges :
  ParseUptime EmptyString
    = (f64.zero, Some (strconv.syntaxError "ParseFloat" EmptyString))
  /\ (forall (c : ascii) (s : string),
         byte.is_digit c = false ->
         ParseUptime (String c s)
         = (f64.zero, Some (strconv.syntaxError "ParseFloat" EmptyString)))
  /\ (forall (s : string) (c : ascii),
         byte.last s = Some c -> byte.is_digit c = false ->
         snd (ParseUptime s) <> None).
Proof.
  split; [reflexivity|]. split.
  - intros c s Hc. unfold ParseUptime.
    destruct (Split_nondigits_leading c s Hc) as [rest ->]. reflexivity.
  - intros s c Hl Hc. unfold ParseUptime.
    destruct (Split_nondigits_trailing s c Hl Hc) as (init & _ & E).
    destruct (uptime_loop_error (regexp.Split_nondigits s) 0%nat f64.zero EmptyString)
      as (t' & u' & _ & [H|H]).
    + rewrite E. apply in_or_app. right. left. reflexivity.
    + rewrite ParseFloat_empty. discriminate.
    + rewrite H. discriminate.
    + rewrite H. discriminate.
Qed.

Lemma uptime_text_edges_witness :
  ParseUptime " 40 days 05h:32m:52s.00"
    = (f64.zero, Some (strconv.syntaxError "ParseFloat" EmptyString))
  /\ snd (ParseUptime "40 days 05h:32m:52s") <> None.
Proof.
  destruct uptime_text_edges as (_ & Hlead & Htrail).
  split.
  - apply Hlead. reflexivity.
  - apply (Htrail _ "s"%char); reflexivity.
Defined.

(** The uptime parse succeeds exactly when every part between the runs of
    non-digits is a non-empty digit string within the range of a float64.
    How many parts there are does not matter. *)
Theorem uptime_parses_iff (uptimeStr : string) :
  snd (ParseUptime uptimeStr) = None
  <-> Forall (fun t => t <> EmptyString
                       /\ forall sg, f64.of_Z (byte.digits_value 0 t)
                                     <> S754_infinity sg)
        (regexp.Split_nondigits uptimeStr).
Proof.
  unfold ParseUptime. split.
  - intros Hok. apply Forall_forall. intros t Hin.
    assert (Hgood : ~ snd (strconv.ParseFloat t) <> None).
    { intros Hbad.
      destruct (uptime_loop_error _ 0%nat f64.zero t Hin Hbad)
        as (t' & u' & _ & [H|H]); rewrite H in Hok; discriminate Hok. }
    rewrite (uptime_part_refused uptimeStr t Hin) in Hgood.
    split.
    + intros Ht. apply Hgood. left. exact Ht.
    + intros sg Hsg. apply Hgood. right. exists sg. exact Hsg.
  - intros Hall. apply uptime_loop_ok.
    rewrite Forall_forall in Hall. apply Forall_forall. intros t Hin.
    destruct (Hall t Hin) as [Hne Hfin].
    destruct (snd (strconv.ParseFloat t)) as [err|] eqn:E; [|reflexivity].
    exfalso.
    assert (Hbad : snd (strconv.ParseFloat t) <> None) by (rewrite E; discriminate).
    apply (uptime_part_refused uptimeStr t Hin) in Hbad.
    destruct Hbad as [Ht|[sg Hsg]]; [exact (Hne Ht)|exact (Hfin sg Hsg)].
Qed.

Lemma uptime_parses_iff_witness :
  snd (ParseUptime "7") = None
  /\ snd (ParseUptime "1 2 3 4 5 6 7") = None.
Proof.
  split; apply (proj2 (uptime_parses_iff _));
    repeat constructor; try discriminate; intros sg; vm_compute; discriminate.
Defined.

(** Only the first four parts count.  With four parts or more, the rest
    being numbers, the uptime is [((d*24 + h)*60 + m)*60 + s] of the first
    four; with fewer the fold stops where the parts end: one part is taken
    as it is, two as [d*24 + h], three as [(d*24 + h)*60 + m]. *)
Theorem uptime_first_four (d h m s : string) (vd vh vm vs : float64)
    (rest : list string) :
  strconv.ParseFloat d = (vd, None) -> strconv.ParseFloat h = (vh, None) ->
  strconv.ParseFloat m = (vm, None) -> strconv.ParseFloat s = (vs, None) ->
  Forall (fun t => snd (strconv.ParseFloat t) = None) rest ->
  uptime_loop 0 f64.zero [d] = (vd, None)
  /\ uptime_loop 0 f64.zero [d; h]
     = (f64.add (f64.mul vd (f64.of_Z 24)) vh, None)
  /\ uptime_loop 0 f64.zero [d; h; m]
     = (f64.add (f64.mul (f64.add (f64.mul vd (f64.of_Z 24)) vh) (f64.of_Z 60)) vm,
        None)
  /\ uptime_loop 0 f64.zero (d :: h :: m :: s :: rest)
     = (f64.add (f64.mul (f64.add (f64.mul (f64.add (f64.mul vd (f64.of_Z 24)) vh)
                                     (f64.of_Z 60)) vm) (f64.of_Z 60)) vs, None).
Proof.
  intros Hd Hh Hm Hs Hrest.
  assert (Hskip : forall (l : list string) (i : nat) (u : float64),
             Forall (fun t => snd (strconv.ParseFloat t) = None) l ->
             uptime_loop (4 + i) u l = (u, None)).
  { induction l as [|t l IH]; intros i u Hl; [reflexivity|].
    inversion Hl as [|? ? Ht Hl']; subst.
    cbn [uptime_loop Nat.add].
    destruct (strconv.ParseFloat t) as [n [err|]]; [discriminate Ht|].
    apply (IH (S i) u Hl'). }
  cbn [uptime_loop]. rewrite Hd, Hh, Hm, Hs.
  repeat split. apply (Hskip rest 0%nat _ Hrest).
Qed.

Lemma uptime_first_four_witness :
  uptime_loop 0 f64.zero ["1"; "2"; "3"; "4"; "99"; "98"; "97"]
  = (f64.of_Z 93784, None)
  /\ uptime_loop 0 f64.zero ["1"; "2"] = (f64.of_Z 26, None).
Proof.
  destruct (uptime_first_four "1" "2" "3" "4"
              (f64.of_Z 1) (f64.of_Z 2) (f64.of_Z 3) (f64.of_Z 4)
              ["99"; "98"; "97"])
    as (_ & H2 & _ & H4); try (vm_compute; reflexivity).
  - repeat constructor.
  - split; [rewrite H4|rewrite H2]; vm_compute; reflexivity.
Defined.

End UptimeEdges.

Section LoginOutcomes.

Lemma find_first (A : Type) (p : A -> bool) (before after : list A) (x : A) :
  Forall (fun y => p y = false) before -> p x = true ->
  find p (before ++ x :: after)%list = Some x.
Proof.
  intros Hb Hx. induction Hb as [|y before Hy _ IH]; simpl.
  - rewrite Hx. reflexivity.
  - rewrite Hy. exact IH.
Qed.

(** What the code of [Login] after the login request makes of an answer.
    A 200 answer that sets a "sessionId" cookie with a value gives the
    first such cookie as the session and the body as the token; cookies
    of other names and "sessionId" cookies without a value are passed
    over.  A 200 answer without such a cookie gives "missing sessionID"
    (with the body as the token), a body that cannot be read the error of
    the read, a 401 answer "invalid credentials", any other status
    "unknown error/response code".  An error never comes with a
    session. *)
Theorem login_answer_cases (resp : http.Response) :
  (forall (body : string) (before after : list http.Cookie) (cookie : http.Cookie),
      http.StatusCode resp = 200 ->
      http.ReadAll resp = Ok body ->
      http.Cookies resp = (before ++ cookie :: after)%list ->
      Forall (fun c => http.Name c <> "sessionId" \/ http.Value c = EmptyString)
        before ->
      http.Name cookie = "sessionId" -> http.Value cookie <> EmptyString ->
      Login_answer resp = (Some cookie, body, None))
  /\ (forall body : string,
         http.StatusCode resp = 200 ->
         http.ReadAll resp = Ok body ->
         (forall cookie, In cookie (http.Cookies resp) ->
                         http.Name cookie = "sessionId" ->
                         http.Value cookie = EmptyString) ->
         Login_answer resp = (None, body, Some (errors.New "missing sessionID")))
  /\ (forall err : error,
         http.StatusCode resp = 200 ->
         http.ReadAll resp = Err err ->
         Login_answer resp = (None, EmptyString, Some err))
  /\ (http.StatusCode resp = 401 ->
      Login_answer resp = (None, EmptyString, Some (errors.New "invalid credentials")))
  /\ (http.StatusCode resp <> 200 -> http.StatusCode resp <> 401 ->
      Login_answer resp
      = (None, EmptyString, Some (errors.New "unknown error/response code")))
  /\ (forall sid tok err, Login_answer resp = (sid, tok, Some err) -> sid = None).
Proof.
  unfold Login_answer, http.StatusOK, http.StatusUnauthorized.
  split; [|split; [|split; [|split; [|split]]]].
  - intros body before after cookie Hs Hb Hc Hbefore Hn Hv.
    rewrite Hs, Hb, Hc. cbn [Z.eqb Pos.eqb].
    rewrite (find_first _ is_session_cookie before after cookie).
    + reflexivity.
    + eapply Forall_impl; [|exact Hbefore]. intros c [H|H]; unfold is_session_cookie.
      * apply String.eqb_neq in H. rewrite H. reflexivity.
      * rewrite H. apply andb_false_r.
    + unfold is_session_cookie. rewrite Hn. apply String.eqb_neq in Hv.
      rewrite Hv. reflexivity.
  - intros body Hs Hb Hc. rewrite Hs, Hb. cbn [Z.eqb Pos.eqb].
    rewrite (find_session_cookie_none _ Hc). reflexivity.
  - intros err Hs Hb. rewrite Hs, Hb. reflexivity.
  - intros Hs. rewrite Hs. reflexivity.
  - intros H200 H401.
    apply Z.eqb_neq in H200. apply Z.eqb_neq in H401. rewrite H200, H401.
    reflexivity.
  - intros sid tok err.
    destruct (http.StatusCode resp =? 200).
    + destruct (http.ReadAll resp) as [body|err']; [|intros [= <- _ _]; reflexivity].
      destruct (find is_session_cookie (http.Cookies resp));
        [discriminate|intros [= <- _ _]; reflexivity].
    + destruct (http.StatusCode resp =? 401); intros [= <- _ _]; reflexivity.
Qed.

Lemma login_answer_cases_witness :
  let cookies := [http.mkCookie "lang" "en"; http.mkCookie "sessionId" EmptyString;
                  Fixture.session; http.mkCookie "sessionId" "later"] in
  Login_answer (Fixture.answer 200 cookies) = (Some Fixture.session, "token", None)
  /\ Login_answer (Fixture.answer 200 [http.mkCookie "sessionId" EmptyString])
     = (None, "token", Some (errors.New "missing sessionID"))
  /\ Login_answer (Fixture.answer 401 [Fixture.session])
     = (None, EmptyString, Some (errors.New "invalid credentials"))
  /\ Login_answer (Fixture.answer 503 [Fixture.session])
     = (None, EmptyString, Some (errors.New "unknown error/response code")).
Proof.
  intros cookies. split; [|split; [|split]].
  - apply (proj1 (login_answer_cases (Fixture.answer 200 cookies)) "token"
             [http.mkCookie "lang" "en"; http.mkCookie "sessionId" EmptyString]
             [http.mkCookie "sessionId" "later"] Fixture.session);
      try reflexivity; try discriminate.
    apply Forall_cons; [left; discriminate|].
    apply Forall_cons; [right; reflexivity|apply Forall_nil].
  - apply (proj1 (proj2 (login_answer_cases
                           (Fixture.answer 200 [http.mkCookie "sessionId" EmptyString])))
             "token"); try reflexivity.
    intros cookie [<-|[]] _. reflexivity.
  - apply (proj1 (proj2 (proj2 (proj2 (login_answer_cases
                                         (Fixture.answer 401 [Fixture.session])))))).
    reflexivity.
  - apply (proj1 (proj2 (proj2 (proj2 (proj2 (login_answer_cases
                                                (Fixture.answer 503 [Fixture.session])))))));
      discriminate.
Defined.

End LoginOutcomes.

Section CollectFacts.

Lemma send_all_In (ms : list (option prometheus.Metric)) (m : prometheus.Metric) :
  In m (fst (send_all ms)) -> In (Some m) ms.
Proof.
  induction ms as [|[m'|] ms IH]; simpl; [tauto| |tauto].
  destruct (send_all ms) as [sent p]. simpl in *.
  intros [->|H]; [left; reflexivity|right; apply IH, H].
Qed.

Lemma send_all_panicked (ms : list (option prometheus.Metric)) :
  snd (send_all ms) = existsb is_panic ms.
Proof.
  induction ms as [|[m'|] ms IH]; simpl; [reflexivity| |reflexivity].
  destruct (send_all ms) as [sent p]. exact IH.
Qed.

Lemma send_all_length (ms : list (option prometheus.Metric)) :
  snd (send_all ms) = false ->
  List.length (fst (send_all ms)) = List.length ms.
Proof.
  induction ms as [|[m'|] ms IH]; simpl; [reflexivity| |discriminate].
  destruct (send_all ms) as [sent p]. simpl in *. intros H. rewrite (IH H). reflexivity.
Qed.

Lemma send_all_length_le (ms : list (option prometheus.Metric)) :
  (List.length (fst (send_all ms)) <= List.length ms)%nat.
Proof.
  induction ms as [|[m'|] ms IH]; simpl; [lia| |lia].
  destruct (send_all ms) as [sent p]. simpl in *. lia.
Qed.

(** the keys of what was sent, when nothing panicked *)
Lemma send_all_keys (ms : list (option prometheus.Metric)) :
  snd (send_all ms) = false ->
  map metric_key (fst (send_all ms))
  = flat_map (fun o => match o with
                       | Some m => [metric_key m]
                       | None => []
                       end) ms.
Proof.
  induction ms as [|[m'|] ms IH]; simpl; [reflexivity| |discriminate].
  destruct (send_all ms) as [sent p]. simpl in *. intros H. rewrite (IH H). reflexivity.
Qed.

Lemma MustNewConstMetric_inv (d : prometheus.Desc) (vt : prometheus.ValueType)
    (v : float64) (ls : list string) (m : prometheus.Metric) :
  prometheus.MustNewConstMetric d vt v ls = Some m ->
  m = prometheus.mkMetric d vt v ls
  /\ prometheus.invalid d = false
  /\ List.length ls = List.length (prometheus.variableLabels d)
  /\ forallb utf8.ValidString ls = true.
Proof.
  unfold prometheus.MustNewConstMetric.
  destruct (prometheus.invalid d); [discriminate|].
  destruct (Nat.eqb _ _) eqn:El; [|discriminate].
  destruct (forallb utf8.ValidString ls); [|discriminate].
  cbn [negb]. intros [= <-]. apply Nat.eqb_eq in El. repeat split. exact El.
Qed.

Lemma MustNewConstMetric_eq (d : prometheus.Desc) (vt : prometheus.ValueType)
    (v : float64) (ls : list string) :
  prometheus.invalid d = false ->
  List.length ls = List.length (prometheus.variableLabels d) ->
  prometheus.MustNewConstMetric d vt v ls
  = if forallb utf8.ValidString ls
    then Some (prometheus.mkMetric d vt v ls) else None.
Proof.
  intros Hd Hl. unfold prometheus.MustNewConstMetric.
  rewrite Hd, Hl, Nat.eqb_refl. cbn [negb].
  destruct (forallb utf8.ValidString ls); reflexivity.
Qed.

(** every metric [Collect] tries to build for a modem is built from one of
    the descriptors of [Describe] *)
Lemma modem_metrics_In (e : Exporter) (modem : ArrisModem) (m : prometheus.Metric) :
  In (Some m) (modem_metrics e modem) ->
  exists d vt v ls,
    In d (Describe e) /\ prometheus.MustNewConstMetric d vt v ls = Some m.
Proof.
  unfold modem_metrics. intros H.
  apply in_app_or in H. destruct H as [H|H].
  { simpl in H.
    destruct H as [H|[H|[H|[H|[]]]]]; do 4 eexists; (split; [|exact H]);
      simpl; tauto. }
  apply in_app_or in H. destruct H as [H|H]; apply in_flat_map in H;
    destruct H as (c & _ & H); simpl in H.
  - destruct H as [H|[H|[H|[H|[H|[H|[]]]]]]]; do 4 eexists; (split; [|exact H]);
      simpl; tauto.
  - destruct H as [H|[H|[H|[]]]]; do 4 eexists; (split; [|exact H]);
      simpl; tauto.
Qed.

(** every metric sent for a modem was built from one of the descriptors of
    [Describe] *)
Lemma send_all_modem_In (e : Exporter) (modem : ArrisModem) (m : prometheus.Metric) :
  In m (fst (send_all (modem_metrics e modem))) ->
  exists d vt v ls,
    In d (Describe e) /\ prometheus.MustNewConstMetric d vt v ls = Some m.
Proof.
  intros H. apply (modem_metrics_In e modem). apply send_all_In. exact H.
Qed.

(** Every metric [Collect] sends, on whatever device and page, is one the
    registry can take: its descriptor is one of the ten that [Describe]
    announces and is well formed, it has as many label values as the
    descriptor has labels, and every label value is valid UTF-8.  The same
    holds of every metric its code sends for a modem, whatever the modem
    holds. *)
Theorem collect_metrics_well_formed (client : http.Client) (e : Exporter) :
  Forall (fun m =>
            In (prometheus.desc m) (Describe e)
            /\ prometheus.invalid (prometheus.desc m) = false
            /\ List.length (prometheus.labelValues m)
               = List.length (prometheus.variableLabels (prometheus.desc m))
            /\ forallb utf8.ValidString (prometheus.labelValues m) = true)
    (sent (Collect client e))
  /\ (forall modem : ArrisModem,
         Forall (fun m =>
                   In (prometheus.desc m) (Describe e)
                   /\ prometheus.invalid (prometheus.desc m) = false
                   /\ List.length (prometheus.labelValues m)
                      = List.length (prometheus.variableLabels (prometheus.desc m))
                   /\ forallb utf8.ValidString (prometheus.labelValues m) = true)
           (fst (send_all (modem_metrics e modem)))).
Proof.
  assert (Hbuilt : forall d vt v ls m,
             In d (Describe e) ->
             prometheus.MustNewConstMetric d vt v ls = Some m ->
             In (prometheus.desc m) (Describe e)
             /\ prometheus.invalid (prometheus.desc m) = false
             /\ List.length (prometheus.labelValues m)
                = List.length (prometheus.variableLabels (prometheus.desc m))
             /\ forallb utf8.ValidString (prometheus.labelValues m) = true).
  { intros d vt v ls m Hd Hnew.
    destruct (MustNewConstMetric_inv _ _ _ _ _ Hnew) as (-> & Hv & Hl & Hu).
    cbn [prometheus.desc prometheus.labelValues]. repeat split; assumption. }
  split.
  - apply Forall_forall. intros m. unfold Collect.
    destruct (Scrape client e) as [[[modem [err|]]|] scraped].
    + simpl. intros [<-|[]].
      apply (Hbuilt upMetric prometheus.GaugeValue f64.zero []);
        [simpl; tauto|reflexivity].
    + destruct (send_all (modem_metrics e modem)) as [ms p] eqn:E. cbn [sent].
      intros H.
      destruct (send_all_modem_In e modem m) as (d & vt & v & ls & Hd & Hnew);
        [rewrite E; exact H|].
      exact (Hbuilt d vt v ls m Hd Hnew).
    + intros [].
  - intros modem. apply Forall_forall. intros m H.
    destruct (send_all_modem_In e modem m H) as (d & vt & v & ls & Hd & Hnew).
    exact (Hbuilt d vt v ls m Hd Hnew).
Qed.

End CollectFacts.

Section CollectPanics.

Lemma existsb_flat_map (A B : Type) (p : B -> bool) (f : A -> list B) (l : list A) :
  existsb p (flat_map f l) = existsb (fun x => existsb p (f x)) l.
Proof.
  induction l as [|x l IH]; [reflexivity|].
  simpl. rewrite existsb_app, IH. reflexivity.
Qed.

Lemma existsb_negb_forallb (A : Type) (q : A -> bool) (l : list A) :
  existsb (fun x => negb (q x)) l = negb (forallb q l).
Proof.
  induction l as [|x l IH]; [reflexivity|].
  simpl. rewrite IH, negb_andb. reflexivity.
Qed.

Lemma existsb_ext_all (A : Type) (p q : A -> bool) (l : list A) :
  (forall x, p x = q x) -> existsb p l = existsb q l.
Proof.
  intros H. induction l as [|x l IH]; [reflexivity|]. simpl. rewrite H, IH. reflexivity.
Qed.

Lemma downstream_metrics_panic (c : DownstreamChannel) :
  existsb is_panic (downstream_metrics c)
  = negb (forallb utf8.ValidString [ds_ChannelID c; ds_Modulation c; ds_Frequency c]).
Proof.
  unfold downstream_metrics.
  rewrite !MustNewConstMetric_eq by reflexivity.
  cbn [forallb existsb].
  change (utf8.ValidString DOWNSTREAM) with true.
  change (utf8.ValidString EmptyString) with true.
  destruct (utf8.ValidString (ds_ChannelID c));
    destruct (utf8.ValidString (ds_Modulation c));
    destruct (utf8.ValidString (ds_Frequency c)); reflexivity.
Qed.

Lemma upstream_metrics_panic (c : UpstreamChannel) :
  existsb is_panic (upstream_metrics c)
  = negb (forallb utf8.ValidString
            [us_ChannelID c; us_USChannelType c; us_Frequency c; us_Width c]).
Proof.
  unfold upstream_metrics.
  rewrite !MustNewConstMetric_eq by reflexivity.
  cbn [forallb existsb].
  change (utf8.ValidString UPSTREAM) with true.
  destruct (utf8.ValidString (us_ChannelID c));
    destruct (utf8.ValidString (us_USChannelType c));
    destruct (utf8.ValidString (us_Frequency c));
    destruct (utf8.ValidString (us_Width c)); reflexivity.
Qed.

Lemma modem_metrics_panic (e : Exporter) (modem : ArrisModem) :
  existsb is_panic (modem_metrics e modem) = negb (labels_valid e modem).
Proof.
  unfold modem_metrics, labels_valid.
  rewrite !existsb_app, !existsb_flat_map.
  rewrite (existsb_ext_all _ _ _ _ downstream_metrics_panic).
  rewrite (existsb_ext_all _ _ _ _ upstream_metrics_panic).
  rewrite !existsb_negb_forallb.
  rewrite !MustNewConstMetric_eq by reflexivity.
  cbn [existsb forallb is_panic].
  destruct (utf8.ValidString (e_Host e) && _);
    destruct (forallb _ (DownstreamBondedChannels modem));
    destruct (forallb _ (UpstreamBondedChannels modem)); reflexivity.
Qed.

Lemma length_flat_map_const (A B : Type) (f : A -> list B) (n : nat) (l : list A) :
  (forall x, List.length (f x) = n) ->
  List.length (flat_map f l) = (n * List.length l)%nat.
Proof.
  intros H. induction l as [|x l IH]; simpl; [lia|].
  rewrite length_app, H, IH. lia.
Qed.

Lemma modem_metrics_length (e : Exporter) (modem : ArrisModem) :
  List.length (modem_metrics e modem)
  = (4 + 6 * List.length (DownstreamBondedChannels modem)
     + 3 * List.length (UpstreamBondedChannels modem))%nat.
Proof.
  unfold modem_metrics. rewrite !length_app.
  rewrite (length_flat_map_const _ _ downstream_metrics 6) by reflexivity.
  rewrite (length_flat_map_const _ _ upstream_metrics 3) by reflexivity.
  simpl. lia.
Qed.

(** However the device answers, [Collect] never sends a metric of the
    modem.  When [http.NewRequest] accepts the logout URL, the panic of
    [Login] ends it with nothing sent and nothing logged; when the URL is
    refused it sends the gauge [sb8200_up] with the value 0 and no labels,
    that alone, and logs the line of [Scrape] and then the error.  So the
    value 1 of [sb8200_up] is never sent. *)
Theorem collect_sends_down_or_panics (client : http.Client) (e : Exporter) :
  (http.Parse client (logout_url e) = None ->
   Collect client e = mkCollected [] true [])
  /\ (forall refused,
         http.Parse client (logout_url e) = Some refused ->
         exists up,
           sent (Collect client e) = [up]
           /\ prometheus.desc up = upMetric
           /\ prometheus.fqName (prometheus.desc up) = "sb8200_up"
           /\ prometheus.valueType up = prometheus.GaugeValue
           /\ prometheus.value up = f64.zero
           /\ prometheus.labelValues up = []
           /\ panicked (Collect client e) = false
           /\ collect_log (Collect client e)
              = [Scraped (LogError "Failed to fetch login tokens");
                 ScrapeFailed refused])
  /\ (forall m, In m (sent (Collect client e)) ->
                prometheus.desc m = upMetric /\ prometheus.value m = f64.zero).
Proof.
  rewrite Collect_outcome. split; [|split].
  - intros ->. reflexivity.
  - intros refused ->. eexists. cbn [sent panicked collect_log].
    split; [reflexivity|].
    cbn [prometheus.desc prometheus.valueType prometheus.value
         prometheus.labelValues].
    repeat split.
  - intros m. destruct (http.Parse client (logout_url e)); cbn [sent].
    + intros [<-|[]]. split; reflexivity.
    + intros [].
Qed.

(** The metrics the code of [Collect] builds for a modem begin with
    [sb8200_up] at the value 1.  Sending them ends in a panic exactly when
    one of the strings used as a label value is not valid UTF-8: the host,
    one of the four texts of the information page, or the ID, modulation
    or frequency of a downstream channel, or the ID, type, frequency or
    width of an upstream channel.  When none is, four metrics are sent for
    the modem, six for every downstream channel and three for every
    upstream channel; when one is, no more than that have been sent at the
    panic. *)
Theorem metrics_panic_iff (e : Exporter) (modem : ArrisModem) :
  snd (send_all (modem_metrics e modem)) = negb (labels_valid e modem)
  /\ (labels_valid e modem = true ->
      List.length (fst (send_all (modem_metrics e modem)))
      = (4 + 6 * List.length (DownstreamBondedChannels modem)
         + 3 * List.length (UpstreamBondedChannels modem))%nat)
  /\ (List.length (fst (send_all (modem_metrics e modem)))
      <= 4 + 6 * List.length (DownstreamBondedChannels modem)
         + 3 * List.length (UpstreamBondedChannels modem))%nat
  /\ (exists rest,
         modem_metrics e modem
         = Some (prometheus.mkMetric upMetric prometheus.GaugeValue f64.one [])
           :: rest).
Proof.
  pose proof (send_all_panicked (modem_metrics e modem)) as Hp.
  pose proof (send_all_length (modem_metrics e modem)) as Hlen.
  pose proof (send_all_length_le (modem_metrics e modem)) as Hle.
  rewrite modem_metrics_panic in Hp. rewrite modem_metrics_length in Hlen, Hle.
  split; [exact Hp|]. split; [|split; [exact Hle|]].
  - intros Hv. apply Hlen. rewrite Hp, Hv. reflexivity.
  - exists (tl (modem_metrics e modem)). reflexivity.
Qed.

End CollectPanics.

Section CollectWitnesses.

Lemma collect_sends_down_or_panics_witness :
  let device := Fixture.modem (Fixture.connectivity_row "OK")
                  [Fixture.ds1; Fixture.ds2] [Fixture.us1]
                  "40 days 05h:32m:52s.00" in
  Collect device Fixture.exporter = mkCollected [] true []
  /\ exists up,
       sent (Collect device Fixture.misconfigured) = [up]
       /\ prometheus.value up = f64.zero
       /\ panicked (Collect device Fixture.misconfigured) = false.
Proof.
  intros device. split.
  - exact (proj1 (collect_sends_down_or_panics device Fixture.exporter) eq_refl).
  - destruct (proj1 (proj2 (collect_sends_down_or_panics device Fixture.misconfigured))
                Fixture.malformed eq_refl)
      as (up & Hs & _ & _ & _ & Hv & _ & Hp & _).
    exists up. split; [exact Hs|]. split; [exact Hv|exact Hp].
Defined.

Lemma metrics_panic_iff_witness :
  let read downstream :=
    let page := goquery.Document
                  (Fixture.status_page (Fixture.connectivity_row "OK")
                     downstream [Fixture.us1]) in
    fst (product_information Fixture.exporter (connectivity_of page)
           (fst (downstream_of page)) (fst (upstream_of page))
           (goquery.Document (Fixture.info_page "40 days 05h:32m:52s.00"))) in
  let torn := String (ascii_of_nat 255) "20" in
  let good := read [Fixture.ds1; Fixture.ds2] in
  let bad := read [Fixture.ds1;
                   [torn; "Locked"; "QAM256"; "495000000 Hz"; "8.3 dBmV"; "40.9 dB";
                    "12"; "0"]] in
  (snd (send_all (modem_metrics Fixture.exporter good)) = false
   /\ List.length (fst (send_all (modem_metrics Fixture.exporter good))) = 19%nat)
  /\ (snd (send_all (modem_metrics Fixture.exporter bad)) = true
      /\ (List.length (fst (send_all (modem_metrics Fixture.exporter bad))) <= 19)%nat).
Proof.
  intros read torn good bad. split.
  - destruct (metrics_panic_iff Fixture.exporter good) as (Hp & Hlen & _).
    split; [rewrite Hp; vm_compute; reflexivity|].
    rewrite Hlen by (vm_compute; reflexivity). vm_compute. reflexivity.
  - destruct (metrics_panic_iff Fixture.exporter bad) as (Hp & _ & Hle & _).
    split; [rewrite Hp; vm_compute; reflexivity|].
    eapply Nat.le_trans; [exact Hle|]. vm_compute. lia.
Defined.

End CollectWitnesses.

Section CollectSeries.

Lemma flat_map_flat_map (A B C : Type) (f : A -> list B) (g : B -> list C)
    (l : list A) :
  flat_map g (flat_map f l) = flat_map (fun x => flat_map g (f x)) l.
Proof.
  induction l as [|x l IH]; [reflexivity|].
  simpl. rewrite flat_map_app, IH. reflexivity.
Qed.

Lemma flat_map_ext_in (A B : Type) (f g : A -> list B) (l : list A) :
  (forall x, In x l -> f x = g x) -> flat_map f l = flat_map g l.
Proof.
  intros H. induction l as [|x l IH]; [reflexivity|].
  simpl. rewrite (H x (or_introl eq_refl)), IH; [reflexivity|].
  intros y Hy. apply H. right. exact Hy.
Qed.

(** the keys of what [Collect] sends for a modem whose labels are valid *)
Lemma modem_metrics_keys (e : Exporter) (modem : ArrisModem) :
  labels_valid e modem = true ->
  flat_map (fun o => match o with
                     | Some m => [metric_key m]
                     | None => []
                     end) (modem_metrics e modem)
  = modem_series e modem.
Proof.
  unfold labels_valid, modem_metrics, modem_series. intros Hv.
  apply andb_prop in Hv. destruct Hv as [Hv Hus].
  apply andb_prop in Hv. destruct Hv as [Hm Hds].
  rewrite forallb_forall in Hds, Hus.
  rewrite !flat_map_app, !flat_map_flat_map.
  f_equal; [|f_equal].
  - rewrite !MustNewConstMetric_eq by reflexivity. rewrite Hm. reflexivity.
  - apply flat_map_ext_in. intros c Hc. specialize (Hds c Hc).
    cbn [forallb] in Hds.
    apply andb_prop in Hds. destruct Hds as [H1 Hds].
    apply andb_prop in Hds. destruct Hds as [H2 Hds].
    apply andb_prop in Hds. destruct Hds as [H3 _].
    unfold downstream_metrics.
    rewrite !MustNewConstMetric_eq by reflexivity.
    cbn [forallb].
    change (utf8.ValidString DOWNSTREAM) with true.
    change (utf8.ValidString EmptyString) with true.
    rewrite H1, H2, H3. reflexivity.
  - apply flat_map_ext_in. intros c Hc. specialize (Hus c Hc).
    cbn [forallb] in Hus.
    apply andb_prop in Hus. destruct Hus as [H1 Hus].
    apply andb_prop in Hus. destruct Hus as [H2 Hus].
    apply andb_prop in Hus. destruct Hus as [H3 Hus].
    apply andb_prop in Hus. destruct Hus as [H4 _].
    unfold upstream_metrics.
    rewrite !MustNewConstMetric_eq by reflexivity.
    cbn [forallb].
    change (utf8.ValidString UPSTREAM) with true.
    rewrite H1, H2, H3, H4. reflexivity.
Qed.

End CollectSeries.

Section SeriesDistinct.

Lemma nodup_app (A : Type) (a b : list A) :
  NoDup a -> NoDup b -> (forall x, In x a -> ~ In x b) -> NoDup (a ++ b)%list.
Proof.
  intros Ha Hb Hab. induction Ha as [|x a Hx _ IH]; [exact Hb|].
  simpl. constructor.
  - intros Hin. apply in_app_or in Hin. destruct Hin as [Hin|Hin].
    + exact (Hx Hin).
    + exact (Hab x (or_introl eq_refl) Hin).
  - apply IH. intros y Hy. apply Hab. right. exact Hy.
Qed.

Lemma nodup_flat_map (A B : Type) (g : A -> list B) (l : list A) :
  NoDup l ->
  (forall x, NoDup (g x)) ->
  (forall x y b, In b (g x) -> In b (g y) -> x = y) ->
  NoDup (flat_map g l).
Proof.
  intros Hl Hg Hinj. induction Hl as [|x l Hx _ IH]; [constructor|].
  simpl. apply nodup_app; [apply Hg|exact IH|].
  intros b Hb Hin. apply in_flat_map in Hin. destruct Hin as (y & Hy & Hby).
  rewrite (Hinj x y b Hb Hby) in Hx. exact (Hx Hy).
Qed.

(** what the keys of one channel look like *)
Lemma downstream_series_shape (c : DownstreamChannel) (k : string * list string) :
  In k (downstream_series c) ->
  String.prefix "sb8200_channel_" (fst k) = true
  /\ hd EmptyString (snd k) = ds_ChannelID c
  /\ last (snd k) EmptyString = DOWNSTREAM.
Proof.
  simpl. intros [<-|[<-|[<-|[<-|[<-|[<-|[]]]]]]]; repeat split.
Qed.

Lemma upstream_series_shape (c : UpstreamChannel) (k : string * list string) :
  In k (upstream_series c) ->
  String.prefix "sb8200_channel_" (fst k) = true
  /\ hd EmptyString (snd k) = us_ChannelID c
  /\ last (snd k) EmptyString = UPSTREAM.
Proof.
  simpl. intros [<-|[<-|[<-|[]]]]; repeat split.
Qed.

Lemma downstream_series_nodup (c : DownstreamChannel) : NoDup (downstream_series c).
Proof.
  unfold downstream_series.
  repeat (constructor; [simpl; intros H;
                        repeat (destruct H as [H|H]; [discriminate H|]);
                        exact H|]).
  constructor.
Qed.

Lemma upstream_series_nodup (c : UpstreamChannel) : NoDup (upstream_series c).
Proof.
  unfold upstream_series.
  repeat (constructor; [simpl; intros H;
                        repeat (destruct H as [H|H]; [discriminate H|]);
                        exact H|]).
  constructor.
Qed.

Lemma downstream_all_nodup (l : list DownstreamChannel) :
  NoDup (map ds_ChannelID l) -> NoDup (flat_map downstream_series l).
Proof.
  induction l as [|c l IH]; intros H; [constructor|].
  cbn [map] in H. inversion H as [|? ? Hc Hl]; subst.
  change (flat_map downstream_series (c :: l))
    with (downstream_series c ++ flat_map downstream_series l)%list.
  apply nodup_app; [apply downstream_series_nodup|apply IH, Hl|].
  intros k Hk Hin. apply in_flat_map in Hin. destruct Hin as (c' & Hc' & Hk').
  apply Hc.
  destruct (downstream_series_shape c k Hk) as (_ & <- & _).
  destruct (downstream_series_shape c' k Hk') as (_ & -> & _).
  apply in_map, Hc'.
Qed.

Lemma upstream_all_nodup (l : list UpstreamChannel) :
  NoDup (map us_ChannelID l) -> NoDup (flat_map upstream_series l).
Proof.
  induction l as [|c l IH]; intros H; [constructor|].
  cbn [map] in H. inversion H as [|? ? Hc Hl]; subst.
  change (flat_map upstream_series (c :: l))
    with (upstream_series c ++ flat_map upstream_series l)%list.
  apply nodup_app; [apply upstream_series_nodup|apply IH, Hl|].
  intros k Hk Hin. apply in_flat_map in Hin. destruct Hin as (c' & Hc' & Hk').
  apply Hc.
  destruct (upstream_series_shape c k Hk) as (_ & <- & _).
  destruct (upstream_series_shape c' k Hk') as (_ & -> & _).
  apply in_map, Hc'.
Qed.

Lemma lock_id_inv (direction : string) (k : string * list string) (id : string) :
  In id (lock_id direction k) -> k = ("sb8200_channel_lock", [id; direction]).
Proof.
  destruct k as [name [|a [|d [|x ls]]]]; simpl; try tauto.
  destruct (String.eqb name "sb8200_channel_lock") eqn:En; [|simpl; tauto].
  destruct (String.eqb d direction) eqn:Ed; [|simpl; tauto].
  apply String.eqb_eq in En. apply String.eqb_eq in Ed. subst.
  simpl. intros [<-|[]]. reflexivity.
Qed.

Lemma lock_id_nodup (direction : string) (k : string * list string) :
  NoDup (lock_id direction k).
Proof.
  destruct k as [name [|a [|d [|x ls]]]]; simpl; try constructor.
  destruct (_ && _); repeat constructor. simpl. tauto.
Qed.

Lemma lock_ids_downstream (e : Exporter) (modem : ArrisModem) :
  flat_map (lock_id DOWNSTREAM) (modem_series e modem)
  = map ds_ChannelID (DownstreamBondedChannels modem).
Proof.
  unfold modem_series. rewrite !flat_map_app, !flat_map_flat_map.
  replace (flat_map (fun x => flat_map (lock_id DOWNSTREAM) (upstream_series x))
             (UpstreamBondedChannels modem)) with (@nil string)
    by (induction (UpstreamBondedChannels modem) as [|c l IH];
        [reflexivity|simpl; exact IH]).
  rewrite app_nil_r. cbn [flat_map lock_id app].
  induction (DownstreamBondedChannels modem) as [|c l IH]; [reflexivity|].
  cbn [flat_map map]. rewrite IH. reflexivity.
Qed.

Lemma lock_ids_upstream (e : Exporter) (modem : ArrisModem) :
  flat_map (lock_id UPSTREAM) (modem_series e modem)
  = map us_ChannelID (UpstreamBondedChannels modem).
Proof.
  unfold modem_series. rewrite !flat_map_app, !flat_map_flat_map.
  replace (flat_map (fun x => flat_map (lock_id UPSTREAM) (downstream_series x))
             (DownstreamBondedChannels modem)) with (@nil string)
    by (induction (DownstreamBondedChannels modem) as [|c l IH];
        [reflexivity|simpl; exact IH]).
  cbn [flat_map lock_id app].
  induction (UpstreamBondedChannels modem) as [|c l IH]; [reflexivity|].
  cbn [flat_map map]. rewrite IH. reflexivity.
Qed.

(** The series of a modem are pairwise distinct exactly when no two
    downstream channels share a channel ID and no two upstream channels
    do. *)
Lemma modem_series_nodup (e : Exporter) (modem : ArrisModem) :
  NoDup (modem_series e modem)
  <-> NoDup (map ds_ChannelID (DownstreamBondedChannels modem))
      /\ NoDup (map us_ChannelID (UpstreamBondedChannels modem)).
Proof.
  split.
  - intros H. split.
    + rewrite <- (lock_ids_downstream e modem).
      apply nodup_flat_map; [exact H|apply lock_id_nodup|].
      intros x y b Hx Hy.
      rewrite (lock_id_inv _ _ _ Hx), (lock_id_inv _ _ _ Hy). reflexivity.
    + rewrite <- (lock_ids_upstream e modem).
      apply nodup_flat_map; [exact H|apply lock_id_nodup|].
      intros x y b Hx Hy.
      rewrite (lock_id_inv _ _ _ Hx), (lock_id_inv _ _ _ Hy). reflexivity.
  - intros [Hd Hu]. unfold modem_series.
    apply nodup_app; [|apply nodup_app|].
    + repeat (constructor; [simpl; intros H;
                            repeat (destruct H as [H|H]; [discriminate H|]);
                            exact H|]).
      constructor.
    + apply downstream_all_nodup, Hd.
    + apply upstream_all_nodup, Hu.
    + intros k Hk Hin.
      apply in_flat_map in Hk. destruct Hk as (c & _ & Hk).
      apply in_flat_map in Hin. destruct Hin as (c' & _ & Hk').
      destruct (downstream_series_shape c k Hk) as (_ & _ & Hl).
      destruct (upstream_series_shape c' k Hk') as (_ & _ & Hl').
      rewrite Hl in Hl'. discriminate Hl'.
    + intros k Hk Hin.
      assert (Hp : String.prefix "sb8200_channel_" (fst k) = true).
      { apply in_app_or in Hin. destruct Hin as [Hin|Hin];
          apply in_flat_map in Hin; destruct Hin as (c & _ & Hin).
        - apply (downstream_series_shape c k Hin).
        - apply (upstream_series_shape c k Hin). }
      simpl in Hk.
      destruct Hk as [<-|[<-|[<-|[<-|[]]]]]; discriminate Hp.
Qed.

(** When every label value of a modem is valid UTF-8, the metrics the code
    of [Collect] sends for it have exactly the names and label values of
    the modem's series, in order: four for the modem, six for every
    downstream channel, three for every upstream channel.  No two of them
    have the same name and label values exactly when no two downstream
    channels of the modem have the same channel ID and no two upstream
    channels have.  (A downstream and an upstream channel may share an ID:
    the direction label tells them apart.) *)
Theorem series_no_duplicates (e : Exporter) (modem : ArrisModem) :
  labels_valid e modem = true ->
  map metric_key (fst (send_all (modem_metrics e modem))) = modem_series e modem
  /\ (NoDup (map metric_key (fst (send_all (modem_metrics e modem))))
      <-> NoDup (map ds_ChannelID (DownstreamBondedChannels modem))
          /\ NoDup (map us_ChannelID (UpstreamBondedChannels modem))).
Proof.
  intros Hv.
  assert (Hkeys : map metric_key (fst (send_all (modem_metrics e modem)))
                  = modem_series e modem).
  { rewrite send_all_keys
      by (rewrite send_all_panicked, modem_metrics_panic, Hv; reflexivity).
    apply modem_metrics_keys, Hv. }
  rewrite Hkeys. split; [reflexivity|apply modem_series_nodup].
Qed.

End SeriesDistinct.

Section CollectSeriesWitness.

Lemma series_no_duplicates_witness :
  let read downstream :=
    let page := goquery.Document
                  (Fixture.status_page (Fixture.connectivity_row "OK")
                     downstream [Fixture.us1]) in
    fst (product_information Fixture.exporter (connectivity_of page)
           (fst (downstream_of page)) (fst (upstream_of page))
           (goquery.Document (Fixture.info_page "40 days 05h:32m:52s.00"))) in
  let good := read [Fixture.ds1; Fixture.ds2] in
  let twice := read [Fixture.ds1; Fixture.ds1] in
  NoDup (map metric_key (fst (send_all (modem_metrics Fixture.exporter good))))
  /\ ~ NoDup (map metric_key (fst (send_all (modem_metrics Fixture.exporter twice)))).
Proof.
  intros read good twice. split.
  - apply (proj2 (series_no_duplicates Fixture.exporter good
                    ltac:(vm_compute; reflexivity))).
    vm_compute. split; repeat constructor; simpl; intuition discriminate.
  - intros H.
    apply (proj2 (series_no_duplicates Fixture.exporter twice
                    ltac:(vm_compute; reflexivity))) in H.
    destruct H as [H _]. vm_compute in H.
    inversion H as [|? ? Hn _]. apply Hn. left. reflexivity.
Defined.

End CollectSeriesWitness.

Section Credentials.

Lemma byte_of_code (a : ascii) : base64.byte_of (byte.code a) = a.
Proof.
  unfold base64.byte_of, byte.code. rewrite N2Z.id. apply ascii_N_embedding.
Qed.

Lemma code_range (a : ascii) : 0 <= byte.code a < 256.
Proof.
  unfold byte.code. pose proof (N_ascii_bounded a). lia.
Qed.

Lemma byte_of_eq (n : Z) (a : ascii) : n = byte.code a -> base64.byte_of n = a.
Proof. intros ->. apply byte_of_code. Qed.

Lemma sextet_In (n : Z) : 0 <= n < 64 -> In n (map Z.of_nat (seq 0 64)).
Proof.
  intros H. replace n with (Z.of_nat (Z.to_nat n)) by lia.
  apply in_map, in_seq. lia.
Qed.

Lemma dec_enc (n : Z) :
  0 <= n < 64 ->
  base64.dec (base64.enc n) = Some n
  /\ Ascii.eqb (base64.enc n) base64.StdPadding = false.
Proof.
  intros H. apply sextet_In in H. revert n H. apply Forall_forall.
  repeat (apply Forall_cons; [split; vm_compute; reflexivity|]).
  apply Forall_nil.
Qed.

Ltac sextet :=
  match goal with
  | |- context [base64.dec (base64.enc ?n)] =>
      let H := fresh in
      assert (H : 0 <= n < 64) by (Z.div_mod_to_equations; lia);
      let H1 := fresh in
      let H2 := fresh in
      destruct (dec_enc n H) as [H1 H2]; rewrite H1; try rewrite H2;
      clear H H1 H2
  end.

Ltac bytes :=
  repeat match goal with
         | |- Some _ = Some _ => f_equal
         | |- String _ _ = String _ _ => f_equal
         | |- base64.byte_of _ = _ =>
             apply byte_of_eq; Z.div_mod_to_equations; lia
         end;
  try reflexivity.

Lemma decode_encode_one (a : ascii) :
  base64.decode (base64.EncodeToString (String a EmptyString))
  = Some (String a EmptyString).
Proof.
  pose proof (code_range a) as Ha.
  cbn [base64.EncodeToString base64.decode]. cbv zeta.
  repeat sextet.
  rewrite ?Ascii.eqb_refl. cbv iota.
  bytes.
Qed.

Lemma decode_encode_two (a b : ascii) :
  base64.decode (base64.EncodeToString (String a (String b EmptyString)))
  = Some (String a (String b EmptyString)).
Proof.
  pose proof (code_range a) as Ha. pose proof (code_range b) as Hb.
  cbn [base64.EncodeToString base64.decode]. cbv zeta.
  repeat sextet.
  rewrite ?Ascii.eqb_refl. cbv iota.
  bytes.
Qed.

Lemma decode_encode_three (a b c : ascii) (r : string) :
  base64.decode (base64.EncodeToString r) = Some r ->
  base64.decode (base64.EncodeToString (String a (String b (String c r))))
  = Some (String a (String b (String c r))).
Proof.
  intros Hr.
  pose proof (code_range a) as Ha. pose proof (code_range b) as Hb.
  pose proof (code_range c) as Hc.
  cbn [base64.EncodeToString]. cbv zeta.
  cbn [base64.decode]. cbv zeta.
  repeat sextet. rewrite Hr.
  bytes.
Qed.

Lemma decode_encode_step (s : string) :
  base64.decode (base64.EncodeToString s) = Some s
  /\ (forall a, base64.decode (base64.EncodeToString (String a s))
                = Some (String a s))
  /\ (forall a b, base64.decode (base64.EncodeToString (String a (String b s)))
                  = Some (String a (String b s))).
Proof.
  induction s as [|c r (Hr & Hr1 & Hr2)].
  - split; [reflexivity|].
    split; [exact decode_encode_one|exact decode_encode_two].
  - split; [apply Hr1|]. split; [intros a; apply Hr2|].
    intros a b. apply decode_encode_three, Hr.
Qed.

Lemma decode_EncodeToString (s : string) :
  base64.decode (base64.EncodeToString s) = Some s.
Proof. apply decode_encode_step. Qed.

Lemma EncodeToString_inj (s t : string) :
  base64.EncodeToString s = base64.EncodeToString t -> s = t.
Proof.
  intros H. apply (f_equal base64.decode) in H.
  rewrite !decode_EncodeToString in H. congruence.
Qed.

Lemma colon_split (u u' p p' : string) :
  byte.mem ":" u = false -> byte.mem ":" u' = false ->
  (u ++ ":" ++ p = u' ++ ":" ++ p')%string -> u = u' /\ p = p'.
Proof.
  revert u'. induction u as [|a u IH]; intros [|a' u'] Hu Hu' H;
    cbn [byte.mem] in Hu, Hu'; cbn [append] in H.
  - injection H as H. split; [reflexivity|exact H].
  - injection H as Ha _. subst a'.
    rewrite Ascii.eqb_refl in Hu'. discriminate Hu'.
  - injection H as Ha _. subst a.
    rewrite Ascii.eqb_refl in Hu. discriminate Hu.
  - injection H as Ha H. subst a'.
    apply orb_false_elim in Hu. apply orb_false_elim in Hu'.
    destruct (IH u' (proj2 Hu) (proj2 Hu') H) as [-> ->]. split; reflexivity.
Qed.

(** [NewExporter] keeps the credentials apart: when no user name holds a
    colon, two exporters are equal only if they were made from the same
    host, user name and password. *)
Theorem credentials_from_token (host host' user user' pass pass' : string) :
  byte.mem ":" user = false ->
  byte.mem ":" user' = false ->
  NewExporter host user pass = NewExporter host' user' pass' ->
  host = host' /\ user = user' /\ pass = pass'.
Proof.
  intros Hu Hu' H. unfold NewExporter in H. injection H as Hh Ht.
  split; [exact Hh|].
  apply EncodeToString_inj in Ht. apply colon_split; assumption.
Qed.

Lemma credentials_from_token_witness :
  NewExporter "192.168.100.1" "admin" "password" = Fixture.exporter
  /\ (e_Host Fixture.exporter = "192.168.100.1"
      /\ "admin" = "admin" /\ "password" = "password").
Proof.
  split; [reflexivity|].
  apply (credentials_from_token (e_Host Fixture.exporter) "192.168.100.1"
           "admin" "admin" "password" "password");
    [reflexivity|reflexivity|reflexivity].
Defined.

Lemma append_assoc (a b c : string) :
  ((a ++ b) ++ c = a ++ (b ++ c))%string.
Proof.
  induction a as [|x a IH]; [reflexivity|]. simpl. rewrite IH. reflexivity.
Qed.

(** A colon in the user name is not told apart from the separator: the
    user [u:v] with password [p] and the user [u] with password [v:p]
    give the same exporter, and so the same login request. *)
Theorem colon_in_user_name (host u v p : string) :
  NewExporter host (u ++ ":" ++ v) p = NewExporter host u (v ++ ":" ++ p)
  /\ login_url (NewExporter host (u ++ ":" ++ v) p)
     = login_url (NewExporter host u (v ++ ":" ++ p)).
Proof.
  assert (H : NewExporter host (u ++ ":" ++ v) p
              = NewExporter host u (v ++ ":" ++ p)).
  { unfold NewExporter. do 2 f_equal.
    rewrite append_assoc. f_equal. }
  split; [exact H|rewrite H; reflexivity].
Qed.

End Credentials.
